(** * NetKeyer, cw-monitor-dnn: Morse timing generators, ratio validator,
    sequence window builder and training loop controller.

    The Python sources are embedded shallowly:
    - Python floats are idealised as exact rationals ([Q]); where the code
      can meet a non-finite value (the validation loss, a numpy division by
      zero) the special values are kept in [pyfloat];
    - exceptions are the [Raise] alternative of [result];
    - the two random generators in use (Python's [random] and numpy's
      [np.random]) are oracles: streams of draws with a read position,
      threaded through a state-and-exception monad;
    - torch tensors are references into a store of tensor contents, so that
      sharing between a module's parameters and a state dict is visible. *)

From Stdlib Require Import QArith Qabs ZArith List Lia Bool Ascii String.
From stdpp Require Import base gmap strings list.
Import ListNotations.

(** ** Python values, exceptions and the state-and-exception monad *)

Module Py.

Inductive pykey : Type :=
| KInt (z : Z)
| KStr (s : string).

Inductive exn : Type :=
| ZeroDivisionError
| KeyError (k : pykey)
| IndexError
| RuntimeError (msg : string).

Inductive result (A : Type) : Type :=
| Ok (a : A)
| Raise (e : exn).
Arguments Ok {A} a.
Arguments Raise {A} e.

Definition rbind {A B} (r : result A) (k : A -> result B) : result B :=
  match r with
  | Ok a => k a
  | Raise e => Raise e
  end.

(** A computation over a state [S] that returns an [A] or raises. *)
Definition M (S A : Type) : Type := S -> result (A * S).

Definition ret {S A} (a : A) : M S A := fun s => Ok (a, s).

Definition bind {S A B} (c : M S A) (k : A -> M S B) : M S B :=
  fun s =>
    match c s with
    | Ok (a, s') => k a s'
    | Raise e => Raise e
    end.

Definition lift {S A} (r : result A) : M S A :=
  fun s =>
    match r with
    | Ok a => Ok (a, s)
    | Raise e => Raise e
    end.

(** [for x in xs: st = body x st], with the loop variables in [st]. *)
Fixpoint for_each {S I St} (body : I -> St -> M S St) (xs : list I) (st : St)
  : M S St :=
  match xs with
  | [] => ret st
  | x :: xs' => bind (body x st) (for_each body xs')
  end.

(** Strict comparison of two (finite) floats. *)
Definition Qltb (x y : Q) : bool := negb (Qle_bool y x).

(** The builtin [max(a, b)]: the first argument is kept unless the second
    is strictly greater. *)
Definition py_max (a b : Q) : Q := if Qltb a b then b else a.

(** [a / b] on Python floats: a zero divisor raises. *)
Definition float_div (a b : Q) : result Q :=
  if Qeq_bool b 0 then Raise ZeroDivisionError else Ok (a / b)%Q.

(** Floats that may be non-finite. *)
Inductive pyfloat : Type :=
| NaN
| NegInf
| Finite (q : Q)
| PosInf.

(** [a < b] as IEEE comparison: false as soon as one side is NaN. *)
Definition float_lt (a b : pyfloat) : bool :=
  match a, b with
  | NaN, _ => false
  | _, NaN => false
  | NegInf, NegInf => false
  | NegInf, _ => true
  | Finite _, NegInf => false
  | Finite x, Finite y => Qltb x y
  | Finite _, PosInf => true
  | PosInf, _ => false
  end.

(** Division of two numpy float64 scalars: no exception, a zero divisor
    gives an infinity or NaN. *)
Definition np_div (a b : Q) : pyfloat :=
  if Qeq_bool b 0 then
    (if Qeq_bool a 0 then NaN else if Qltb 0 a then PosInf else NegInf)
  else Finite (a / b)%Q.

End Py.

Import Py.

Notation "'let*' x ':=' c 'in' k" := (bind c (fun x => k))
  (at level 10, x pattern, c at level 100, k at level 200).
Notation "'let?' x ':=' c 'in' k" := (rbind c (fun x => k))
  (at level 10, x pattern, c at level 100, k at level 200).

(** ** The random sources *)

Module Rng.

(** [random_stream n] is the n-th value [random.random()] returns (a float
    of [0, 1)), [choice_stream n] the n-th raw index drawn for
    [random.choice], [gauss_stream n] the n-th standard normal deviate of
    numpy's generator. *)
Record rng : Type := mk_rng {
  random_stream : nat -> Q;
  choice_stream : nat -> nat;
  gauss_stream : nat -> Q;
  random_pos : nat;
  choice_pos : nat;
  gauss_pos : nat
}.

Definition random_random : M rng Q :=
  fun g =>
    Ok (random_stream g (random_pos g),
        mk_rng (random_stream g) (choice_stream g) (gauss_stream g)
               (S (random_pos g)) (choice_pos g) (gauss_pos g)).

(** [random.uniform(a, b)] is [a + (b - a) * random()]. *)
Definition random_uniform (a b : Q) : M rng Q :=
  let* u := random_random in ret (a + (b - a) * u)%Q.

(** [random.choice(xs)]: an index below [len(xs)]; empty [xs] raises. *)
Definition random_choice {A} (xs : list A) : M rng A :=
  fun g =>
    match xs !! (choice_stream g (choice_pos g) mod length xs)%nat with
    | Some x =>
        Ok (x, mk_rng (random_stream g) (choice_stream g) (gauss_stream g)
                      (random_pos g) (S (choice_pos g)) (gauss_pos g))
    | None => Raise IndexError
    end.

(** [np.random.normal(loc, scale)] is [loc + scale * z] for a standard
    normal deviate [z]. *)
Definition np_random_normal (loc scale : Q) : M rng Q :=
  fun g =>
    Ok ((loc + scale * gauss_stream g (gauss_pos g))%Q,
        mk_rng (random_stream g) (choice_stream g) (gauss_stream g)
               (random_pos g) (choice_pos g) (S (gauss_pos g))).

End Rng.

Import Rng.

(** One line of the generated table: [duration_ms, is_key_down, label]. *)
Record row : Type := mk_row {
  duration_ms : Q;
  is_key_down : Z;
  label : Z
}.

(** The International Morse table both sequence generators carry, in the
    insertion order of the dict literal. *)
Definition morse_table : list (string * string) :=
  [ ("A", ".-");    ("B", "-...");  ("C", "-.-.");  ("D", "-..");   ("E", ".");
    ("F", "..-.");  ("G", "--.");   ("H", "....");  ("I", "..");    ("J", ".---");
    ("K", "-.-");   ("L", ".-..");  ("M", "--");    ("N", "-.");    ("O", "---");
    ("P", ".--.");  ("Q", "--.-");  ("R", ".-.");   ("S", "...");   ("T", "-");
    ("U", "..-");   ("V", "...-");  ("W", ".--");   ("X", "-..-");  ("Y", "-.--");
    ("Z", "--..");  ("0", "-----"); ("1", ".----"); ("2", "..---"); ("3", "...--");
    ("4", "....-"); ("5", "....."); ("6", "-...."); ("7", "--..."); ("8", "---..");
    ("9", "----.") ]%string.

(** [d[key]] on a dict given by its items. *)
Fixpoint dict_getitem (d : list (string * string)) (key : string) : result string :=
  match d with
  | [] => Raise (KeyError (KStr key))
  | (k, v) :: d' => if String.eqb k key then Ok v else dict_getitem d' key
  end.

Definition dict_keys (d : list (string * string)) : list string := map fst d.

(** [enumerate(xs)] *)
Definition enumerate {A} (xs : list A) : list (nat * A) :=
  combine (seq 0 (length xs)) xs.

(** ** generate_morse_training_data_v3.py *)

Module GenV3.

Definition DIT_UNITS : Z := 1.
Definition DAH_UNITS : Z := 3.
Definition ELEMENT_GAP : Z := 1.
Definition LETTER_GAP : Z := 3.
Definition WORD_GAP : Z := 7.

Definition JITTER_SIGMA : Q := 0.08.

Definition WPM_MIN : Q := 10.
Definition WPM_MAX : Q := 40.

Definition wpm_to_dit_duration (wpm : Q) : result Q := float_div 1.2 wpm.

Definition dit_to_milliseconds (dit_units : Z) (wpm : Q) : result Q :=
  let? dit_duration_sec := wpm_to_dit_duration wpm in
  Ok (inject_Z dit_units * dit_duration_sec * 1000)%Q.

Definition apply_human_jitter (duration_ms : Q) (sigma : Q) : M rng Q :=
  let* sample := np_random_normal 1 sigma in
  let jittered := (duration_ms * sample)%Q in
  ret (py_max jittered 1).

(** The module constant [JITTER_SIGMA] is read at each call; the generators
    take it as [sigma] so that a run with another setting can be stated.
    The loop variables are [current_wpm] (unbound before iteration 0, which
    always binds it) and [data]. *)
Definition dataset_body (sigma : Q) (wpm_range : Q * Q) (i : nat)
    (st : Q * list row) : M rng (Q * list row) :=
  let '(current_wpm, data) := st in
  let* current_wpm :=
    (if (i mod 100 =? 0)%nat
     then random_uniform (fst wpm_range) (snd wpm_range)
     else ret current_wpm) in
  let* choice := random_random in
  let '(timing_units, is_key_down, label) :=
    (if Qltb choice 0.20 then (DIT_UNITS, 1%Z, 0%Z)
     else if Qltb choice 0.35 then (DAH_UNITS, 1%Z, 1%Z)
     else if Qltb choice 0.55 then (ELEMENT_GAP, 0%Z, 2%Z)
     else if Qltb choice 0.80 then (LETTER_GAP, 0%Z, 3%Z)
     else (WORD_GAP, 0%Z, 4%Z)) in
  let* duration_ms := lift (dit_to_milliseconds timing_units current_wpm) in
  let* duration_ms := apply_human_jitter duration_ms sigma in
  ret (current_wpm, data ++ [mk_row duration_ms is_key_down label]).

Definition generate_morse_dataset_v3 (sigma : Q) (num_samples : nat)
    (wpm_range : Q * Q) : M rng (list row) :=
  let* (_, data) :=
    for_each (dataset_body sigma wpm_range) (seq 0 num_samples) (0%Q, []) in
  ret data.

Definition morse_code : list (string * string) := morse_table.

(** One pass of [for j, symbol in enumerate(pattern)]. *)
Definition symbol_body (sigma : Q) (current_wpm : Q) (pattern : list ascii)
    (js : nat * ascii) (data : list row) : M rng (list row) :=
  let '(j, symbol) := js in
  let '(timing_units, label) :=
    (if Ascii.eqb symbol "."%char then (DIT_UNITS, 0%Z) else (DAH_UNITS, 1%Z)) in
  let* duration_ms := lift (dit_to_milliseconds timing_units current_wpm) in
  let* duration_ms := apply_human_jitter duration_ms sigma in
  let data := data ++ [mk_row duration_ms 1 label] in
  if (Z.of_nat j <? Z.of_nat (length pattern) - 1)%Z then
    let* duration_ms := lift (dit_to_milliseconds ELEMENT_GAP current_wpm) in
    let* duration_ms := apply_human_jitter duration_ms sigma in
    ret (data ++ [mk_row duration_ms 0 2])
  else ret data.

(** Everything one character appends to [data]: its pulses and element
    gaps, then the letter or word space. *)
Definition character_rows (sigma : Q) (current_wpm : Q) (pattern : list ascii)
    (data : list row) : M rng (list row) :=
  let* data :=
    for_each (symbol_body sigma current_wpm pattern) (enumerate pattern) data in
  let* u := random_random in
  let '(timing_units, label) :=
    (if Qltb u 0.25 then (WORD_GAP, 4%Z) else (LETTER_GAP, 3%Z)) in
  let* duration_ms := lift (dit_to_milliseconds timing_units current_wpm) in
  let* duration_ms := apply_human_jitter duration_ms sigma in
  ret (data ++ [mk_row duration_ms 0 label]).

Definition sequence_body (sigma : Q) (wpm_range : Q * Q) (i : nat)
    (st : Q * list row) : M rng (Q * list row) :=
  let '(current_wpm, data) := st in
  let* current_wpm :=
    (if (i mod 50 =? 0)%nat
     then random_uniform (fst wpm_range) (snd wpm_range)
     else ret current_wpm) in
  let* char := random_choice (dict_keys morse_code) in
  let* pattern := lift (dict_getitem morse_code char) in
  let* data :=
    character_rows sigma current_wpm (list_ascii_of_string pattern) data in
  ret (current_wpm, data).

Definition generate_sequence_based_data_v3 (sigma : Q) (num_characters : nat)
    (wpm_range : Q * Q) : M rng (list row) :=
  let* (_, data) :=
    for_each (sequence_body sigma wpm_range) (seq 0 num_characters) (0%Q, []) in
  ret data.

End GenV3.

(** *** The ratio validator (same file) *)

Module Validator.

(** One entry of [results].  ['std'] is pandas' sample standard deviation;
    its square root has no rational value, so the entry keeps the square
    ([std_sq], None standing for the NaN of a one-element class). *)
Record stats : Type := mk_stats {
  mean : Q;
  std_sq : option Q;
  count : nat
}.

(** What the function prints under "Timing Ratio Validation" and
    "Validation Results". *)
Record report : Type := mk_report {
  dah_ratio : pyfloat;
  letter_ratio : pyfloat;
  word_ratio : pyfloat;
  dah_valid : bool;
  letter_valid : bool;
  word_valid : bool
}.

Definition series_sum (xs : list Q) : Q := fold_left Qplus xs 0%Q.

(** [Series.mean()] *)
Definition series_mean (xs : list Q) : Q :=
  (series_sum xs / inject_Z (Z.of_nat (length xs)))%Q.

(** The square of [Series.std()] (ddof = 1). *)
Definition series_var (xs : list Q) : option Q :=
  if (length xs <=? 1)%nat then None
  else
    let m := series_mean xs in
    Some (series_sum (map (fun x => (x - m) * (x - m))%Q xs)
          / inject_Z (Z.of_nat (length xs) - 1))%Q.

(** [df[df['label'] == lbl]['duration_ms']] *)
Definition label_durations (df : list row) (lbl : Z) : list Q :=
  map duration_ms (List.filter (fun r => (label r =? lbl)%Z) df).

(** [results[k]] *)
Definition results_getitem (results : gmap Z stats) (k : Z) : result stats :=
  match results !! k with
  | Some r => Ok r
  | None => Raise (KeyError (KInt k))
  end.

(** [abs(ratio - expected) / expected < tolerance] *)
Definition ratio_valid (ratio : pyfloat) (expected tolerance : Q) : bool :=
  match ratio with
  | Finite r => Qltb (Qabs (r - expected) / expected) tolerance
  | _ => false
  end.

(** The loop [for label in range(5)] that fills [results]. *)
Definition collect_results (df : list row) : gmap Z stats :=
  fold_left
    (fun (results : gmap Z stats) (lbl : Z) =>
       let xs := label_durations df lbl in
       if (0 <? length xs)%nat
       then <[lbl := mk_stats (series_mean xs) (series_var xs) (length xs)]> results
       else results)
    [0; 1; 2; 3; 4]%Z (∅ : gmap Z stats).

(** Returns [results]; the second component is the printed report.  The
    per-label listing between the first lookup and the ratio lines is
    guarded by [if label in results] and only prints. *)
Definition validate_timing_standards (df : list row)
  : result (gmap Z stats * report) :=
  let results := collect_results df in
  let? r0 := results_getitem results 0 in
  let dit_mean := mean r0 in
  let? r1 := results_getitem results 1 in
  let? r3 := results_getitem results 3 in
  let? r4 := results_getitem results 4 in
  let dah_ratio := np_div (mean r1) dit_mean in
  let letter_ratio := np_div (mean r3) dit_mean in
  let word_ratio := np_div (mean r4) dit_mean in
  let tolerance := 0.20%Q in
  let dah_valid := ratio_valid dah_ratio 3 tolerance in
  let letter_valid := ratio_valid letter_ratio 3 tolerance in
  let word_valid := ratio_valid word_ratio 7 tolerance in
  Ok (results,
      mk_report dah_ratio letter_ratio word_ratio dah_valid letter_valid word_valid).

End Validator.

(** ** generate_morse_training_data_v2.py *)

Module GenV2.

(** [jitter = lambda x: x * np.random.normal(1.0, 0.08)] *)
Definition jitter (x : Q) : M rng Q :=
  let* sample := np_random_normal 1 0.08 in ret (x * sample)%Q.

Definition dataset_body (base_dit_ms : Q) (_ : nat) (data : list row)
  : M rng (list row) :=
  let* u := random_uniform 0.8 1.2 in
  let current_dit := (base_dit_ms * u)%Q in
  let current_dah := (current_dit * 3)%Q in
  let* choice := random_random in
  let* (duration, is_key_down, label) :=
    (if Qltb choice 0.25 then
       let* duration := jitter current_dit in ret (duration, 1%Z, 0%Z)
     else if Qltb choice 0.50 then
       let* duration := jitter current_dah in ret (duration, 1%Z, 1%Z)
     else if Qltb choice 0.75 then
       let* duration := jitter current_dit in ret (duration, 0%Z, 2%Z)
     else
       let* duration := jitter (current_dit * 7)%Q in ret (duration, 0%Z, 3%Z)) in
  ret (data ++ [mk_row duration is_key_down label]).

Definition generate_morse_dataset_v2 (num_samples : nat) (base_dit_ms : Q)
  : M rng (list row) :=
  for_each (dataset_body base_dit_ms) (seq 0 num_samples) [].

Definition morse_code : list (string * string) := morse_table.

(** One pass of [for i, symbol in enumerate(pattern)]. *)
Definition symbol_body (current_dit current_dah : Q) (pattern : list ascii)
    (js : nat * ascii) (data : list row) : M rng (list row) :=
  let '(i, symbol) := js in
  let* data :=
    (if Ascii.eqb symbol "."%char then
       let* d := jitter current_dit in ret (data ++ [mk_row d 1 0])
     else
       let* d := jitter current_dah in ret (data ++ [mk_row d 1 1])) in
  if (Z.of_nat i <? Z.of_nat (length pattern) - 1)%Z then
    let* d := jitter current_dit in ret (data ++ [mk_row d 0 2])
  else ret data.

(** The gap that ends a character. *)
Definition terminal_gap (current_dit : Q) (data : list row) : M rng (list row) :=
  let* u := random_random in
  if Qltb u 0.3 then
    let* d := jitter (current_dit * 7)%Q in ret (data ++ [mk_row d 0 3])
  else
    let* d := jitter (current_dit * 3)%Q in ret (data ++ [mk_row d 0 2]).

Definition character_body (base_dit_ms : Q) (_ : nat) (data : list row)
  : M rng (list row) :=
  let* char := random_choice (dict_keys morse_code) in
  let* pattern := lift (dict_getitem morse_code char) in
  let pattern := list_ascii_of_string pattern in
  let* u := random_uniform 0.8 1.2 in
  let current_dit := (base_dit_ms * u)%Q in
  let current_dah := (current_dit * 3)%Q in
  let* data :=
    for_each (symbol_body current_dit current_dah pattern) (enumerate pattern) data in
  terminal_gap current_dit data.

Definition generate_sequence_based_data (num_characters : nat) (base_dit_ms : Q)
  : M rng (list row) :=
  for_each (character_body base_dit_ms) (seq 0 num_characters) [].

End GenV2.

(** ** train_morse_model_v3.py *)

Module TrainV3.

(** *** Sequence windows *)

(** [for x in xs: st = body x st] for a body that can raise. *)
Fixpoint for_each_r {I St} (body : I -> St -> result St) (xs : list I) (st : St)
  : result St :=
  match xs with
  | [] => Ok st
  | x :: xs' => let? st' := body x st in for_each_r body xs' st'
  end.

(** [a[i]] on an array, for an index that is not negative. *)
Definition array_getitem {B} (a : list B) (i : nat) : result B :=
  match a !! i with
  | Some b => Ok b
  | None => Raise IndexError
  end.

(** [X[lo:hi]] for indices that are not negative. *)
Definition slice {A} (X : list A) (lo hi : nat) : list A :=
  take (hi - lo) (drop lo X).

Definition create_sequences {A B} (X : list A) (y : list B) (seq_len : nat)
  : result (list (list A) * list B) :=
  for_each_r
    (fun i '(X_seq, y_seq) =>
       let X_seq := X_seq ++ [slice X i (i + seq_len)] in
       let? t := array_getitem y (i + seq_len) in
       Ok (X_seq, y_seq ++ [t]))
    (seq 0 (Z.to_nat (Z.of_nat (length X) - Z.of_nat seq_len)))
    ([], []).

Definition prepare_sequence_data {A B} (X_train X_test : list A)
    (y_train y_test : list B) (sequence_length : nat)
  : result (list (list A) * list (list A) * list B * list B) :=
  let? (X_train_seq, y_train_seq) := create_sequences X_train y_train sequence_length in
  let? (X_test_seq, y_test_seq) := create_sequences X_test y_test sequence_length in
  Ok (X_train_seq, X_test_seq, y_train_seq, y_test_seq).

(** *** Tensors, modules and state dicts

    A tensor is a reference to its storage; [store] gives the contents of
    each storage.  The optimizer updates parameters in place, that is, it
    writes the store at the parameters' own references. *)

Definition loc : Type := nat.

Definition store (V : Type) : Type := loc -> V.

Definition store_set {V} (h : store V) (l : loc) (v : V) : store V :=
  fun l' => if Nat.eqb l' l then v else h l'.

Record nn_module : Type := mk_module {
  named_parameters : list (string * loc)
}.

(** [model.state_dict()]: a new dict from parameter names to tensors that
    share the parameters' storage. *)
Definition state_dict (model : nn_module) : gmap string loc :=
  list_to_map (named_parameters model).

(** [d.copy()]: a new dict holding the same values, here the same tensor
    references (a shallow copy). *)
Definition dict_copy (d : gmap string loc) : gmap string loc := d.

(** The per-epoch figures appended to [history]. *)
Record metrics : Type := mk_metrics {
  train_loss : pyfloat;
  train_acc : pyfloat;
  val_loss : pyfloat;
  val_acc : pyfloat
}.

Record history_t : Type := mk_history {
  hist_train_loss : list pyfloat;
  hist_train_acc : list pyfloat;
  hist_val_loss : list pyfloat;
  hist_val_acc : list pyfloat
}.

Definition history_append (h : history_t) (m : metrics) : history_t :=
  mk_history (hist_train_loss h ++ [train_loss m])
             (hist_train_acc h ++ [train_acc m])
             (hist_val_loss h ++ [val_loss m])
             (hist_val_acc h ++ [val_acc m]).

(** The loop variables of [train_model]. *)
Record train_state : Type := mk_train_state {
  history : history_t;
  best_val_loss : pyfloat;
  patience_counter : Z;
  best_model_state : option (gmap string loc)
}.

Section Train.

Context {V : Type}.

(** The model under training. *)
Variable model : nn_module.

(** The training pass and the validation pass of one epoch are opaque:
    from the epoch number and the current parameter contents they give the
    contents the optimizer leaves behind and the epoch's figures, or
    raise. *)
Variable run_epoch : nat -> list V -> result (list V * metrics).

Variable patience : Z.

Definition read_parameters (h : store V) : list V :=
  map (fun p => h (snd p)) (named_parameters model).

Definition write_parameters (vals : list V) (h : store V) : store V :=
  fold_left (fun h pv => store_set h (snd (fst pv)) (snd pv))
            (combine (named_parameters model) vals) h.

Definition epoch_pass (epoch : nat) : M (store V) metrics :=
  fun h =>
    let? (vals, m) := run_epoch epoch (read_parameters h) in
    Ok (m, write_parameters vals h).

(** [model.load_state_dict(sd)] (strict): every parameter is overwritten
    in place with the contents of the tensor [sd] holds under its name;
    missing or unexpected keys raise. *)
Fixpoint copy_parameters (ps : list (string * loc)) (sd : gmap string loc)
    (h : store V) : result (store V) :=
  match ps with
  | [] => Ok h
  | (name, l) :: ps' =>
      match sd !! name with
      | Some src => copy_parameters ps' sd (store_set h l (h src))
      | None => Raise (RuntimeError "Missing key(s) in state_dict")
      end
  end.

Definition load_state_dict (sd : gmap string loc) : M (store V) unit :=
  fun h =>
    if bool_decide (dom sd ⊆ list_to_set (map fst (named_parameters model)))
    then let? h' := copy_parameters (named_parameters model) sd h in Ok (tt, h')
    else Raise (RuntimeError "Unexpected key(s) in state_dict").

(** The epoch loop.  The second component of the result is the epoch
    number printed by "Early stopping at epoch ..." when the loop was left
    through [break].  [scheduler.step(val_loss)] only changes the learning
    rate the opaque optimizer reads. *)
Fixpoint epoch_loop (epochs : list nat) (st : train_state)
  : M (store V) (train_state * option nat) :=
  match epochs with
  | [] => ret (st, None)
  | epoch :: rest =>
      let* m := epoch_pass epoch in
      let history := history_append (history st) m in
      if float_lt (val_loss m) (best_val_loss st) then
        epoch_loop rest
          (mk_train_state history (val_loss m) 0
                          (Some (dict_copy (state_dict model))))
      else
        let patience_counter := (patience_counter st + 1)%Z in
        let st' := mk_train_state history (best_val_loss st) patience_counter
                                  (best_model_state st) in
        if (patience_counter >=? patience)%Z
        then ret (st', Some (epoch + 1)%nat)
        else epoch_loop rest st'
  end.

Definition initial_state : train_state :=
  mk_train_state (mk_history [] [] [] []) PosInf 0 None.

(** [train_model] up to its [return]: the final loop variables and the
    early-stop epoch, after the best state was loaded back. *)
Definition train_model_run (epochs : nat)
  : M (store V) (train_state * option nat) :=
  let* (st, stopped) := epoch_loop (seq 0 epochs) initial_state in
  let* _ :=
    match best_model_state st with
    | Some sd => load_state_dict sd
    | None => ret tt
    end in
  ret (st, stopped).

Definition train_model (epochs : nat) : M (store V) history_t :=
  let* (st, _) := train_model_run epochs in ret (history st).

End Train.

End TrainV3.


(** ** train_morse_model_v3.py: evaluation and per-epoch figures *)

Module EvalV3.

(** [a / b] on Python ints: a float, or [ZeroDivisionError]. *)
Definition int_div (a b : Z) : result Q :=
  if (b =? 0)%Z then Raise ZeroDivisionError else Ok (inject_Z a / inject_Z b)%Q.

(** *** validate_predictions_timing *)

(** [timing_units = {0: 1, 1: 3, 2: 1, 3: 3, 4: 7}] *)
Definition timing_units : gmap Z Z :=
  list_to_map [(0, 1); (1, 3); (2, 1); (3, 3); (4, 7)]%Z.

Definition timing_units_getitem (k : Z) : result Z :=
  match timing_units !! k with
  | Some u => Ok u
  | None => Raise (KeyError (KInt k))
  end.

(** What the function prints: the average timing error in percent (absent
    for "Perfect classification"), the Dit/ElementSpace confusion count and
    its percentage (printed when the count is positive). *)
Record timing_report : Type := mk_timing_report {
  avg_timing_error : option Q;
  dit_element_confusion : Z;
  dit_element_confusion_pct : option Q
}.

(** One pass of the first loop over [zip(true_labels, predicted_labels)]. *)
Definition timing_error_body (tp : Z * Z) (timing_errors : list Q)
  : result (list Q) :=
  let '(true_label, pred) := tp in
  let? true_units := timing_units_getitem true_label in
  let? pred_units := timing_units_getitem pred in
  if negb (true_units =? pred_units)%Z then
    let error := (inject_Z (Z.abs (pred_units - true_units)) / inject_Z true_units)%Q in
    Ok (timing_errors ++ [error])
  else Ok timing_errors.

(** One pass of the second loop. *)
Definition confusion_body (dit_element_confusion : Z) (tp : Z * Z) : Z :=
  let '(true_label, pred) := tp in
  if ((true_label =? 0) && (pred =? 2) || (true_label =? 2) && (pred =? 0))%Z
  then (dit_element_confusion + 1)%Z
  else dit_element_confusion.

Definition validate_predictions_timing (true_labels predicted_labels : list Z)
  : result timing_report :=
  let? timing_errors :=
    TrainV3.for_each_r timing_error_body (combine true_labels predicted_labels) [] in
  let avg_timing_error :=
    if (0 <? length timing_errors)%nat
    then Some (Validator.series_mean timing_errors * 100)%Q
    else None in
  let dit_element_confusion :=
    fold_left confusion_body (combine true_labels predicted_labels) 0%Z in
  let pct :=
    if (0 <? dit_element_confusion)%Z
    then Some (inject_Z dit_element_confusion
               / inject_Z (Z.of_nat (length true_labels)) * 100)%Q
    else None in
  Ok (mk_timing_report avg_timing_error dit_element_confusion pct).

(** *** evaluate_model *)

(** What the function prints besides the accuracy it returns: the accuracy
    of every class that has samples, the confusions above 5% as (true
    class, predicted class, rate), whether there was any, and the timing
    report. *)
Record eval_report : Type := mk_eval_report {
  per_class_accuracy : list (Z * Q);
  confusions : list (Z * Z * Q);
  has_confusion : bool;
  timing : timing_report
}.

(** [all_preds[all_labels == class_id]] *)
Definition masked_preds (all_labels all_preds : list Z) (class_id : Z) : list Z :=
  map snd (List.filter (fun lp => (fst lp =? class_id)%Z) (combine all_labels all_preds)).

(** [np.mean(xs == v)] *)
Definition mean_equal (xs : list Z) (v : Z) : Q :=
  (inject_Z (Z.of_nat (length (List.filter (fun x => (x =? v)%Z) xs)))
   / inject_Z (Z.of_nat (length xs)))%Q.

Definition range5 : list Z := [0; 1; 2; 3; 4]%Z.

(** The test loader hands out batches; the opaque model turns each sample
    into its predicted class, so a batch is the list of (predicted class,
    label) pairs of its samples. *)
Definition evaluate_model (test_loader : list (list (Z * Z)))
  : result (Q * eval_report) :=
  let '(all_preds, all_labels, correct, total) :=
    fold_left
      (fun '(all_preds, all_labels, correct, total) batch =>
         (all_preds ++ map fst batch,
          all_labels ++ map snd batch,
          (correct + Z.of_nat (length (List.filter
                                         (fun py => (fst py =? snd py)%Z) batch)))%Z,
          (total + Z.of_nat (length batch))%Z))
      test_loader ([], [], 0%Z, 0%Z) in
  let? accuracy := int_div correct total in
  let per_class :=
    flat_map
      (fun class_id =>
         let preds := masked_preds all_labels all_preds class_id in
         if (0 <? length preds)%nat then [(class_id, mean_equal preds class_id)]
         else [])
      range5 in
  let confusions :=
    flat_map
      (fun true_class =>
         let confused_with := masked_preds all_labels all_preds true_class in
         if (0 <? length confused_with)%nat then
           flat_map
             (fun pred_class =>
                if negb (pred_class =? true_class)%Z then
                  let confusion_rate := mean_equal confused_with pred_class in
                  if Qltb 0.05 confusion_rate
                  then [(true_class, pred_class, confusion_rate)]
                  else []
                else [])
             range5
         else [])
      range5 in
  let has_confusion := (0 <? length confusions)%nat in
  let? timing := validate_predictions_timing all_labels all_preds in
  Ok (accuracy, mk_eval_report per_class confusions has_confusion timing).

(** *** The figures of one epoch of train_model *)

(** What one batch contributes: [loss.item()], the number of correct
    predictions and [y_batch.size(0)]. *)
Record batch : Type := mk_batch {
  loss_item : Q;
  batch_correct : Z;
  batch_size : Z
}.

Definition sum_losses (bs : list batch) : Q :=
  fold_left (fun acc b => (acc + loss_item b)%Q) bs 0%Q.

Definition sum_correct (bs : list batch) : Z :=
  fold_left (fun acc b => (acc + batch_correct b)%Z) bs 0%Z.

Definition sum_sizes (bs : list batch) : Z :=
  fold_left (fun acc b => (acc + batch_size b)%Z) bs 0%Z.

(** [x /= len(loader)] *)
Definition div_by_len (x : Q) (n : nat) : result Q :=
  if (n =? 0)%nat then Raise ZeroDivisionError
  else Ok (x / inject_Z (Z.of_nat n))%Q.

(** The block under "Calculate metrics", from the batches the two loaders
    yielded. *)
Definition epoch_metrics (train_loader val_loader : list batch)
  : result TrainV3.metrics :=
  let? train_loss := div_by_len (sum_losses train_loader) (length train_loader) in
  let? val_loss := div_by_len (sum_losses val_loader) (length val_loader) in
  let? train_acc := int_div (sum_correct train_loader) (sum_sizes train_loader) in
  let? val_acc := int_div (sum_correct val_loader) (sum_sizes val_loader) in
  Ok (TrainV3.mk_metrics (Finite train_loss) (Finite train_acc)
                         (Finite val_loss) (Finite val_acc)).

(** An epoch of [train_model] whose passes over the loaders are opaque up
    to the parameter contents they leave and the batches they saw. *)
Definition batched_epoch {V}
    (passes : nat -> list V -> list V * list batch * list batch)
    (epoch : nat) (vals : list V) : result (list V * TrainV3.metrics) :=
  let '(vals', train_loader, val_loader) := passes epoch vals in
  let? m := epoch_metrics train_loader val_loader in
  Ok (vals', m).

End EvalV3.

(** ** Vocabulary of the statements *)

(** Key state and class agree: key down exactly for Dit (0) and Dah (1),
    key up exactly for the three gaps (2, 3, 4). *)
Definition key_state_consistent (r : row) : Prop :=
  (is_key_down r = 1%Z <-> (label r = 0%Z \/ label r = 1%Z)) /\
  (is_key_down r = 0%Z <-> (label r = 2%Z \/ label r = 3%Z \/ label r = 4%Z)).

(** The unit count of a class, [[1, 3, 1, 3, 7][label]] in the validator. *)
Definition expected_units (label : Z) : Z :=
  nth (Z.to_nat label) [1; 3; 1; 3; 7]%Z 0%Z.

(** A row as the v3 generators build it at speed [wpm]: consistent key
    state, one of the five classes, and the class's canonical duration
    scaled by one jitter sample and floored. *)
Definition generated_row (sigma wpm : Q) (r : row) : Prop :=
  key_state_consistent r /\
  (0 <= label r <= 4)%Z /\
  exists z : Q,
    duration_ms r =
    py_max (inject_Z (expected_units (label r)) * (1.2 / wpm) * 1000
            * (1 + sigma * z))%Q 1.

Definition key_and_label (r : row) : Z * Z := (is_key_down r, label r).

Definition pulse_label (symbol : ascii) : Z :=
  if Ascii.eqb symbol "."%char then 0%Z else 1%Z.

(** Key state and class of the pulses of a pattern with an element gap
    between consecutive pulses. *)
Fixpoint character_shape (pattern : list ascii) : list (Z * Z) :=
  match pattern with
  | [] => []
  | symbol :: rest =>
      match rest with
      | [] => [(1%Z, pulse_label symbol)]
      | _ :: _ => (1%Z, pulse_label symbol) :: (0%Z, 2%Z) :: character_shape rest
      end
  end.


(** A row as the v2 sequence generator builds it from a dit length [dit]
    and a jitter sample: class 2 covers both the 1-unit gap inside a
    character and the 3-unit gap after it, class 3 is the 7-unit gap. *)
Definition v2_sequence_row (r : row) : Prop :=
  exists dit sample : Q,
    (key_and_label r = (1, 0)%Z /\ duration_ms r = (dit * sample)%Q) \/
    (key_and_label r = (1, 1)%Z /\ duration_ms r = (dit * 3 * sample)%Q) \/
    (key_and_label r = (0, 2)%Z /\
       (duration_ms r = (dit * sample)%Q \/ duration_ms r = (dit * 3 * sample)%Q)) \/
    (key_and_label r = (0, 3)%Z /\ duration_ms r = (dit * 7 * sample)%Q).

(** Among the [N] equally likely draws [0, 1/N, ..., (N-1)/N] of
    [random.random()], the number of those on which [event] holds. *)
Definition grid_count (event : Q -> bool) (N : nat) : nat :=
  length (List.filter (fun i => event (Z.of_nat i # Pos.of_nat N)) (seq 0 N)).


(** Every value of [random.random()] lies in [0, 1). *)
Definition unit_interval_draws (g : rng) : Prop :=
  forall n, (0 <= random_stream g n < 1)%Q.


(** The row classes a corpus contains. *)
Definition has_label (df : list row) (lbl : Z) : Prop :=
  exists r, In r df /\ label r = lbl.

(** What the tensors of a state dict hold in a given store. *)
Definition state_dict_contents {V} (sd : gmap string TrainV3.loc)
    (h : TrainV3.store V) : list (string * V) :=
  map (fun kv => (fst kv, h (snd kv))) (map_to_list sd).

(** The loop variables after an epoch that improved on the best loss, and
    after one that did not. *)
Definition improved (model : TrainV3.nn_module) (st : TrainV3.train_state)
    (m : TrainV3.metrics) : TrainV3.train_state :=
  TrainV3.mk_train_state
    (TrainV3.history_append (TrainV3.history st) m)
    (TrainV3.val_loss m) 0
    (Some (TrainV3.dict_copy (TrainV3.state_dict model))).

Definition stalled (st : TrainV3.train_state) (m : TrainV3.metrics)
  : TrainV3.train_state :=
  TrainV3.mk_train_state
    (TrainV3.history_append (TrainV3.history st) m)
    (TrainV3.best_val_loss st)
    (TrainV3.patience_counter st + 1)
    (TrainV3.best_model_state st).

(** The number of epochs a run went through. *)
Definition epochs_run (st : TrainV3.train_state) : nat :=
  length (TrainV3.hist_val_loss (TrainV3.history st)).

(** ** Concrete inputs used by the examples *)

Module Scenario.

(** A random source whose draws are all the same. *)
Definition constant_rng (u : Q) (k : nat) (z : Q) : rng :=
  mk_rng (fun _ => u) (fun _ => k) (fun _ => z) 0 0 0.

(** A model with a single parameter tensor. *)
Definition one_weight : TrainV3.nn_module :=
  TrainV3.mk_module [("weight"%string, 0%nat)].

Definition metrics_of (loss : pyfloat) : TrainV3.metrics :=
  TrainV3.mk_metrics loss (Finite 0) loss (Finite 0).

(** Epoch [e] (counted from 0) leaves every parameter at the value
    [e + 1] and reports the [e]-th loss of [losses]. *)
Definition scripted_epochs (losses : list pyfloat) (e : nat) (vals : list Z)
  : result (list Z * TrainV3.metrics) :=
  Ok (map (fun _ => Z.of_nat e + 1)%Z vals, metrics_of (nth e losses (Finite 0))).

Definition fresh_store : TrainV3.store Z := fun _ => 0%Z.


(** Best loss at the first of two epochs. *)
Definition worse_second : list pyfloat := [Finite 1; Finite 2].

(** Best loss at the first epoch, then two worse ones. *)
Definition worse_twice : list pyfloat := [Finite 1; Finite 2; Finite 3].

(** Five strictly decreasing losses, then the fifth loss again. *)
Definition five_then_flat : list pyfloat :=
  [Finite 5; Finite 4; Finite 3; Finite 2; Finite 1;
   Finite 1; Finite 1; Finite 1; Finite 1; Finite 1].

(** A NaN loss in the first epoch. *)
Definition nan_first : list pyfloat := [NaN; Finite 1; Finite 2].


(** Draws of 0.5, first table entry, no jitter deviation. *)
Definition steady : rng := constant_rng 0.5 0 0.

(** Draws that run through 0, 0.1, ..., 0.9 and through the table. *)
Definition varied : rng :=
  mk_rng (fun n => Z.of_nat (n mod 10) # 10) (fun n => (n * 7)%nat) (fun _ => 0%Q)
         0 0 0.


(** Draws of 0.5 and the table entry at index 4, the letter E. *)
Definition always_e : rng := constant_rng 0.5 4 0.

(** A corpus at 20 WPM with every class but the element gap. *)
Definition no_element_gap : list row :=
  [mk_row 60 1 0; mk_row 180 1 1; mk_row 180 0 3; mk_row 420 0 4].

(** A Gaussian deviate 25 standard deviations below the mean. *)
Definition far_tail : rng := constant_rng 0.1 0 (-25).

End Scenario.

(** ** Further vocabulary *)

(** The class Policy A gives to a draw of [random.random()]. *)
Definition policy_a_label (choice : Q) : Z :=
  if Qltb choice 0.20 then 0%Z
  else if Qltb choice 0.35 then 1%Z
  else if Qltb choice 0.55 then 2%Z
  else if Qltb choice 0.80 then 3%Z
  else 4%Z.

(** [m] times key down, key up. *)
Fixpoint alternating (m : nat) : list Z :=
  match m with
  | O => []
  | Datatypes.S m' => 1%Z :: 0%Z :: alternating m'
  end.

(** The number of rows of a class. *)
Definition count_label (df : list row) (lbl : Z) : nat :=
  length (List.filter (fun r => (label r =? lbl)%Z) df).

(** Two runs of the validator that print the same report, or raise the
    same exception. *)
Definition same_verdict
    (a b : result (gmap Z Validator.stats * Validator.report)) : Prop :=
  match a, b with
  | Ok (_, ra), Ok (_, rb) => ra = rb
  | Raise ea, Raise eb => ea = eb
  | _, _ => False
  end.

(** The rows of a corpus other than the element gaps. *)
Definition without_element_gaps (df : list row) : list row :=
  List.filter (fun r => negb (label r =? 2)%Z) df.

(** The rows of a corpus that carry one of the five class labels. *)
Definition known_labels (df : list row) : list row :=
  List.filter (fun r => (0 <=? label r)%Z && (label r <=? 4)%Z) df.

(** The timing error the evaluation books for a pair of a true and a
    predicted class of different unit counts. *)
Definition timing_error (tp : Z * Z) : list Q :=
  if (expected_units (fst tp) =? expected_units (snd tp))%Z then []
  else [(inject_Z (Z.abs (expected_units (snd tp) - expected_units (fst tp)))
         / inject_Z (expected_units (fst tp)))%Q].

Definition class_label (k : Z) : Prop := (0 <= k <= 4)%Z.


(** The four lists of [history] all have [n] entries. *)
Definition history_lengths (hst : TrainV3.history_t) (n : nat) : Prop :=
  length (TrainV3.hist_train_loss hst) = n /\
  length (TrainV3.hist_train_acc hst) = n /\
  length (TrainV3.hist_val_loss hst) = n /\
  length (TrainV3.hist_val_acc hst) = n.

(** [best_val_loss] and [best_model_state] agree with the recorded
    validation losses: a state was kept exactly when the best loss left
    infinity, the best loss is one of the recorded ones, and none of them
    compares below it. *)
Definition best_loss_consistent (st : TrainV3.train_state) : Prop :=
  (TrainV3.best_model_state st = None <-> TrainV3.best_val_loss st = PosInf) /\
  (TrainV3.best_val_loss st = PosInf \/
   In (TrainV3.best_val_loss st) (TrainV3.hist_val_loss (TrainV3.history st))) /\
  (forall v, In v (TrainV3.hist_val_loss (TrainV3.history st)) ->
             float_lt v (TrainV3.best_val_loss st) = false) /\
  TrainV3.best_val_loss st <> NaN.
(** * Properties *)

(** ** Comparisons and the monad *)

Lemma Qltb_lt (x y : Q) : Qltb x y = true <-> (x < y)%Q.
Proof.
  unfold Qltb. rewrite negb_true_iff. split.
  - intros H. apply Qnot_le_lt. intros Hle.
    apply Qle_bool_iff in Hle. congruence.
  - intros H. destruct (Qle_bool y x) eqn:E; [|reflexivity].
    apply Qle_bool_iff in E. exfalso. exact (Qlt_not_le _ _ H E).
Qed.

Lemma Qltb_ge (x y : Q) : Qltb x y = false <-> (y <= x)%Q.
Proof.
  unfold Qltb. rewrite negb_false_iff. apply Qle_bool_iff.
Qed.

Lemma py_max_floor (a b : Q) : (b <= py_max a b)%Q.
Proof.
  unfold py_max. destruct (Qltb a b) eqn:E.
  - apply Qle_refl.
  - now apply Qltb_ge.
Qed.


Lemma bind_Ok {S A B} (c : M S A) (k : A -> M S B) s r :
  bind c k s = Ok r -> exists a s', c s = Ok (a, s') /\ k a s' = Ok r.
Proof.
  unfold bind. destruct (c s) as [[a s']|e]; [eauto | discriminate].
Qed.

Lemma lift_Ok {S A} (r : result A) (s : S) a s' :
  lift r s = Ok (a, s') -> r = Ok a /\ s' = s.
Proof.
  unfold lift. destruct r; intros H; inversion H; auto.
Qed.

Lemma ret_Ok {S A} (a : A) (s : S) b s' :
  ret a s = Ok (b, s') -> b = a /\ s' = s.
Proof. unfold ret. intros H; inversion H; auto. Qed.

(** A loop invariant that may mention the position in the range. *)
Lemma for_each_seq_inv {S St} (body : nat -> St -> M S St) (P : nat -> St -> Prop) :
  forall n a st s st' s',
    (forall i x t x' t', (a <= i < a + n)%nat -> P i x ->
        body i x t = Ok (x', t') -> P (Datatypes.S i) x') ->
    P a st ->
    for_each body (seq a n) st s = Ok (st', s') ->
    P (a + n)%nat st'.
Proof.
  induction n as [|n IH]; intros a st s st' s' Hstep H0 Hrun.
  - simpl in Hrun. apply ret_Ok in Hrun as [-> _]. now rewrite Nat.add_0_r.
  - simpl in Hrun. apply bind_Ok in Hrun as (x & t & Hb & Hrest).
    replace (a + Datatypes.S n)%nat with (Datatypes.S a + n)%nat by lia.
    eapply IH; [ | | exact Hrest].
    + intros i y t0 y' t0' Hi. apply Hstep. lia.
    + eapply Hstep; [ | exact H0 | exact Hb]. lia.
Qed.

(** A loop invariant over any list of items. *)
Lemma for_each_inv {S I St} (body : I -> St -> M S St) (P : St -> Prop) :
  forall xs st s st' s',
    (forall i x t x' t', In i xs -> P x -> body i x t = Ok (x', t') -> P x') ->
    P st ->
    for_each body xs st s = Ok (st', s') ->
    P st'.
Proof.
  induction xs as [|i xs IH]; intros st s st' s' Hstep H0 Hrun.
  - simpl in Hrun. now apply ret_Ok in Hrun as [-> _].
  - simpl in Hrun. apply bind_Ok in Hrun as (x & t & Hb & Hrest).
    eapply IH; [ | | exact Hrest].
    + intros j y t0 y' t0' Hj. apply Hstep. now right.
    + eapply Hstep; [ | exact H0 | exact Hb]. now left.
Qed.

(** A loop over a range whose body returns under an invariant on the loop
    variables and the threaded state, returns. *)
Lemma for_each_seq_total {S St} (body : nat -> St -> M S St)
    (P : nat -> St -> S -> Prop) :
  forall n a st s,
    (forall i x t, (a <= i < a + n)%nat -> P i x t ->
        exists x' t', body i x t = Ok (x', t') /\ P (Datatypes.S i) x' t') ->
    P a st s ->
    exists st' s', for_each body (seq a n) st s = Ok (st', s') /\ P (a + n)%nat st' s'.
Proof.
  induction n as [|n IH]; intros a st s Hstep H0.
  - cbn. unfold ret. rewrite Nat.add_0_r. eauto.
  - cbn [seq for_each].
    destruct (Hstep a st s) as (x' & t' & Hb & HP); [lia | exact H0 |].
    unfold bind at 1. rewrite Hb.
    replace (a + Datatypes.S n)%nat with (Datatypes.S a + n)%nat by lia.
    apply IH; [|exact HP].
    intros j y t0 Hj. apply Hstep. lia.
Qed.

(** Inversion of a chain of binds in a hypothesis. *)
Ltac inv_run H :=
  repeat match type of H with
  | bind _ _ _ = Ok _ =>
      let a := fresh "a" in let s := fresh "s" in
      let Ha := fresh "Hrun" in
      apply bind_Ok in H as (a & s & Ha & H); try inv_run Ha
  | lift _ _ = Ok (_, _) =>
      let E := fresh "E" in apply lift_Ok in H as [E ->]
  end.

Ltac split_ifs H :=
  repeat match type of H with
  | context [if Qltb ?x ?y then _ else _] => destruct (Qltb x y) eqn:?
  | context [if Ascii.eqb ?x ?y then _ else _] => destruct (Ascii.eqb x y) eqn:?
  | context [if Z.ltb ?x ?y then _ else _] => destruct (Z.ltb x y) eqn:?
  end.

Ltac inv_ret H := unfold ret in H; inversion H; subst; clear H.

(** ** The timing unit engine and the two v3 generation policies *)

Lemma dit_to_milliseconds_inv units wpm d :
  GenV3.dit_to_milliseconds units wpm = Ok d ->
  Qeq_bool wpm 0 = false /\ d = (inject_Z units * (1.2 / wpm) * 1000)%Q.
Proof.
  unfold GenV3.dit_to_milliseconds, GenV3.wpm_to_dit_duration, float_div.
  destruct (Qeq_bool wpm 0); cbn; intros H; [discriminate|].
  inversion H. auto.
Qed.

Lemma dit_to_milliseconds_Ok units wpm :
  Qeq_bool wpm 0 = false ->
  GenV3.dit_to_milliseconds units wpm = Ok (inject_Z units * (1.2 / wpm) * 1000)%Q.
Proof.
  intros H.
  unfold GenV3.dit_to_milliseconds, GenV3.wpm_to_dit_duration, float_div.
  now rewrite H.
Qed.

Lemma dit_to_milliseconds_zero units wpm :
  Qeq_bool wpm 0 = true ->
  GenV3.dit_to_milliseconds units wpm = Raise ZeroDivisionError.
Proof.
  intros H.
  unfold GenV3.dit_to_milliseconds, GenV3.wpm_to_dit_duration, float_div.
  now rewrite H.
Qed.

Lemma apply_human_jitter_inv d sigma g v g' :
  GenV3.apply_human_jitter d sigma g = Ok (v, g') ->
  v = py_max (d * (1 + sigma * gauss_stream g (gauss_pos g)))%Q 1 /\
  random_pos g' = random_pos g /\ random_stream g' = random_stream g.
Proof.
  unfold GenV3.apply_human_jitter, np_random_normal, bind, ret.
  intros H. inversion H. cbn. auto.
Qed.

Lemma generated_row_floor sigma wpm r :
  generated_row sigma wpm r -> (1 <= duration_ms r)%Q.
Proof.
  intros (_ & _ & z & ->). apply py_max_floor.
Qed.

(** The source of the speed of iteration [i] with resampling period [p]. *)
Lemma resample_inv (p i : nat) (range : Q * Q) (wpm : Q) g a s :
  (if (i mod p =? 0)%nat then random_uniform (fst range) (snd range)
   else ret wpm) g = Ok (a, s) ->
  a = (if (i mod p =? 0)%nat
       then (fst range + (snd range - fst range) * random_stream g (random_pos g))%Q
       else wpm) /\
  gauss_pos s = gauss_pos g /\ gauss_stream s = gauss_stream g.
Proof.
  destruct (i mod p =? 0)%nat.
  - unfold random_uniform, random_random, bind, ret. intros H. inversion H. cbn. auto.
  - unfold ret. intros H. inversion H. auto.
Qed.

Ltac build_row :=
  match goal with
  | E : GenV3.dit_to_milliseconds _ _ = Ok ?d,
    Hj : GenV3.apply_human_jitter ?d _ _ = Ok (?v, _)
    |- generated_row _ _ (mk_row ?v _ _) =>
      apply dit_to_milliseconds_inv in E as [_ ->];
      apply apply_human_jitter_inv in Hj as (-> & _ & _);
      (split; [unfold key_state_consistent; cbn; lia|]);
      (split; [cbn; lia|]);
      eexists; reflexivity
  end.

Lemma dataset_body_inv sigma range i wpm data g wpm' data' g' :
  GenV3.dataset_body sigma range i (wpm, data) g = Ok ((wpm', data'), g') ->
  wpm' = (if (i mod 100 =? 0)%nat
          then (fst range + (snd range - fst range) * random_stream g (random_pos g))%Q
          else wpm) /\
  exists r, data' = data ++ [r] /\ generated_row sigma wpm' r.
Proof.
  unfold GenV3.dataset_body. intros H.
  apply bind_Ok in H as (a & s & Hw & H). apply resample_inv in Hw as (Hw & _).
  inv_run H. split_ifs H; inv_run H; inv_ret H;
    (split; [reflexivity|]); (eexists; split; [reflexivity|]);
    build_row.
Qed.

Lemma symbol_body_inv sigma wpm pattern js data g data' g' :
  GenV3.symbol_body sigma wpm pattern js data g = Ok (data', g') ->
  exists rows, data' = data ++ rows /\ Forall (generated_row sigma wpm) rows.
Proof.
  unfold GenV3.symbol_body. destruct js as [j symbol]. intros H.
  split_ifs H; inv_run H; inv_ret H; rewrite <- ?app_assoc;
    (eexists; split; [reflexivity|]);
    repeat (constructor; [build_row|]);
    constructor.
Qed.

Lemma character_rows_inv sigma wpm pattern data g data' g' :
  GenV3.character_rows sigma wpm pattern data g = Ok (data', g') ->
  exists rows, data' = data ++ rows /\ Forall (generated_row sigma wpm) rows.
Proof.
  unfold GenV3.character_rows. intros H.
  apply bind_Ok in H as (d1 & s1 & Hloop & H).
  assert (Hd1 : exists rows, d1 = data ++ rows /\
                             Forall (generated_row sigma wpm) rows).
  { eapply (for_each_inv _ (fun d => exists rows, d = data ++ rows /\
                                    Forall (generated_row sigma wpm) rows));
      [ | | exact Hloop].
    - intros js x t x' t' _ (rows & -> & Hrows) Hb.
      apply symbol_body_inv in Hb as (rows' & -> & Hrows').
      exists (rows ++ rows'). rewrite app_assoc. split; [reflexivity|].
      apply Forall_app. auto.
    - exists []. rewrite app_nil_r. split; [reflexivity|constructor]. }
  destruct Hd1 as (rows & -> & Hrows).
  inv_run H. split_ifs H; inv_run H; inv_ret H; rewrite <- app_assoc;
    (eexists; split; [reflexivity|]);
    (apply Forall_app; split; [exact Hrows|]);
    (constructor; [build_row | constructor]).
Qed.

Lemma dict_getitem_In d key v :
  dict_getitem d key = Ok v -> In (key, v) d.
Proof.
  induction d as [|[k w] d IH]; cbn; [discriminate|].
  destruct (String.eqb k key) eqn:E.
  - apply String.eqb_eq in E. intros H. inversion H. subst. now left.
  - intros H. right. auto.
Qed.

(** Each iteration of Policy B appends the rows of one character of the
    table, at the speed in force after the resampling step. *)
Lemma sequence_body_inv sigma range i wpm data g wpm' data' g' :
  GenV3.sequence_body sigma range i (wpm, data) g = Ok ((wpm', data'), g') ->
  wpm' = (if (i mod 50 =? 0)%nat
          then (fst range + (snd range - fst range) * random_stream g (random_pos g))%Q
          else wpm) /\
  exists char pattern g1,
    In (char, pattern) GenV3.morse_code /\
    GenV3.character_rows sigma wpm' (list_ascii_of_string pattern) data g1
      = Ok (data', g').
Proof.
  unfold GenV3.sequence_body. intros H.
  apply bind_Ok in H as (a & s & Hw & H). apply resample_inv in Hw as (Hw & _).
  inv_run H. inv_ret H. split; [reflexivity|].
  apply dict_getitem_In in E. eauto.
Qed.

Lemma policy_a_rows sigma n range g data g' :
  GenV3.generate_morse_dataset_v3 sigma n range g = Ok (data, g') ->
  Forall (fun r => exists wpm, generated_row sigma wpm r) data.
Proof.
  unfold GenV3.generate_morse_dataset_v3. intros H.
  apply bind_Ok in H as ([w d] & s & Hloop & H). inv_ret H.
  apply (for_each_inv _
           (fun st => Forall (fun r => exists wpm, generated_row sigma wpm r) (snd st)))
    in Hloop; [exact Hloop | | constructor].
  intros i [w0 d0] t [w1 d1] t1 _ HP Hb.
  apply dataset_body_inv in Hb as (_ & r & -> & Hr). cbn in *.
  apply Forall_app. split; [exact HP|]. constructor; [eauto | constructor].
Qed.

Lemma policy_b_rows sigma n range g data g' :
  GenV3.generate_sequence_based_data_v3 sigma n range g = Ok (data, g') ->
  Forall (fun r => exists wpm, generated_row sigma wpm r) data.
Proof.
  unfold GenV3.generate_sequence_based_data_v3. intros H.
  apply bind_Ok in H as ([w d] & s & Hloop & H). inv_ret H.
  apply (for_each_inv _
           (fun st => Forall (fun r => exists wpm, generated_row sigma wpm r) (snd st)))
    in Hloop; [exact Hloop | | constructor].
  intros i [w0 d0] t [w1 d1] t1 _ HP Hb.
  apply sequence_body_inv in Hb as (_ & c & p & g1 & _ & Hc).
  apply character_rows_inv in Hc as (rows & -> & Hrows). cbn in *.
  apply Forall_app. split; [exact HP|].
  eapply Forall_impl; [exact Hrows|]. cbn. eauto.
Qed.

(** ** The rows of one character under Policy B *)

Section PolicyB.

Variables sigma wpm : Q.
Hypothesis wpm_nonzero : Qeq_bool wpm 0 = false.

Lemma symbol_body_Ok pattern j symbol data g :
  exists rows g',
    GenV3.symbol_body sigma wpm pattern (j, symbol) data g = Ok (data ++ rows, g') /\
    map key_and_label rows =
      (1%Z, pulse_label symbol) ::
      (if (Z.of_nat j <? Z.of_nat (length pattern) - 1)%Z then [(0%Z, 2%Z)] else []) /\
    random_pos g' = random_pos g /\ random_stream g' = random_stream g /\
    choice_pos g' = choice_pos g /\ choice_stream g' = choice_stream g.
Proof.
  unfold GenV3.symbol_body, pulse_label.
  destruct (Ascii.eqb symbol "."%char);
    destruct (Z.of_nat j <? Z.of_nat (length pattern) - 1)%Z;
    rewrite ?(dit_to_milliseconds_Ok _ _ wpm_nonzero);
    unfold bind, lift, GenV3.apply_human_jitter, np_random_normal, ret; cbn;
    rewrite ?(dit_to_milliseconds_Ok _ _ wpm_nonzero); cbn;
    rewrite <- ?app_assoc; cbn;
    (eexists; eexists; split; [reflexivity|]); cbn; auto.
Qed.

Lemma symbol_loop_Ok pattern :
  forall rest j data g,
    (j + length rest = length pattern)%nat ->
    exists rows g',
      for_each (GenV3.symbol_body sigma wpm pattern)
               (combine (seq j (length rest)) rest) data g = Ok (data ++ rows, g') /\
      map key_and_label rows = character_shape rest /\
      random_pos g' = random_pos g /\ random_stream g' = random_stream g /\
      choice_pos g' = choice_pos g /\ choice_stream g' = choice_stream g.
Proof.
  induction rest as [|symbol rest IH]; intros j data g Hlen.
  - exists [], g. cbn. rewrite app_nil_r. auto 6.
  - cbn [length seq combine for_each].
    destruct (symbol_body_Ok pattern j symbol data g)
      as (r1 & g1 & E1 & S1 & P1 & R1 & C1 & D1).
    unfold bind at 1. rewrite E1.
    destruct (IH (Datatypes.S j) (data ++ r1) g1)
      as (r2 & g2 & E2 & S2 & P2 & R2 & C2 & D2).
    { cbn in Hlen. lia. }
    rewrite E2. exists (r1 ++ r2), g2. rewrite app_assoc. split; [reflexivity|].
    split; [|repeat split; congruence].
    rewrite map_app, S1, S2. cbn [length] in Hlen.
    destruct rest as [|s' rest'].
    + cbn.
      replace (Z.of_nat j <? Z.of_nat (length pattern) - 1)%Z with false;
        [reflexivity|].
      symmetry. apply Z.ltb_ge. cbn in Hlen. lia.
    + replace (Z.of_nat j <? Z.of_nat (length pattern) - 1)%Z with true;
        [reflexivity|].
      symmetry. apply Z.ltb_lt. cbn in Hlen. lia.
Qed.

(** One character: its pulses with the element gaps between them, then one
    gap of class 4 when the draw is below 0.25 and of class 3 otherwise. *)
Lemma character_rows_Ok pattern data g :
  exists rows g',
    GenV3.character_rows sigma wpm pattern data g = Ok (data ++ rows, g') /\
    map key_and_label rows =
      character_shape pattern ++
      [(0%Z, if Qltb (random_stream g (random_pos g)) 0.25 then 4%Z else 3%Z)] /\
    random_stream g' = random_stream g /\
    choice_pos g' = choice_pos g /\ choice_stream g' = choice_stream g.
Proof.
  unfold GenV3.character_rows, enumerate.
  destruct (symbol_loop_Ok pattern pattern 0%nat data g eq_refl)
    as (r1 & g1 & E1 & S1 & P1 & R1 & C1 & D1).
  unfold bind at 1. rewrite E1.
  unfold bind at 1, random_random. cbn. rewrite R1, P1.
  destruct (Qltb (random_stream g (random_pos g)) 0.25);
    rewrite (dit_to_milliseconds_Ok _ _ wpm_nonzero); cbn;
    rewrite <- app_assoc; (eexists; eexists; split; [reflexivity|]);
    rewrite map_app, S1; cbn; auto.
Qed.

End PolicyB.

(** At a speed of zero no character is produced. *)
Lemma character_rows_zero sigma wpm pattern data g :
  Qeq_bool wpm 0 = true ->
  GenV3.character_rows sigma wpm pattern data g = Raise ZeroDivisionError.
Proof.
  intros Hz. unfold GenV3.character_rows, enumerate.
  destruct pattern as [|symbol rest].
  - cbn. unfold bind, random_random, ret. cbn.
    destruct (Qltb _ _); rewrite (dit_to_milliseconds_zero _ _ Hz); reflexivity.
  - cbn [length seq combine for_each]. unfold bind at 1. unfold bind at 1.
    unfold GenV3.symbol_body.
    destruct (Ascii.eqb symbol "."%char);
      unfold bind at 1; rewrite (dit_to_milliseconds_zero _ _ Hz); reflexivity.
Qed.

(** *** The shape of a character *)

Lemma character_shape_length pattern :
  pattern <> [] ->
  length (character_shape pattern) = (2 * length pattern - 1)%nat.
Proof.
  induction pattern as [|c rest IH]; [congruence|]. intros _.
  destruct rest as [|c' rest']; [reflexivity|].
  change (character_shape (c :: c' :: rest')) with
    ((1%Z, pulse_label c) :: (0%Z, 2%Z) :: character_shape (c' :: rest')).
  cbn [length]. rewrite IH by congruence. cbn [length]. lia.
Qed.



Lemma morse_patterns_nonempty char pattern :
  In (char, pattern) GenV3.morse_code -> list_ascii_of_string pattern <> [].
Proof.
  intros HIn.
  assert (H : forallb (fun cp => negb (String.eqb (snd cp) "")) GenV3.morse_code = true)
    by reflexivity.
  rewrite forallb_forall in H. specialize (H _ HIn). cbn in H.
  destruct pattern; [discriminate|]. cbn. congruence.
Qed.

(** *** Counting draws on a grid *)

Lemma filter_below_length t :
  forall N, length (List.filter (fun i => (i <? t)%nat) (seq 0 N)) = Nat.min t N.
Proof.
  induction N as [|N IH]; [now rewrite Nat.min_0_r|].
  rewrite seq_S, List.filter_app, length_app, IH.
  cbn [Nat.add List.filter].
  destruct (Nat.ltb_spec N t); cbn [length]; lia.
Qed.

Lemma grid_count_threshold (event : Q -> bool) (N t : nat) :
  (t <= N)%nat ->
  (forall i, (i < N)%nat -> event (Z.of_nat i # Pos.of_nat N) = (i <? t)%nat) ->
  grid_count event N = t.
Proof.
  intros Ht Hev. unfold grid_count.
  rewrite (List.filter_ext_in _ (fun i => (i <? t)%nat)).
  - rewrite filter_below_length. lia.
  - intros i Hi. apply in_seq in Hi. apply Hev. lia.
Qed.

Lemma Zpos_of_nat n : (0 < n)%nat -> Zpos (Pos.of_nat n) = Z.of_nat n.
Proof.
  intros H. rewrite <- positive_nat_Z, Nat2Pos.id by lia. reflexivity.
Qed.

(** A draw is below [a / b] on exactly [a] of every [b] grid points. *)
Lemma grid_count_below (a b : positive) (m : nat) :
  (a <= b)%positive ->
  grid_count (fun u => Qltb u (Zpos a # b))
             (Pos.to_nat b * Datatypes.S m) = (Pos.to_nat a * Datatypes.S m)%nat.
Proof.
  intros Hab. apply grid_count_threshold.
  - apply Nat.mul_le_mono_r. now apply Pos2Nat.inj_le.
  - intros i Hi.
    destruct (i <? Pos.to_nat a * Datatypes.S m)%nat eqn:E.
    + apply Nat.ltb_lt in E. apply Qltb_lt. unfold Qlt. cbn [Qnum Qden].
      rewrite Zpos_of_nat by lia. nia.
    + apply Nat.ltb_ge in E. apply Qltb_ge. unfold Qle. cbn [Qnum Qden].
      rewrite Zpos_of_nat by lia. nia.
Qed.

(** ** The generators return for a positive speed range *)

Lemma Qeq_bool_pos (x : Q) : (0 < x)%Q -> Qeq_bool x 0 = false.
Proof.
  intros H. destruct (Qeq_bool x 0) eqn:E; [|reflexivity].
  apply Qeq_bool_eq in E. rewrite E in H. exfalso. exact (Qlt_irrefl _ H).
Qed.

Lemma uniform_positive (lo hi u : Q) :
  (0 < lo)%Q -> (lo <= hi)%Q -> (0 <= u)%Q -> (0 < lo + (hi - lo) * u)%Q.
Proof.
  intros Hlo Hhi Hu.
  apply Qlt_le_trans with (y := (lo + 0)%Q).
  - now rewrite Qplus_0_r.
  - apply Qplus_le_r. apply Qmult_le_0_compat; [|exact Hu].
    apply (Qplus_le_l _ _ lo). ring_simplify. exact Hhi.
Qed.

Lemma dataset_body_Ok sigma range i wpm data g :
  let wpm' :=
    if (i mod 100 =? 0)%nat
    then (fst range + (snd range - fst range) * random_stream g (random_pos g))%Q
    else wpm in
  Qeq_bool wpm' 0 = false ->
  exists r g',
    GenV3.dataset_body sigma range i (wpm, data) g = Ok ((wpm', data ++ [r]), g') /\
    random_stream g' = random_stream g.
Proof.
  cbn zeta. unfold GenV3.dataset_body.
  destruct (i mod 100 =? 0)%nat; intros Hnz;
    unfold random_uniform, random_random, bind, ret; cbn;
    repeat match goal with
    | |- context [if Qltb ?x ?y then _ else _] => destruct (Qltb x y)
    end;
    rewrite (dit_to_milliseconds_Ok _ _ Hnz); cbn;
    (eexists; eexists; split; [reflexivity|reflexivity]).
Qed.

Lemma generate_morse_dataset_v3_returns sigma n lo hi g :
  (0 < lo)%Q -> (lo <= hi)%Q -> unit_interval_draws g ->
  exists data g',
    GenV3.generate_morse_dataset_v3 sigma n (lo, hi) g = Ok (data, g') /\
    length data = n.
Proof.
  intros Hlo Hhi Hu. unfold GenV3.generate_morse_dataset_v3.
  destruct (for_each_seq_total (GenV3.dataset_body sigma (lo, hi))
              (fun i st t => (i = 0%nat \/ (0 < fst st)%Q) /\ length (snd st) = i /\
                             random_stream t = random_stream g)
              n 0%nat (0%Q, []) g) as ([w d] & g' & Hrun & _ & Hlen & _).
  - intros i [w d] t _ (Hw & Hlen & Hs). cbn in Hw, Hlen.
    assert (Hpos : (0 < (if (i mod 100 =? 0)%nat
                         then fst (lo, hi) + (snd (lo, hi) - fst (lo, hi))
                                             * random_stream t (random_pos t)
                         else w))%Q).
    { destruct (i mod 100 =? 0)%nat eqn:E.
      - cbn. apply uniform_positive; auto. rewrite Hs. apply Hu.
      - destruct Hw as [-> | Hw]; [discriminate | exact Hw]. }
    destruct (dataset_body_Ok sigma (lo, hi) i w d t (Qeq_bool_pos _ Hpos))
      as (r & t' & Hb & Hs').
    eexists; eexists; split; [exact Hb|]. cbn [fst snd].
    split; [right; exact Hpos|]. split; [rewrite length_app; cbn; lia | congruence].
  - cbn. auto.
  - unfold bind. rewrite Hrun. cbn in Hlen. unfold ret. eauto.
Qed.

Lemma dict_getitem_keys d :
  forall i c, dict_keys d !! i = Some c -> exists p, dict_getitem d c = Ok p.
Proof.
  induction d as [|[k v] d IH]; intros i c Hi; [discriminate|].
  cbn. destruct (String.eqb k c) eqn:E; [eauto|].
  destruct i as [|i].
  - cbn in Hi. inversion Hi. subst. rewrite String.eqb_refl in E. discriminate.
  - eapply IH. exact Hi.
Qed.

Lemma random_choice_keys g :
  exists c p g',
    random_choice (dict_keys GenV3.morse_code) g = Ok (c, g') /\
    dict_getitem GenV3.morse_code c = Ok p /\
    random_stream g' = random_stream g /\ random_pos g' = random_pos g.
Proof.
  unfold random_choice.
  destruct (dict_keys GenV3.morse_code
              !! (choice_stream g (choice_pos g) mod length (dict_keys GenV3.morse_code))%nat)
    as [c|] eqn:E.
  - destruct (dict_getitem_keys _ _ _ E) as (p & Hp).
    eexists; eexists; eexists. split; [reflexivity|]. cbn. eauto.
  - apply lookup_ge_None in E.
    pose proof (Nat.mod_upper_bound (choice_stream g (choice_pos g))
                  (length (dict_keys GenV3.morse_code))) as Hb.
    cbn in Hb, E. lia.
Qed.

Lemma sequence_body_Ok sigma range i wpm data g :
  let wpm' :=
    if (i mod 50 =? 0)%nat
    then (fst range + (snd range - fst range) * random_stream g (random_pos g))%Q
    else wpm in
  Qeq_bool wpm' 0 = false ->
  exists rows g',
    GenV3.sequence_body sigma range i (wpm, data) g = Ok ((wpm', data ++ rows), g') /\
    (2 <= length rows)%nat /\
    random_stream g' = random_stream g.
Proof.
  cbn zeta. intros Hnz. unfold GenV3.sequence_body.
  set (wpm' := if (i mod 50 =? 0)%nat then _ else wpm) in *.
  assert (Hw : exists s,
             (if (i mod 50 =? 0)%nat
              then random_uniform (fst range) (snd range) else ret wpm) g = Ok (wpm', s) /\
             random_stream s = random_stream g).
  { subst wpm'. destruct (i mod 50 =? 0)%nat.
    - unfold random_uniform, random_random, bind, ret. cbn. eauto.
    - unfold ret. eauto. }
  destruct Hw as (s & Hw & Hs).
  unfold bind at 1. rewrite Hw.
  destruct (random_choice_keys s) as (c & p & s1 & Hc & Hp & Hs1 & _).
  unfold bind at 1. rewrite Hc.
  unfold bind at 1. rewrite Hp. cbn [lift].
  destruct (character_rows_Ok sigma wpm' Hnz (list_ascii_of_string p) data s1)
    as (rows & s2 & Hrows & Hshape & Hs2 & _).
  unfold bind at 1. rewrite Hrows. unfold ret.
  exists rows, s2. split; [reflexivity|]. split; [|congruence].
  apply (f_equal (@length _)) in Hshape.
  rewrite length_map, length_app, character_shape_length in Hshape.
  - cbn in Hshape.
    assert (list_ascii_of_string p <> []) as Hne.
    { eapply morse_patterns_nonempty. eapply dict_getitem_In. exact Hp. }
    destruct (list_ascii_of_string p); [congruence|]. cbn in Hshape. lia.
  - eapply morse_patterns_nonempty. eapply dict_getitem_In. exact Hp.
Qed.

Lemma generate_sequence_based_data_v3_returns sigma n lo hi g :
  (0 < lo)%Q -> (lo <= hi)%Q -> unit_interval_draws g ->
  exists data g',
    GenV3.generate_sequence_based_data_v3 sigma n (lo, hi) g = Ok (data, g') /\
    (2 * n <= length data)%nat.
Proof.
  intros Hlo Hhi Hu. unfold GenV3.generate_sequence_based_data_v3.
  destruct (for_each_seq_total (GenV3.sequence_body sigma (lo, hi))
              (fun i st t => (i = 0%nat \/ (0 < fst st)%Q) /\
                             (2 * i <= length (snd st))%nat /\
                             random_stream t = random_stream g)
              n 0%nat (0%Q, []) g) as ([w d] & g' & Hrun & _ & Hlen & _).
  - intros i [w d] t _ (Hw & Hlen & Hs). cbn in Hw, Hlen.
    assert (Hpos : (0 < (if (i mod 50 =? 0)%nat
                         then fst (lo, hi) + (snd (lo, hi) - fst (lo, hi))
                                             * random_stream t (random_pos t)
                         else w))%Q).
    { destruct (i mod 50 =? 0)%nat eqn:E.
      - cbn. apply uniform_positive; auto. rewrite Hs. apply Hu.
      - destruct Hw as [-> | Hw]; [discriminate | exact Hw]. }
    destruct (sequence_body_Ok sigma (lo, hi) i w d t (Qeq_bool_pos _ Hpos))
      as (rows & t' & Hb & Hrows & Hs').
    eexists; eexists; split; [exact Hb|]. cbn [fst snd].
    split; [right; exact Hpos|]. split; [rewrite length_app; lia | congruence].
  - cbn. auto.
  - unfold bind. rewrite Hrun. cbn in Hlen. unfold ret. eauto.
Qed.

(** ** Key state, floor and character structure *)

Lemma v3_rows sigma n range g data g' :
  GenV3.generate_morse_dataset_v3 sigma n range g = Ok (data, g') \/
  GenV3.generate_sequence_based_data_v3 sigma n range g = Ok (data, g') ->
  Forall (fun r => exists wpm, generated_row sigma wpm r) data.
Proof.
  intros [H|H]; [eapply policy_a_rows | eapply policy_b_rows]; exact H.
Qed.

(** C3.  Every row handed back by either v3 generation policy carries one
    of the five class labels, has [is_key_down = 1] exactly when its label
    is Dit (0) or Dah (1), and has [is_key_down = 0] exactly when its label
    is one of the three gaps (2, 3, 4). *)
Theorem key_state_matches_class sigma n range g data g' :
  GenV3.generate_morse_dataset_v3 sigma n range g = Ok (data, g') \/
  GenV3.generate_sequence_based_data_v3 sigma n range g = Ok (data, g') ->
  Forall (fun r => key_state_consistent r /\ (0 <= label r <= 4)%Z) data.
Proof.
  intros H. apply v3_rows in H.
  eapply Forall_impl; [exact H|].
  intros r (wpm & Hc & Hl & _). auto.
Qed.

Lemma key_state_matches_class_witness :
  exists data g',
    GenV3.generate_sequence_based_data_v3 GenV3.JITTER_SIGMA 2 (10, 40)%Q
      Scenario.steady = Ok (data, g') /\
    length data = 8%nat /\
    Forall (fun r => key_state_consistent r /\ (0 <= label r <= 4)%Z) data.
Proof.
  eexists. eexists. split; [vm_compute; reflexivity|].
  split; [reflexivity|].
  eapply (key_state_matches_class GenV3.JITTER_SIGMA 2 (10, 40)%Q Scenario.steady).
  right. vm_compute. reflexivity.
Defined.

(** C7, as amended.  In the v3 generator [apply_human_jitter] returns, for
    every duration and every jitter sample, the scaled duration floored at
    1.0 ms, so every row of the two v3 policies has a duration of at least
    1 ms, hence a positive one. *)
Theorem apply_human_jitter_at_least_one_ms :
  (forall duration_ms sigma g,
      exists v g',
        GenV3.apply_human_jitter duration_ms sigma g = Ok (v, g') /\
        v = py_max (duration_ms * (1 + sigma * gauss_stream g (gauss_pos g)))%Q 1 /\
        (1 <= v)%Q) /\
  (forall sigma n range g data g',
      GenV3.generate_morse_dataset_v3 sigma n range g = Ok (data, g') \/
      GenV3.generate_sequence_based_data_v3 sigma n range g = Ok (data, g') ->
      Forall (fun r => (1 <= duration_ms r)%Q /\ (0 < duration_ms r)%Q) data).
Proof.
  split.
  - intros d sigma g. eexists. eexists.
    split; [unfold GenV3.apply_human_jitter, np_random_normal, bind, ret; reflexivity|].
    split; [reflexivity|]. apply py_max_floor.
  - intros sigma n range g data g' H. apply v3_rows in H.
    eapply Forall_impl; [exact H|].
    intros r (wpm & Hr). apply generated_row_floor in Hr.
    split; [exact Hr|]. eapply Qlt_le_trans; [|exact Hr]. reflexivity.
Qed.

Lemma apply_human_jitter_at_least_one_ms_witness :
  exists data g',
    GenV3.generate_morse_dataset_v3 GenV3.JITTER_SIGMA 3 (10, 40)%Q
      Scenario.far_tail = Ok (data, g') /\
    length data = 3%nat /\
    Forall (fun r => (1 <= duration_ms r)%Q /\ (0 < duration_ms r)%Q) data.
Proof.
  eexists. eexists. split; [vm_compute; reflexivity|].
  split; [reflexivity|].
  eapply (proj2 apply_human_jitter_at_least_one_ms
            GenV3.JITTER_SIGMA 3 (10, 40)%Q Scenario.far_tail).
  left. vm_compute. reflexivity.
Defined.

(** C7 as stated fails on the v2 generator: its [jitter] only multiplies,
    so a sample of -1 turns a 100 ms dit into -100 ms, and the row built
    from it has a duration that is not positive. *)
Lemma v2_jitter_has_no_floor :
  (exists g',
      GenV2.jitter 100 Scenario.far_tail = Ok ((100 * (1 + 0.08 * -25))%Q, g') /\
      (100 * (1 + 0.08 * -25) == -100)%Q) /\
  (exists r g',
      GenV2.generate_morse_dataset_v2 1 100 Scenario.far_tail = Ok ([r], g') /\
      (duration_ms r <= 0)%Q).
Proof.
  split.
  - eexists. split; [reflexivity|]. reflexivity.
  - eexists. eexists. split; [vm_compute; reflexivity|].
    cbn. unfold Qle. cbn. lia.
Qed.

Lemma lookup_map {A B} (f : A -> B) (l : list A) :
  forall i, map f l !! i = f <$> l !! i.
Proof.
  induction l as [|x l IH]; intros [|i]; cbn; auto.
Qed.





(** ** The v2 sequence generator *)

Lemma v2_jitter_inv x g v g' :
  GenV2.jitter x g = Ok (v, g') ->
  v = (x * (1 + 0.08 * gauss_stream g (gauss_pos g)))%Q.
Proof.
  unfold GenV2.jitter, np_random_normal, bind, ret. intros H. now inversion H.
Qed.

Ltac v2_row :=
  match goal with
  | Hj : GenV2.jitter ?x _ = Ok (?v, _) |- v2_sequence_row (mk_row ?v _ _) =>
      apply v2_jitter_inv in Hj; subst v;
      eexists; eexists; cbn; eauto 10
  end.

Lemma v2_symbol_body_inv dit pattern js data g data' g' :
  GenV2.symbol_body dit (dit * 3) pattern js data g = Ok (data', g') ->
  exists rows, data' = data ++ rows /\ Forall v2_sequence_row rows.
Proof.
  unfold GenV2.symbol_body. destruct js as [i symbol]. intros H.
  apply bind_Ok in H as (d1 & s1 & Hp & H).
  split_ifs Hp; split_ifs H; inv_run Hp; inv_ret Hp; inv_run H; inv_ret H;
    rewrite <- ?app_assoc; (eexists; split; [reflexivity|]);
    repeat (constructor; [v2_row|]); constructor.
Qed.

Lemma v2_terminal_gap_Ok dit data g :
  let u := random_stream g (random_pos g) in
  let sample := (1 + 0.08 * gauss_stream g (gauss_pos g))%Q in
  exists g',
    GenV2.terminal_gap dit data g
    = Ok (data ++ [if Qltb u 0.3 then mk_row (dit * 7 * sample) 0 3
                   else mk_row (dit * 3 * sample) 0 2], g').
Proof.
  cbn zeta. unfold GenV2.terminal_gap, GenV2.jitter, random_random,
    np_random_normal, bind, ret. cbn.
  destruct (Qltb (random_stream g (random_pos g)) 0.3); eexists; reflexivity.
Qed.

Lemma v2_character_body_inv base i data g data' g' :
  GenV2.character_body base i data g = Ok (data', g') ->
  exists rows, data' = data ++ rows /\ Forall v2_sequence_row rows.
Proof.
  unfold GenV2.character_body. intros H.
  apply bind_Ok in H as (c & s0 & _ & H).
  apply bind_Ok in H as (p & s1 & _ & H).
  apply bind_Ok in H as (u & s2 & _ & H).
  apply bind_Ok in H as (d1 & s3 & Hloop & H).
  set (dit := (base * u)%Q) in *.
  assert (Hd : exists rows, d1 = data ++ rows /\ Forall v2_sequence_row rows).
  { eapply (for_each_inv _ (fun d => exists rows, d = data ++ rows /\
                                    Forall v2_sequence_row rows));
      [ | | exact Hloop].
    - intros js x t x' t' _ (rows & -> & Hrows) Hb.
      apply v2_symbol_body_inv in Hb as (rows' & -> & Hrows').
      exists (rows ++ rows'). rewrite app_assoc. split; [reflexivity|].
      apply Forall_app. auto.
    - exists []. rewrite app_nil_r. split; [reflexivity|constructor]. }
  destruct Hd as (rows & -> & Hrows).
  destruct (v2_terminal_gap_Ok dit (data ++ rows) s3) as (g2 & Hg).
  cbn zeta in Hg. rewrite Hg in H. inversion H; subst. rewrite <- app_assoc.
  eexists. split; [reflexivity|]. apply Forall_app. split; [exact Hrows|].
  constructor; [|constructor].
  destruct (Qltb _ 0.3); eexists; eexists; cbn; eauto 10.
Qed.

(** C10.  In the v2 sequence generator the gap that ends a character is a
    row of class 2 and 3 dit units when the draw is at least 0.3 (7 of
    every 10 equally likely draws), and a row of class 3 and 7 dit units
    when it is below 0.3 (3 of every 10); the 1-unit gap inside a character
    is a row of class 2 as well, so the rows of class 2 mix both durations,
    and the output has no class other than 0, 1, 2 and 3. *)
Theorem v2_letter_gap_shares_label_2 :
  (forall dit data g,
      let u := random_stream g (random_pos g) in
      let sample := (1 + 0.08 * gauss_stream g (gauss_pos g))%Q in
      exists g',
        GenV2.terminal_gap dit data g
        = Ok (data ++ [if Qltb u 0.3 then mk_row (dit * 7 * sample) 0 3
                       else mk_row (dit * 3 * sample) 0 2], g')) /\
  (forall m,
      grid_count (fun u => Qltb u 0.3) (10 * Datatypes.S m) = (3 * Datatypes.S m)%nat /\
      grid_count (fun u => negb (Qltb u 0.3)) (10 * Datatypes.S m)
        = (7 * Datatypes.S m)%nat) /\
  (forall n base g data g',
      GenV2.generate_sequence_based_data n base g = Ok (data, g') ->
      Forall (fun r => v2_sequence_row r /\ (0 <= label r <= 3)%Z) data) /\
  (exists d1 d2 d3 d4 g',
      GenV2.generate_sequence_based_data 1 100 Scenario.steady
      = Ok ([mk_row d1 1 0; mk_row d2 0 2; mk_row d3 1 1; mk_row d4 0 2], g') /\
      (d2 == 100)%Q /\ (d4 == 300)%Q).
Proof.
  split; [exact v2_terminal_gap_Ok|]. split; [|split].
  - intros m.
    assert (Hw : grid_count (fun u => Qltb u 0.3) (10 * Datatypes.S m)
                 = (3 * Datatypes.S m)%nat) by exact (grid_count_below 3 10 m ltac:(lia)).
    split; [exact Hw|].
    unfold grid_count in *.
    pose proof (List.filter_length
                  (fun i => Qltb (Z.of_nat i # Pos.of_nat (10 * Datatypes.S m)) 0.3)
                  (seq 0 (10 * Datatypes.S m))) as Hsum.
    rewrite length_seq, Hw in Hsum. lia.
  - intros n base g data g' H. unfold GenV2.generate_sequence_based_data in H.
    apply (for_each_inv _ (Forall (fun r => v2_sequence_row r /\ (0 <= label r <= 3)%Z)))
      in H; [exact H | | constructor].
    intros i x t x' t' _ HP Hb.
    apply v2_character_body_inv in Hb as (rows & -> & Hrows).
    apply Forall_app. split; [exact HP|].
    eapply Forall_impl; [exact Hrows|].
    intros r Hr. split; [exact Hr|].
    destruct Hr as (dit & sample & [H0|[H0|[H0|H0]]]);
      destruct H0 as [Hkl _]; unfold key_and_label in Hkl;
      inversion Hkl as [[Hk Hl]]; rewrite Hl; lia.
  - do 5 eexists. split; [vm_compute; reflexivity|].
    split; vm_compute; reflexivity.
Qed.

Lemma v2_letter_gap_shares_label_2_witness :
  exists data g',
    GenV2.generate_sequence_based_data 2 100 Scenario.steady = Ok (data, g') /\
    Forall (fun r => v2_sequence_row r /\ (0 <= label r <= 3)%Z) data.
Proof.
  eexists. eexists. split; [vm_compute; reflexivity|].
  eapply (proj1 (proj2 (proj2 v2_letter_gap_shares_label_2)) 2%nat 100%Q Scenario.steady).
  vm_compute. reflexivity.
Defined.

(** ** The sequence window builder *)

Section Windows.

Context {A B : Type}.
Variables (X : list A) (y : list B) (seq_len : nat).

Lemma create_sequences_loop :
  forall n a X_seq y_seq,
    (n = 0 \/ a + n + seq_len <= length y)%nat ->
    TrainV3.for_each_r
      (fun i '(X_seq, y_seq) =>
         let X_seq := X_seq ++ [TrainV3.slice X i (i + seq_len)] in
         let? t := TrainV3.array_getitem y (i + seq_len) in
         Ok (X_seq, y_seq ++ [t]))
      (seq a n) (X_seq, y_seq)
    = Ok (X_seq ++ map (fun i => TrainV3.slice X i (i + seq_len)) (seq a n),
          y_seq ++ take n (drop (a + seq_len) y)).
Proof.
  induction n as [|n IH]; intros a X_seq y_seq Hb.
  - cbn. now rewrite !app_nil_r.
  - destruct Hb as [Hb|Hb]; [discriminate|].
    cbn [seq TrainV3.for_each_r map].
    destruct (lookup_lt_is_Some_2 y (a + seq_len)) as [t Ht]; [lia|].
    unfold TrainV3.array_getitem. rewrite Ht. cbn [rbind].
    rewrite IH by (right; lia).
    rewrite <- !app_assoc. cbn [app].
    rewrite (drop_S _ _ _ Ht). cbn [take]. reflexivity.
Qed.

(** Closed form of the builder on a stream and its labels. *)
Lemma create_sequences_closed :
  length y = length X ->
  TrainV3.create_sequences X y seq_len
  = Ok (map (fun i => take seq_len (drop i X)) (seq 0 (length X - seq_len)),
        drop seq_len y).
Proof.
  intros Hlen. unfold TrainV3.create_sequences.
  replace (Z.to_nat (Z.of_nat (length X) - Z.of_nat seq_len))
    with (length X - seq_len)%nat by lia.
  rewrite create_sequences_loop.
  - cbn [app]. f_equal. f_equal.
    + apply map_ext. intros i. unfold TrainV3.slice. f_equal. lia.
    + cbn [Nat.add]. apply take_ge. rewrite length_drop. lia.
  - destruct (Nat.le_gt_cases (length X) seq_len); [left|right]; lia.
Qed.

End Windows.

(** C4.  On a stream of [N] feature rows with their [N] labels and a
    window length [L], the builder returns (it does not raise) exactly
    [N - L] windows and as many targets; window [i] is the [L] rows at
    positions [i, i + L) and its target is the label at position [i + L];
    when [N <= L] both results are empty.  The builder takes no random
    source: its result is a function of the stream alone. *)
Theorem create_sequences_windows {A B} (X : list A) (y : list B) (L : nat) :
  length y = length X ->
  exists X_seq y_seq,
    TrainV3.create_sequences X y L = Ok (X_seq, y_seq) /\
    length X_seq = (length X - L)%nat /\
    length y_seq = (length X - L)%nat /\
    (forall i, (i < length X - L)%nat ->
        exists w t,
          X_seq !! i = Some w /\ y_seq !! i = Some t /\
          length w = L /\
          (forall j, (j < L)%nat -> w !! j = X !! (i + j)%nat) /\
          y !! (i + L)%nat = Some t) /\
    ((length X <= L)%nat -> X_seq = [] /\ y_seq = []).
Proof.
  intros Hlen. rewrite (create_sequences_closed X y L Hlen).
  eexists. eexists. split; [reflexivity|].
  split; [now rewrite length_map, length_seq|].
  split; [rewrite length_drop; lia|].
  split.
  - intros i Hi.
    destruct (lookup_lt_is_Some_2 y (i + L)) as [t Ht]; [lia|].
    exists (take L (drop i X)), t.
    split; [|split; [|split; [|split]]].
    + rewrite lookup_map. rewrite lookup_seq_lt by lia. reflexivity.
    + rewrite lookup_drop. rewrite Nat.add_comm. exact Ht.
    + rewrite length_take, length_drop. lia.
    + intros j Hj. rewrite lookup_take_lt by lia. now rewrite lookup_drop.
    + exact Ht.
  - intros Hle.
    replace (length X - L)%nat with 0%nat by lia.
    split; [reflexivity|]. apply drop_ge. lia.
Qed.

Lemma create_sequences_windows_witness :
  exists X_seq y_seq,
    TrainV3.create_sequences [10; 11; 12; 13; 14; 15; 16]%Z [0; 2; 1; 3; 0; 2; 4]%Z 5
    = Ok (X_seq, y_seq) /\
    length X_seq = 2%nat /\ length y_seq = 2%nat.
Proof.
  destruct (create_sequences_windows [10; 11; 12; 13; 14; 15; 16]%Z
              [0; 2; 1; 3; 0; 2; 4]%Z 5 eq_refl)
    as (X_seq & y_seq & H & HX & Hy & _).
  exists X_seq, y_seq. split; [exact H|]. split; [exact HX | exact Hy].
Defined.

(** [prepare_sequence_data] builds the windows of the training stream and
    of the test stream, each on its own. *)
Lemma prepare_sequence_data_windows {A B} (X_train X_test : list A)
    (y_train y_test : list B) (L : nat) :
  length y_train = length X_train -> length y_test = length X_test ->
  exists X_train_seq X_test_seq y_train_seq y_test_seq,
    TrainV3.prepare_sequence_data X_train X_test y_train y_test L
    = Ok (X_train_seq, X_test_seq, y_train_seq, y_test_seq) /\
    length X_train_seq = (length X_train - L)%nat /\
    length X_test_seq = (length X_test - L)%nat /\
    y_train_seq = drop L y_train /\ y_test_seq = drop L y_test.
Proof.
  intros H1 H2. unfold TrainV3.prepare_sequence_data.
  rewrite (create_sequences_closed X_train y_train L H1). cbn [rbind].
  rewrite (create_sequences_closed X_test y_test L H2). cbn [rbind].
  do 4 eexists. split; [reflexivity|].
  rewrite !length_map, !length_seq. auto.
Qed.

(** ** The ratio validator *)

Lemma collect_results_lookup df k :
  (0 <= k <= 4)%Z ->
  Validator.collect_results df !! k =
  let xs := Validator.label_durations df k in
  if (0 <? length xs)%nat
  then Some (Validator.mk_stats (Validator.series_mean xs)
                                (Validator.series_var xs) (length xs))
  else None.
Proof.
  intros Hk.
  assert (Hcases : k = 0%Z \/ k = 1%Z \/ k = 2%Z \/ k = 3%Z \/ k = 4%Z) by lia.
  unfold Validator.collect_results. cbn [fold_left]. cbn zeta.
  destruct Hcases as [->|[->|[->|[->| ->]]]];
    repeat match goal with
    | |- context [if (0 <? ?n)%nat then _ else _] => destruct (0 <? n)%nat
    end; simplify_map_eq; reflexivity.
Qed.

Lemma collect_results_other df k :
  ~ (0 <= k <= 4)%Z -> Validator.collect_results df !! k = None.
Proof.
  intros Hk. unfold Validator.collect_results. cbn [fold_left]. cbn zeta.
  repeat match goal with
  | |- context [if (0 <? ?n)%nat then _ else _] => destruct (0 <? n)%nat
  end; rewrite ?lookup_insert_ne by lia; apply lookup_empty.
Qed.

Lemma label_durations_In df lbl x :
  In x (Validator.label_durations df lbl) <->
  exists r, In r df /\ label r = lbl /\ duration_ms r = x.
Proof.
  unfold Validator.label_durations. rewrite in_map_iff. split.
  - intros (r & <- & Hr). apply List.filter_In in Hr as [Hr Hl].
    apply Z.eqb_eq in Hl. eauto.
  - intros (r & Hr & Hl & <-). exists r. split; [reflexivity|].
    apply List.filter_In. split; [exact Hr|]. now apply Z.eqb_eq.
Qed.

Lemma has_label_durations df lbl :
  has_label df lbl <-> (0 <? length (Validator.label_durations df lbl))%nat = true.
Proof.
  split.
  - intros (r & Hr & Hl).
    assert (HIn : In (duration_ms r) (Validator.label_durations df lbl))
      by (apply label_durations_In; eauto).
    destruct (Validator.label_durations df lbl); [destruct HIn|reflexivity].
  - intros H. destruct (Validator.label_durations df lbl) as [|x xs] eqn:E;
      [discriminate|].
    assert (HIn : In x (Validator.label_durations df lbl)) by (rewrite E; now left).
    apply label_durations_In in HIn as (r & Hr & Hl & _). exists r. auto.
Qed.

(** The entry of a class that occurs, and the missing entry of one that
    does not. *)
Lemma results_getitem_present df k :
  (0 <= k <= 4)%Z -> has_label df k ->
  Validator.results_getitem (Validator.collect_results df) k =
  Ok (Validator.mk_stats
        (Validator.series_mean (Validator.label_durations df k))
        (Validator.series_var (Validator.label_durations df k))
        (length (Validator.label_durations df k))).
Proof.
  intros Hk Hl. unfold Validator.results_getitem.
  rewrite collect_results_lookup by exact Hk. cbn zeta.
  apply has_label_durations in Hl. now rewrite Hl.
Qed.

Lemma results_getitem_absent df k :
  ~ has_label df k ->
  Validator.results_getitem (Validator.collect_results df) k =
  Raise (KeyError (KInt k)).
Proof.
  intros Hl. unfold Validator.results_getitem.
  destruct (Z_le_dec 0 k) as [H0|H0]; [destruct (Z_le_dec k 4) as [H4|H4]|].
  - rewrite collect_results_lookup by lia. cbn zeta.
    destruct (0 <? length (Validator.label_durations df k))%nat eqn:E;
      [|reflexivity].
    apply has_label_durations in E. contradiction.
  - rewrite collect_results_other by lia. reflexivity.
  - rewrite collect_results_other by lia. reflexivity.
Qed.

(** The validator returns exactly on the corpora that contain Dit, Dah,
    LetterSpace and WordSpace rows; on the others the first missing entry,
    in the order 0, 1, 3, 4, raises [KeyError]. *)
Lemma validate_returns_iff df :
  (exists out, Validator.validate_timing_standards df = Ok out) <->
  has_label df 0 /\ has_label df 1 /\ has_label df 3 /\ has_label df 4.
Proof.
  unfold Validator.validate_timing_standards. cbn zeta. split.
  - intros (out & H).
    assert (Hdec : forall k, (0 <= k <= 4)%Z -> has_label df k \/ ~ has_label df k).
    { intros k _. destruct (0 <? length (Validator.label_durations df k))%nat eqn:E.
      - left. now apply has_label_durations.
      - right. intros Hl. apply has_label_durations in Hl. congruence. }
    destruct (Hdec 0%Z ltac:(lia)) as [H0|H0];
      [|rewrite (results_getitem_absent _ _ H0) in H; discriminate].
    rewrite (results_getitem_present df 0%Z ltac:(lia) H0) in H. cbn [rbind] in H.
    destruct (Hdec 1%Z ltac:(lia)) as [H1|H1];
      [|rewrite (results_getitem_absent _ _ H1) in H; discriminate].
    rewrite (results_getitem_present df 1%Z ltac:(lia) H1) in H. cbn [rbind] in H.
    destruct (Hdec 3%Z ltac:(lia)) as [H3|H3];
      [|rewrite (results_getitem_absent _ _ H3) in H; discriminate].
    rewrite (results_getitem_present df 3%Z ltac:(lia) H3) in H. cbn [rbind] in H.
    destruct (Hdec 4%Z ltac:(lia)) as [H4|H4];
      [|rewrite (results_getitem_absent _ _ H4) in H; discriminate].
    auto.
  - intros (H0 & H1 & H3 & H4).
    rewrite (results_getitem_present df 0%Z ltac:(lia) H0). cbn [rbind].
    rewrite (results_getitem_present df 1%Z ltac:(lia) H1). cbn [rbind].
    rewrite (results_getitem_present df 3%Z ltac:(lia) H3). cbn [rbind].
    rewrite (results_getitem_present df 4%Z ltac:(lia) H4). cbn [rbind].
    eauto.
Qed.

Lemma validate_Ok df :
  has_label df 0 -> has_label df 1 -> has_label df 3 -> has_label df 4 ->
  let m k := Validator.series_mean (Validator.label_durations df k) in
  Validator.validate_timing_standards df =
  Ok (Validator.collect_results df,
      Validator.mk_report
        (np_div (m 1%Z) (m 0%Z)) (np_div (m 3%Z) (m 0%Z)) (np_div (m 4%Z) (m 0%Z))
        (Validator.ratio_valid (np_div (m 1%Z) (m 0%Z)) 3 0.20)
        (Validator.ratio_valid (np_div (m 3%Z) (m 0%Z)) 3 0.20)
        (Validator.ratio_valid (np_div (m 4%Z) (m 0%Z)) 7 0.20)).
Proof.
  intros H0 H1 H3 H4. unfold Validator.validate_timing_standards. cbn zeta.
  rewrite (results_getitem_present df 0%Z ltac:(lia) H0). cbn [rbind].
  rewrite (results_getitem_present df 1%Z ltac:(lia) H1). cbn [rbind].
  rewrite (results_getitem_present df 3%Z ltac:(lia) H3). cbn [rbind].
  rewrite (results_getitem_present df 4%Z ltac:(lia) H4). cbn [rbind].
  reflexivity.
Qed.

(** C9.  The validator at a corpus without Dah rows: three letters E from
    Policy B give Dit and LetterSpace rows only, and the lookup
    [results[1]] raises [KeyError]; so does [results[0]] on the empty
    corpus.  A corpus that only lacks the element gap, whose entry is read
    under the guard [if label in results], is validated. *)
Theorem validate_raises_on_missing_class :
  (exists data g',
      GenV3.generate_sequence_based_data_v3 GenV3.JITTER_SIGMA 3 (10, 40)%Q
        Scenario.always_e = Ok (data, g') /\
      map key_and_label data = [(1, 0); (0, 3); (1, 0); (0, 3); (1, 0); (0, 3)]%Z /\
      Validator.validate_timing_standards data = Raise (KeyError (KInt 1))) /\
  Validator.validate_timing_standards [] = Raise (KeyError (KInt 0)) /\
  (exists results report,
      Validator.validate_timing_standards Scenario.no_element_gap
      = Ok (results, report) /\
      results !! 2%Z = None /\
      Validator.dah_valid report = true /\
      Validator.letter_valid report = true /\
      Validator.word_valid report = true).
Proof.
  split; [|split].
  - eexists. eexists. split; [vm_compute; reflexivity|].
    split; vm_compute; reflexivity.
  - vm_compute. reflexivity.
  - eexists. eexists. split; [vm_compute; reflexivity|].
    repeat split; vm_compute; reflexivity.
Qed.

(** ** Exact ratios without jitter *)

Section FixedSpeed.

Variable w : Q.
Hypothesis w_positive : (0 < w)%Q.
Hypothesis w_at_most_1200 : (w <= 1200)%Q.







(** *** Means of a class whose durations are all the same *)





End FixedSpeed.





(** ** The training loop controller *)

Section Controller.

Context {V : Type}.
Variable model : TrainV3.nn_module.
Variable run_epoch : nat -> list V -> result (list V * TrainV3.metrics).
Variable patience : Z.

(** One turn of the loop: the improvement rule on a strictly smaller
    validation loss, the stall rule otherwise, with the loop left at once
    when the counter reaches [patience]. *)
Lemma epoch_loop_step epoch rest st h vals m :
  run_epoch epoch (TrainV3.read_parameters model h) = Ok (vals, m) ->
  TrainV3.epoch_loop model run_epoch patience (epoch :: rest) st h =
  if float_lt (TrainV3.val_loss m) (TrainV3.best_val_loss st)
  then TrainV3.epoch_loop model run_epoch patience rest (improved model st m)
         (TrainV3.write_parameters model vals h)
  else if (TrainV3.patience_counter st + 1 >=? patience)%Z
       then Ok ((stalled st m, Some (epoch + 1)%nat),
                TrainV3.write_parameters model vals h)
       else TrainV3.epoch_loop model run_epoch patience rest (stalled st m)
              (TrainV3.write_parameters model vals h).
Proof.
  intros Hrun. cbn [TrainV3.epoch_loop]. unfold bind at 1.
  unfold TrainV3.epoch_pass. rewrite Hrun. cbn [rbind].
  destruct (float_lt _ _); [reflexivity|].
  destruct (_ >=? _)%Z; reflexivity.
Qed.

(** An exception of the epoch's passes leaves the loop as it is. *)
Lemma epoch_loop_raise epoch rest st h e :
  run_epoch epoch (TrainV3.read_parameters model h) = Raise e ->
  TrainV3.epoch_loop model run_epoch patience (epoch :: rest) st h = Raise e.
Proof.
  intros Hrun. cbn [TrainV3.epoch_loop]. unfold bind at 1.
  unfold TrainV3.epoch_pass. now rewrite Hrun.
Qed.


(** *** Loading the kept state dict back *)

Hypothesis names_distinct : NoDup (map fst (TrainV3.named_parameters model)).

Lemma state_dict_lookup name l :
  In (name, l) (TrainV3.named_parameters model) ->
  TrainV3.state_dict model !! name = Some l.
Proof.
  intros H. unfold TrainV3.state_dict.
  apply elem_of_list_to_map_1; [exact names_distinct|].
  now apply list_elem_of_In.
Qed.

Lemma copy_parameters_aliased sd :
  forall ps (h : TrainV3.store V),
    (forall name l, In (name, l) ps -> sd !! name = Some l) ->
    exists h', TrainV3.copy_parameters ps sd h = Ok h' /\ forall l, h' l = h l.
Proof.
  induction ps as [|[name l] ps IH]; intros h Hsd.
  - exists h. split; [reflexivity|auto].
  - cbn [TrainV3.copy_parameters]. rewrite (Hsd name l) by now left.
    destruct (IH (TrainV3.store_set h l (h l))) as (h' & Hc & Hh').
    { intros n0 l0 H0. apply Hsd. now right. }
    exists h'. split; [exact Hc|].
    intros l0. rewrite Hh'. unfold TrainV3.store_set.
    destruct (Nat.eqb_spec l0 l); congruence.
Qed.

(** The kept dict holds the parameters' own tensors, so loading it back
    writes every parameter onto itself. *)
Lemma load_state_dict_aliased (h : TrainV3.store V) :
  exists h',
    TrainV3.load_state_dict model (TrainV3.dict_copy (TrainV3.state_dict model)) h
    = Ok (tt, h') /\
    forall l, h' l = h l.
Proof.
  unfold TrainV3.load_state_dict, TrainV3.dict_copy.
  rewrite bool_decide_eq_true_2.
  - destruct (copy_parameters_aliased (TrainV3.state_dict model)
                (TrainV3.named_parameters model) h state_dict_lookup)
      as (h' & Hc & Hh').
    rewrite Hc. cbn. eauto.
  - intros name Hn. apply elem_of_dom in Hn as [l Hl].
    unfold TrainV3.state_dict in Hl. apply elem_of_list_to_map_2 in Hl.
    apply elem_of_list_to_set. apply list_elem_of_In.
    apply list_elem_of_In in Hl. apply in_map_iff. exists (name, l). auto.
Qed.

(** The kept state is either absent or the dict of the model's own
    tensors, whatever the losses were. *)
Lemma epoch_loop_snapshot :
  forall epochs st h st' stopped h',
    TrainV3.epoch_loop model run_epoch patience epochs st h = Ok ((st', stopped), h') ->
    (TrainV3.best_model_state st = None \/
     TrainV3.best_model_state st = Some (TrainV3.state_dict model)) ->
    TrainV3.best_model_state st' = None \/
    TrainV3.best_model_state st' = Some (TrainV3.state_dict model).
Proof.
  induction epochs as [|epoch rest IH]; intros st h st' stopped h' Hrun Hst.
  - cbn in Hrun. unfold ret in Hrun. inversion Hrun; subst. exact Hst.
  - destruct (run_epoch epoch (TrainV3.read_parameters model h)) as [[vals m]|e] eqn:E.
    + rewrite (epoch_loop_step _ _ _ _ _ _ E) in Hrun.
      destruct (float_lt _ _).
      * eapply IH; [exact Hrun|]. right. reflexivity.
      * destruct (_ >=? _)%Z.
        -- inversion Hrun; subst. exact Hst.
        -- eapply IH; [exact Hrun|]. exact Hst.
    + rewrite (epoch_loop_raise _ _ _ _ _ E) in Hrun. discriminate.
Qed.

(** After the loop, [train_model] leaves every tensor as the loop left it:
    the parameters are those of the last epoch that ran. *)
Lemma train_model_run_store epochs h st stopped h' :
  TrainV3.train_model_run model run_epoch patience epochs h = Ok ((st, stopped), h') ->
  exists h_loop,
    TrainV3.epoch_loop model run_epoch patience (seq 0 epochs) TrainV3.initial_state h
    = Ok ((st, stopped), h_loop) /\
    forall l, h' l = h_loop l.
Proof.
  unfold TrainV3.train_model_run. intros H.
  apply bind_Ok in H as ([st1 stopped1] & h1 & Hloop & H).
  apply bind_Ok in H as (u & h2 & Hload & H). inv_ret H.
  exists h1. split; [exact Hloop|].
  destruct (epoch_loop_snapshot _ _ _ _ _ _ Hloop (or_introl eq_refl)) as [Hs|Hs];
    rewrite Hs in Hload.
  - unfold ret in Hload. inversion Hload. auto.
  - destruct (load_state_dict_aliased h1) as (h3 & Hl & Hh3).
    unfold TrainV3.dict_copy in Hl. rewrite Hl in Hload. inversion Hload; subst. exact Hh3.
Qed.

Lemma train_model_run_parameters epochs h st stopped h' :
  TrainV3.train_model_run model run_epoch patience epochs h = Ok ((st, stopped), h') ->
  exists h_loop,
    TrainV3.epoch_loop model run_epoch patience (seq 0 epochs) TrainV3.initial_state h
    = Ok ((st, stopped), h_loop) /\
    TrainV3.read_parameters model h' = TrainV3.read_parameters model h_loop.
Proof.
  intros H. apply train_model_run_store in H as (h_loop & Hloop & Hh).
  exists h_loop. split; [exact Hloop|].
  unfold TrainV3.read_parameters. apply map_ext. intros p. apply Hh.
Qed.

Lemma train_model_run_returns epochs h st stopped h_loop :
  TrainV3.epoch_loop model run_epoch patience (seq 0 epochs) TrainV3.initial_state h
  = Ok ((st, stopped), h_loop) ->
  exists h',
    TrainV3.train_model_run model run_epoch patience epochs h = Ok ((st, stopped), h') /\
    forall l, h' l = h_loop l.
Proof.
  intros Hloop. unfold TrainV3.train_model_run.
  unfold bind at 1. rewrite Hloop.
  destruct (epoch_loop_snapshot _ _ _ _ _ _ Hloop (or_introl eq_refl)) as [Hs|Hs];
    rewrite Hs.
  - unfold bind, ret. eauto.
  - destruct (load_state_dict_aliased h_loop) as (h3 & Hl & Hh3).
    unfold TrainV3.dict_copy in Hl. unfold bind. rewrite Hl. unfold ret. eauto.
Qed.

End Controller.

(** *** Early stopping on a loss that stops improving *)

Section Stalling.

Context {V : Type}.
Variable model : TrainV3.nn_module.
Variable run_epoch : nat -> list V -> result (list V * TrainV3.metrics).
Variable patience : Z.

(** [j] epochs in a row without improvement, the last of which brings the
    counter to [patience]: the loop stops right there. *)
Lemma stall_until_patience :
  forall j a n st h,
    (j < n)%nat ->
    (TrainV3.patience_counter st + Z.of_nat (Datatypes.S j) = patience)%Z ->
    (forall e vals, (a <= e <= a + j)%nat ->
        exists vals' m,
          run_epoch e vals = Ok (vals', m) /\
          float_lt (TrainV3.val_loss m) (TrainV3.best_val_loss st) = false) ->
    exists st' h',
      TrainV3.epoch_loop model run_epoch patience (seq a n) st h
      = Ok ((st', Some (a + Datatypes.S j)%nat), h') /\
      TrainV3.best_val_loss st' = TrainV3.best_val_loss st /\
      TrainV3.best_model_state st' = TrainV3.best_model_state st /\
      TrainV3.patience_counter st' = patience /\
      epochs_run st' = (epochs_run st + Datatypes.S j)%nat.
Proof.
  induction j as [|j IH]; intros a n st h Hn Hc Hloss.
  - destruct n as [|n]; [lia|]. cbn [seq].
    destruct (Hloss a (TrainV3.read_parameters model h)) as (vals & m & E & Hlt);
      [lia|].
    rewrite (epoch_loop_step _ _ _ _ _ _ _ _ _ E), Hlt.
    replace (TrainV3.patience_counter st + 1 >=? patience)%Z with true
      by (symmetry; apply Z.geb_le; lia).
    eexists. eexists. split; [reflexivity|].
    cbn. unfold epochs_run. cbn. rewrite length_app. cbn.
    repeat split; lia.
  - destruct n as [|n]; [lia|]. cbn [seq].
    destruct (Hloss a (TrainV3.read_parameters model h)) as (vals & m & E & Hlt);
      [lia|].
    rewrite (epoch_loop_step _ _ _ _ _ _ _ _ _ E), Hlt.
    replace (TrainV3.patience_counter st + 1 >=? patience)%Z with false
      by (symmetry; rewrite Z.geb_leb; apply Z.leb_gt; lia).
    destruct (IH (Datatypes.S a) n (stalled st m)
                 (TrainV3.write_parameters model vals h))
      as (st' & h' & Hrun & Hb & Hs & Hp & He).
    + lia.
    + cbn. lia.
    + intros e vals0 He. cbn. apply Hloss. lia.
    + exists st', h'. rewrite Hrun.
      replace (Datatypes.S a + Datatypes.S j)%nat
        with (a + Datatypes.S (Datatypes.S j))%nat by lia.
      split; [reflexivity|]. cbn in Hb, Hs.
      unfold epochs_run in *. cbn in He. rewrite length_app in He. cbn in He.
      repeat split; try assumption; lia.
Qed.

Variable loss : nat -> Q.

Hypothesis patience_positive : (1 <= patience)%Z.

Hypothesis epochs_return :
  forall e vals, (e < 5 + Z.to_nat patience)%nat ->
    exists vals' m,
      run_epoch e vals = Ok (vals', m) /\ TrainV3.val_loss m = Finite (loss e).

Hypothesis decreasing : forall e, (e < 4)%nat -> (loss (Datatypes.S e) < loss e)%Q.

Hypothesis flat :
  forall e, (5 <= e < 5 + Z.to_nat patience)%nat -> (loss e == loss 4)%Q.

(** Five strictly decreasing losses, then [patience] losses equal to the
    fifth: the loop is left at epoch [5 + patience], the best loss is the
    fifth, and the state was last kept at the fifth epoch. *)
Lemma early_stop_after_five epochs h :
  (5 + Z.to_nat patience <= epochs)%nat ->
  exists st h',
    TrainV3.epoch_loop model run_epoch patience (seq 0 epochs)
      TrainV3.initial_state h
    = Ok ((st, Some (5 + Z.to_nat patience)%nat), h') /\
    epochs_run st = (5 + Z.to_nat patience)%nat /\
    TrainV3.best_val_loss st = Finite (loss 4) /\
    TrainV3.patience_counter st = patience /\
    TrainV3.best_model_state st = Some (TrainV3.state_dict model).
Proof.
  intros Hepochs.
  replace epochs with (5 + (epochs - 5))%nat by lia.
  rewrite seq_app. cbn [seq app Nat.add].
  destruct (epochs_return 0 (TrainV3.read_parameters model h))
    as (v0 & m0 & E0 & L0); [lia|].
  rewrite (epoch_loop_step _ _ _ _ _ _ _ _ _ E0), L0.
  cbn [TrainV3.initial_state TrainV3.best_val_loss float_lt].
  set (h0 := TrainV3.write_parameters model v0 h).
  set (s0 := improved model _ m0).
  destruct (epochs_return 1 (TrainV3.read_parameters model h0))
    as (v1 & m1 & E1 & L1); [lia|].
  rewrite (epoch_loop_step _ _ _ _ _ _ _ _ _ E1), L1.
  subst s0. cbn [improved TrainV3.best_val_loss]. rewrite L0. cbn [float_lt].
  rewrite (proj2 (Qltb_lt _ _) (decreasing 0 ltac:(lia))).
  set (h1 := TrainV3.write_parameters model v1 h0).
  set (s1 := improved model _ m1).
  destruct (epochs_return 2 (TrainV3.read_parameters model h1))
    as (v2 & m2 & E2 & L2); [lia|].
  rewrite (epoch_loop_step _ _ _ _ _ _ _ _ _ E2), L2.
  subst s1. cbn [improved TrainV3.best_val_loss]. rewrite L1. cbn [float_lt].
  rewrite (proj2 (Qltb_lt _ _) (decreasing 1 ltac:(lia))).
  set (h2 := TrainV3.write_parameters model v2 h1).
  set (s2 := improved model _ m2).
  destruct (epochs_return 3 (TrainV3.read_parameters model h2))
    as (v3 & m3 & E3 & L3); [lia|].
  rewrite (epoch_loop_step _ _ _ _ _ _ _ _ _ E3), L3.
  subst s2. cbn [improved TrainV3.best_val_loss]. rewrite L2. cbn [float_lt].
  rewrite (proj2 (Qltb_lt _ _) (decreasing 2 ltac:(lia))).
  set (h3 := TrainV3.write_parameters model v3 h2).
  set (s3 := improved model _ m3).
  destruct (epochs_return 4 (TrainV3.read_parameters model h3))
    as (v4 & m4 & E4 & L4); [lia|].
  rewrite (epoch_loop_step _ _ _ _ _ _ _ _ _ E4), L4.
  subst s3. cbn [improved TrainV3.best_val_loss]. rewrite L3. cbn [float_lt].
  rewrite (proj2 (Qltb_lt _ _) (decreasing 3 ltac:(lia))).
  set (h4 := TrainV3.write_parameters model v4 h3).
  set (s4 := improved model _ m4).
  destruct (stall_until_patience (Z.to_nat patience - 1) 5 (epochs - 5) s4 h4)
    as (st & h' & Hrun & Hb & Hs & Hp & He).
  - lia.
  - subst s4. cbn. lia.
  - intros e vals He.
    destruct (epochs_return e vals) as (vals' & m & E & L); [lia|].
    exists vals', m. split; [exact E|].
    subst s4. cbn [improved TrainV3.best_val_loss]. rewrite L, L4. cbn [float_lt].
    apply Qltb_ge. rewrite (flat e) by lia. apply Qle_refl.
  - replace (Datatypes.S (Z.to_nat patience - 1)) with (Z.to_nat patience) in * by lia.
    exists st, h'. split; [exact Hrun|].
    subst s4. cbn in Hb, Hs. unfold epochs_run in *. cbn in He.
    rewrite ?length_app in He. cbn in He.
    repeat split; try assumption; try lia. congruence.
Qed.

End Stalling.

(** The same through [train_model] itself: the early stop at epoch
    [5 + patience], with the parameters as the loop left them. *)
Lemma train_model_early_stop_after_five {V} (model : TrainV3.nn_module)
    (run_epoch : nat -> list V -> result (list V * TrainV3.metrics))
    (patience : Z) (loss : nat -> Q) (epochs : nat) (h : TrainV3.store V) :
  NoDup (map fst (TrainV3.named_parameters model)) ->
  (1 <= patience)%Z ->
  (forall e vals, (e < 5 + Z.to_nat patience)%nat ->
      exists vals' m,
        run_epoch e vals = Ok (vals', m) /\ TrainV3.val_loss m = Finite (loss e)) ->
  (forall e, (e < 4)%nat -> (loss (Datatypes.S e) < loss e)%Q) ->
  (forall e, (5 <= e < 5 + Z.to_nat patience)%nat -> (loss e == loss 4%nat)%Q) ->
  (5 + Z.to_nat patience <= epochs)%nat ->
  exists st h',
    TrainV3.train_model_run model run_epoch patience epochs h
    = Ok ((st, Some (5 + Z.to_nat patience)%nat), h') /\
    epochs_run st = (5 + Z.to_nat patience)%nat /\
    TrainV3.best_val_loss st = Finite (loss 4%nat) /\
    TrainV3.patience_counter st = patience.
Proof.
  intros Hnames Hp Hret Hdec Hflat Hepochs.
  destruct (early_stop_after_five model run_epoch patience loss Hp Hret Hdec Hflat
              epochs h Hepochs) as (st & h1 & Hloop & He & Hb & Hc & _).
  destruct (train_model_run_returns model run_epoch patience Hnames _ _ _ _ _ Hloop)
    as (h' & Hrun & _).
  exists st, h'. auto.
Qed.

(** The hypotheses above hold of a scripted run with a patience of 3. *)
Example early_stop_after_five_scripted :
  exists st h',
    TrainV3.train_model_run Scenario.one_weight
      (Scenario.scripted_epochs Scenario.five_then_flat) 3 150 Scenario.fresh_store
    = Ok ((st, Some 8%nat), h') /\
    epochs_run st = 8%nat /\
    TrainV3.best_val_loss st = Finite 1 /\
    TrainV3.patience_counter st = 3%Z.
Proof.
  apply (train_model_early_stop_after_five Scenario.one_weight
           (Scenario.scripted_epochs Scenario.five_then_flat) 3
           (fun e => match nth e Scenario.five_then_flat (Finite 0) with
                     | Finite q => q
                     | _ => 0%Q
                     end) 150 Scenario.fresh_store).
  - cbn. constructor; [intros H; inversion H | constructor].
  - lia.
  - intros e vals He. eexists. eexists. split; [reflexivity|].
    cbn in He. cbn [Scenario.metrics_of TrainV3.val_loss].
    do 8 (destruct e as [|e]; [reflexivity|]). lia.
  - intros e He. do 4 (destruct e as [|e]; [reflexivity|]). lia.
  - intros e He. cbn in He.
    do 5 (destruct e as [|e]; [lia|]).
    do 3 (destruct e as [|e]; [reflexivity|]). lia.
  - cbn. lia.
Qed.

(** C1.  [train_model] at a run whose first epoch is the best one.  With
    losses 1, 2 and a budget of two epochs the loop ends on the budget;
    with losses 1, 2, 3 and a patience of 2 it ends on the early stop.  The
    best epoch left the parameter at 1, and after the run the parameter
    holds the value of the last epoch (2, respectively 3): the kept state
    dict shares the parameter's tensor, so loading it back changes
    nothing. *)
Theorem train_model_keeps_last_epoch_parameters :
  (exists m h1,
      TrainV3.epoch_pass Scenario.one_weight
        (Scenario.scripted_epochs Scenario.worse_second) 0 Scenario.fresh_store
      = Ok (m, h1) /\
      TrainV3.val_loss m = Finite 1 /\
      TrainV3.read_parameters Scenario.one_weight h1 = [1%Z]) /\
  (exists st h',
      TrainV3.train_model_run Scenario.one_weight
        (Scenario.scripted_epochs Scenario.worse_second) 20 2 Scenario.fresh_store
      = Ok ((st, None), h') /\
      TrainV3.hist_val_loss (TrainV3.history st) = [Finite 1; Finite 2] /\
      TrainV3.best_val_loss st = Finite 1 /\
      TrainV3.read_parameters Scenario.one_weight h' = [2%Z]) /\
  (exists st h',
      TrainV3.train_model_run Scenario.one_weight
        (Scenario.scripted_epochs Scenario.worse_twice) 2 10 Scenario.fresh_store
      = Ok ((st, Some 3%nat), h') /\
      TrainV3.hist_val_loss (TrainV3.history st) = [Finite 1; Finite 2; Finite 3] /\
      TrainV3.best_val_loss st = Finite 1 /\
      TrainV3.read_parameters Scenario.one_weight h' = [3%Z]).
Proof.
  split; [|split].
  - eexists. eexists. split; [vm_compute; reflexivity|].
    split; reflexivity.
  - eexists. eexists. split; [vm_compute; reflexivity|].
    repeat split; reflexivity.
  - eexists. eexists. split; [vm_compute; reflexivity|].
    repeat split; reflexivity.
Qed.

(** C2.  The loop at five strictly decreasing losses followed by equal
    ones, with a patience of 3 and a budget of 150 epochs: it is left at
    epoch 8 = 5 + 3 with the fifth loss as the best one, as the improvement
    and stall rules say; but the state dict kept at epoch 5, which held the
    parameter value 5 when it was taken, holds the value 8 of the last
    epoch when the loop is left. *)
Theorem kept_state_follows_later_epochs :
  (exists st h5 sd,
      TrainV3.epoch_loop Scenario.one_weight
        (Scenario.scripted_epochs Scenario.five_then_flat) 3 (seq 0 5)
        TrainV3.initial_state Scenario.fresh_store
      = Ok ((st, None), h5) /\
      TrainV3.best_model_state st = Some sd /\
      state_dict_contents sd h5 = [("weight"%string, 5%Z)]) /\
  (exists st h' sd,
      TrainV3.epoch_loop Scenario.one_weight
        (Scenario.scripted_epochs Scenario.five_then_flat) 3 (seq 0 150)
        TrainV3.initial_state Scenario.fresh_store
      = Ok ((st, Some 8%nat), h') /\
      epochs_run st = 8%nat /\
      TrainV3.best_val_loss st = Finite 1 /\
      TrainV3.patience_counter st = 3%Z /\
      TrainV3.best_model_state st = Some sd /\
      state_dict_contents sd h' = [("weight"%string, 8%Z)]).
Proof.
  split.
  - eexists. eexists. eexists. split; [vm_compute; reflexivity|].
    split; [reflexivity|]. vm_compute. reflexivity.
  - eexists. eexists. eexists. split; [vm_compute; reflexivity|].
    repeat split; vm_compute; reflexivity.
Qed.




(** * Further properties *)

(** ** The timing unit engine *)



(** ** Policy A *)

(** For a speed range that is positive and draws of [random.random()] in
    [0, 1), Policy A returns exactly [num_samples] rows. *)
Theorem policy_a_row_count sigma n lo hi g :
  (0 < lo)%Q -> (lo <= hi)%Q -> unit_interval_draws g ->
  exists data g',
    GenV3.generate_morse_dataset_v3 sigma n (lo, hi) g = Ok (data, g') /\
    length data = n.
Proof. apply generate_morse_dataset_v3_returns. Qed.

Lemma steady_unit_interval : unit_interval_draws Scenario.steady.
Proof. intros n. split; cbn; [discriminate|reflexivity]. Qed.

Lemma policy_a_row_count_witness :
  exists data g',
    GenV3.generate_morse_dataset_v3 GenV3.JITTER_SIGMA 250 (10, 40)%Q Scenario.steady
    = Ok (data, g') /\
    length data = 250%nat.
Proof.
  apply policy_a_row_count.
  - reflexivity.
  - discriminate.
  - exact steady_unit_interval.
Defined.

Lemma dataset_body_zero sigma range i wpm data g :
  let wpm' :=
    if (i mod 100 =? 0)%nat
    then (fst range + (snd range - fst range) * random_stream g (random_pos g))%Q
    else wpm in
  Qeq_bool wpm' 0 = true ->
  GenV3.dataset_body sigma range i (wpm, data) g = Raise ZeroDivisionError.
Proof.
  cbn zeta. unfold GenV3.dataset_body.
  destruct (i mod 100 =? 0)%nat; intros Hz;
    unfold random_uniform, random_random, bind, ret; cbn;
    repeat match goal with
    | |- context [if Qltb ?x ?y then _ else _] => destruct (Qltb x y)
    end;
    rewrite (dit_to_milliseconds_zero _ _ Hz); reflexivity.
Qed.

Lemma sequence_body_zero sigma range i wpm data g :
  let wpm' :=
    if (i mod 50 =? 0)%nat
    then (fst range + (snd range - fst range) * random_stream g (random_pos g))%Q
    else wpm in
  Qeq_bool wpm' 0 = true ->
  GenV3.sequence_body sigma range i (wpm, data) g = Raise ZeroDivisionError.
Proof.
  cbn zeta. intros Hz. unfold GenV3.sequence_body.
  set (wpm' := if (i mod 50 =? 0)%nat then _ else wpm) in *.
  assert (Hw : exists s,
             (if (i mod 50 =? 0)%nat
              then random_uniform (fst range) (snd range) else ret wpm) g
             = Ok (wpm', s)).
  { subst wpm'. destruct (i mod 50 =? 0)%nat.
    - unfold random_uniform, random_random, bind, ret. cbn. eauto.
    - unfold ret. eauto. }
  destruct Hw as (s & Hw).
  unfold bind at 1. rewrite Hw.
  destruct (random_choice_keys s) as (c & p & s1 & Hc & Hp & _).
  unfold bind at 1. rewrite Hc.
  unfold bind at 1. rewrite Hp. cbn [lift].
  unfold bind at 1. now rewrite (character_rows_zero _ _ _ _ _ Hz).
Qed.

(** When the first speed drawn is zero, both v3 policies raise
    [ZeroDivisionError] as soon as one sample, respectively one character,
    is asked for; asked for nothing, they return the empty corpus. *)
Theorem zero_speed_raises sigma n lo hi g :
  (lo + (hi - lo) * random_stream g (random_pos g) == 0)%Q ->
  GenV3.generate_morse_dataset_v3 sigma (Datatypes.S n) (lo, hi) g
    = Raise ZeroDivisionError /\
  GenV3.generate_sequence_based_data_v3 sigma (Datatypes.S n) (lo, hi) g
    = Raise ZeroDivisionError /\
  GenV3.generate_morse_dataset_v3 sigma 0 (lo, hi) g = Ok ([], g) /\
  GenV3.generate_sequence_based_data_v3 sigma 0 (lo, hi) g = Ok ([], g).
Proof.
  intros Hz. apply Qeq_bool_iff in Hz.
  split; [|split; [|split; reflexivity]].
  - unfold GenV3.generate_morse_dataset_v3. cbn [seq for_each].
    unfold bind at 1. unfold bind at 1.
    now rewrite (dataset_body_zero sigma (lo, hi) 0 0%Q [] g Hz).
  - unfold GenV3.generate_sequence_based_data_v3. cbn [seq for_each].
    unfold bind at 1. unfold bind at 1.
    now rewrite (sequence_body_zero sigma (lo, hi) 0 0%Q [] g Hz).
Qed.

Lemma zero_speed_raises_witness :
  GenV3.generate_morse_dataset_v3 GenV3.JITTER_SIGMA 5 (0, 0)%Q Scenario.steady
    = Raise ZeroDivisionError /\
  GenV3.generate_sequence_based_data_v3 GenV3.JITTER_SIGMA 5 (0, 0)%Q Scenario.steady
    = Raise ZeroDivisionError.
Proof.
  destruct (zero_speed_raises GenV3.JITTER_SIGMA 4 0 0 Scenario.steady)
    as (H1 & H2 & _); [reflexivity|]. split; assumption.
Defined.

Lemma resample_pos (p i : nat) (range : Q * Q) (wpm : Q) g a s :
  (if (i mod p =? 0)%nat then random_uniform (fst range) (snd range)
   else ret wpm) g = Ok (a, s) ->
  random_stream s = random_stream g /\
  random_pos s = (if (i mod p =? 0)%nat then Datatypes.S (random_pos g)
                  else random_pos g).
Proof.
  destruct (i mod p =? 0)%nat.
  - unfold random_uniform, random_random, bind, ret. intros H. inversion H. cbn. auto.
  - unfold ret. intros H. inversion H. auto.
Qed.

Lemma dataset_body_label sigma range i wpm data g wpm' data' g' :
  GenV3.dataset_body sigma range i (wpm, data) g = Ok ((wpm', data'), g') ->
  exists r,
    data' = data ++ [r] /\
    label r = policy_a_label
                (random_stream g (if (i mod 100 =? 0)%nat
                                  then Datatypes.S (random_pos g)
                                  else random_pos g)).
Proof.
  unfold GenV3.dataset_body. intros H.
  apply bind_Ok in H as (a & s & Hw & H). apply resample_pos in Hw as (Hs & Hp).
  apply bind_Ok in H as (u & s0 & Hu & H).
  unfold random_random in Hu. inversion Hu as [[Hu' Hs0]]. clear Hu.
  rewrite Hs, Hp in Hu'. rewrite Hu'. clear Hs0.
  unfold policy_a_label.
  split_ifs H; inv_run H; inv_ret H; eexists; split; reflexivity.
Qed.

Lemma filter_interval_length t1 t2 :
  forall N,
    length (List.filter (fun i => (t1 <=? i)%nat && (i <? t2)%nat) (seq 0 N))
    = (Nat.min t2 N - Nat.min t1 N)%nat.
Proof.
  induction N as [|N IH]; [now rewrite !Nat.min_0_r|].
  rewrite seq_S, List.filter_app, length_app, IH.
  cbn [Nat.add List.filter].
  destruct (Nat.leb_spec t1 N); destruct (Nat.ltb_spec N t2); cbn [andb length]; lia.
Qed.

Lemma grid_count_interval (event : Q -> bool) (N t1 t2 : nat) :
  (t1 <= t2)%nat -> (t2 <= N)%nat ->
  (forall i, (i < N)%nat ->
      event (Z.of_nat i # Pos.of_nat N) = (t1 <=? i)%nat && (i <? t2)%nat) ->
  grid_count event N = (t2 - t1)%nat.
Proof.
  intros H1 H2 Hev. unfold grid_count.
  rewrite (List.filter_ext_in _ (fun i => (t1 <=? i)%nat && (i <? t2)%nat)).
  - rewrite filter_interval_length. lia.
  - intros i Hi. apply in_seq in Hi. apply Hev. lia.
Qed.

Lemma Qltb_grid (a : positive) (i m : nat) :
  Qltb (Z.of_nat i # Pos.of_nat (100 * Datatypes.S m)) (Zpos a # 100)
  = (i <? Pos.to_nat a * Datatypes.S m)%nat.
Proof.
  destruct (Nat.ltb_spec i (Pos.to_nat a * Datatypes.S m)) as [Hlt|Hge].
  - apply Qltb_lt. unfold Qlt. cbn [Qnum Qden].
    rewrite Zpos_of_nat by lia. nia.
  - apply Qltb_ge. unfold Qle. cbn [Qnum Qden].
    rewrite Zpos_of_nat by lia. nia.
Qed.

Lemma policy_a_label_grid (i m : nat) :
  policy_a_label (Z.of_nat i # Pos.of_nat (100 * Datatypes.S m)) =
  if (i <? 20 * Datatypes.S m)%nat then 0%Z
  else if (i <? 35 * Datatypes.S m)%nat then 1%Z
  else if (i <? 55 * Datatypes.S m)%nat then 2%Z
  else if (i <? 80 * Datatypes.S m)%nat then 3%Z
  else 4%Z.
Proof.
  unfold policy_a_label.
  change 0.20%Q with (Zpos 20 # 100). change 0.35%Q with (Zpos 35 # 100).
  change 0.55%Q with (Zpos 55 # 100). change 0.80%Q with (Zpos 80 # 100).
  rewrite !Qltb_grid. reflexivity.
Qed.

(** Policy A gives each sample the class of its own draw of
    [random.random()], and of every 100 equally likely draws 20 give a
    Dit, 15 a Dah, 20 an ElementSpace, 25 a LetterSpace and 20 a
    WordSpace. *)
Theorem policy_a_class_weights :
  (forall sigma range i wpm data g wpm' data' g',
      GenV3.dataset_body sigma range i (wpm, data) g = Ok ((wpm', data'), g') ->
      exists r,
        data' = data ++ [r] /\
        label r = policy_a_label
                    (random_stream g (if (i mod 100 =? 0)%nat
                                      then Datatypes.S (random_pos g)
                                      else random_pos g))) /\
  (forall m,
      let N := (100 * Datatypes.S m)%nat in
      grid_count (fun u => (policy_a_label u =? 0)%Z) N = (20 * Datatypes.S m)%nat /\
      grid_count (fun u => (policy_a_label u =? 1)%Z) N = (15 * Datatypes.S m)%nat /\
      grid_count (fun u => (policy_a_label u =? 2)%Z) N = (20 * Datatypes.S m)%nat /\
      grid_count (fun u => (policy_a_label u =? 3)%Z) N = (25 * Datatypes.S m)%nat /\
      grid_count (fun u => (policy_a_label u =? 4)%Z) N = (20 * Datatypes.S m)%nat).
Proof.
  split; [exact dataset_body_label|].
  intros m N. subst N.
  assert (Hc : forall lbl t1 t2,
             (t1 <= t2)%nat -> (t2 <= 100 * Datatypes.S m)%nat ->
             (forall i, (i < 100 * Datatypes.S m)%nat ->
                 ((if (i <? 20 * Datatypes.S m)%nat then 0
                   else if (i <? 35 * Datatypes.S m)%nat then 1
                   else if (i <? 55 * Datatypes.S m)%nat then 2
                   else if (i <? 80 * Datatypes.S m)%nat then 3
                   else 4) =? lbl)%Z = (t1 <=? i)%nat && (i <? t2)%nat) ->
             grid_count (fun u => (policy_a_label u =? lbl)%Z) (100 * Datatypes.S m)
             = (t2 - t1)%nat).
  { intros lbl t1 t2 H1 H2 Hev. apply grid_count_interval; [exact H1|exact H2|].
    intros i Hi. rewrite policy_a_label_grid. now apply Hev. }
  assert (Hcase : forall lbl t1 t2 i,
             (i < 100 * Datatypes.S m)%nat ->
             (lbl = 0%Z /\ t1 = 0%nat /\ t2 = (20 * Datatypes.S m)%nat) \/
             (lbl = 1%Z /\ t1 = (20 * Datatypes.S m)%nat /\ t2 = (35 * Datatypes.S m)%nat) \/
             (lbl = 2%Z /\ t1 = (35 * Datatypes.S m)%nat /\ t2 = (55 * Datatypes.S m)%nat) \/
             (lbl = 3%Z /\ t1 = (55 * Datatypes.S m)%nat /\ t2 = (80 * Datatypes.S m)%nat) \/
             (lbl = 4%Z /\ t1 = (80 * Datatypes.S m)%nat /\ t2 = (100 * Datatypes.S m)%nat) ->
             ((if (i <? 20 * Datatypes.S m)%nat then 0
               else if (i <? 35 * Datatypes.S m)%nat then 1
               else if (i <? 55 * Datatypes.S m)%nat then 2
               else if (i <? 80 * Datatypes.S m)%nat then 3
               else 4) =? lbl)%Z = (t1 <=? i)%nat && (i <? t2)%nat).
  { intros lbl t1 t2 i Hi Hl.
    destruct Hl as [(-> & -> & ->)|[(-> & -> & ->)|[(-> & -> & ->)|[(-> & -> & ->)|(-> & -> & ->)]]]];
      repeat match goal with
      | |- context [(?a <? ?b)%nat] => destruct (Nat.ltb_spec a b)
      | |- context [(?a <=? ?b)%nat] => destruct (Nat.leb_spec a b)
      end; try reflexivity; lia. }
  repeat split.
  - rewrite (Hc 0%Z 0%nat (20 * Datatypes.S m)%nat); [lia|lia|lia|].
    intros i Hi. apply Hcase; [exact Hi|]. tauto.
  - rewrite (Hc 1%Z (20 * Datatypes.S m)%nat (35 * Datatypes.S m)%nat); [lia|lia|lia|].
    intros i Hi. apply Hcase; [exact Hi|]. tauto.
  - rewrite (Hc 2%Z (35 * Datatypes.S m)%nat (55 * Datatypes.S m)%nat); [lia|lia|lia|].
    intros i Hi. apply Hcase; [exact Hi|]. tauto.
  - rewrite (Hc 3%Z (55 * Datatypes.S m)%nat (80 * Datatypes.S m)%nat); [lia|lia|lia|].
    intros i Hi. apply Hcase; [exact Hi|]. tauto.
  - rewrite (Hc 4%Z (80 * Datatypes.S m)%nat (100 * Datatypes.S m)%nat); [lia|lia|lia|].
    intros i Hi. apply Hcase; [exact Hi|]. tauto.
Qed.

Lemma policy_a_class_weights_witness :
  exists r g',
    GenV3.dataset_body GenV3.JITTER_SIGMA (10, 40)%Q 7 (20%Q, []) Scenario.steady
    = Ok ((20%Q, [r]), g') /\
    label r = 2%Z.
Proof.
  destruct (GenV3.dataset_body GenV3.JITTER_SIGMA (10, 40)%Q 7 (20%Q, [])
              Scenario.steady) as [[[w d] g']|e] eqn:E;
    [|vm_compute in E; discriminate].
  destruct (proj1 policy_a_class_weights _ _ _ _ _ _ _ _ _ E) as (r & Hd & Hl).
  cbn [app] in Hd. subst d.
  assert (Hw : w = 20%Q).
  { apply dataset_body_inv in E as (Hw & _). exact Hw. }
  subst w. exists r, g'. split; [reflexivity|]. exact Hl.
Defined.






(** ** Policy B *)

Lemma alternating_app (a b : nat) :
  alternating (a + b) = alternating a ++ alternating b.
Proof. induction a as [|a IH]; [reflexivity|]. cbn. now rewrite IH. Qed.

Lemma alternating_length (m : nat) : length (alternating m) = (2 * m)%nat.
Proof. induction m as [|m IH]; [reflexivity|]. cbn. rewrite IH. lia. Qed.

Lemma character_shape_keys pattern gap :
  pattern <> [] ->
  map fst (character_shape pattern ++ [(0%Z, gap)]) = alternating (length pattern).
Proof.
  induction pattern as [|c rest IH]; [congruence|]. intros _.
  destruct rest as [|c' rest']; [reflexivity|].
  change (character_shape (c :: c' :: rest')) with
    ((1%Z, pulse_label c) :: (0%Z, 2%Z) :: character_shape (c' :: rest')).
  cbn [app map fst length alternating]. rewrite IH by congruence. reflexivity.
Qed.

Lemma character_shape_counts pattern (gap : Z) :
  pattern <> [] -> (gap = 3 \/ gap = 4)%Z ->
  let count lbl :=
    length (List.filter (fun kl : Z * Z => (snd kl =? lbl)%Z)
                        (character_shape pattern ++ [(0%Z, gap)])) in
  (count 0%Z + count 1%Z = length pattern)%nat /\
  (count 2%Z + 1 = length pattern)%nat /\
  (count 3%Z + count 4%Z = 1)%nat.
Proof.
  cbn zeta.
  induction pattern as [|c rest IH]; [congruence|]. intros _ Hgap.
  assert (Hp : pulse_label c = 0%Z \/ pulse_label c = 1%Z)
    by (unfold pulse_label; destruct (Ascii.eqb c "."%char); auto).
  destruct rest as [|c' rest'].
  - cbn [character_shape app].
    destruct Hp as [-> | ->]; destruct Hgap as [-> | ->]; cbn; lia.
  - change (character_shape (c :: c' :: rest')) with
      ((1%Z, pulse_label c) :: (0%Z, 2%Z) :: character_shape (c' :: rest')).
    specialize (IH ltac:(congruence) Hgap).
    cbn [app].
    remember (character_shape (c' :: rest') ++ [(0%Z, gap)]) as tail.
    cbn [length] in IH |- *.
    destruct Hp as [-> | ->]; cbn; lia.
Qed.

Lemma morse_patterns_short char pattern :
  In (char, pattern) GenV3.morse_code ->
  (1 <= length (list_ascii_of_string pattern) <= 5)%nat.
Proof.
  intros HIn.
  assert (H : forallb (fun cp => (1 <=? length (list_ascii_of_string (snd cp)))%nat
                                 && (length (list_ascii_of_string (snd cp)) <=? 5)%nat)
                      GenV3.morse_code = true) by reflexivity.
  rewrite forallb_forall in H. specialize (H _ HIn). cbn [snd] in H.
  apply andb_true_iff in H as [H1 H2].
  apply Nat.leb_le in H1. apply Nat.leb_le in H2. lia.
Qed.

Lemma count_label_app a b lbl :
  count_label (a ++ b) lbl = (count_label a lbl + count_label b lbl)%nat.
Proof. unfold count_label. now rewrite List.filter_app, length_app. Qed.

Lemma count_label_keys rows lbl :
  count_label rows lbl =
  length (List.filter (fun kl : Z * Z => (snd kl =? lbl)%Z) (map key_and_label rows)).
Proof.
  unfold count_label. induction rows as [|r rows IH]; [reflexivity|].
  cbn. destruct (label r =? lbl)%Z; cbn; now rewrite IH.
Qed.

(** One character of Policy B: [k] pulses, [k - 1] element gaps and one
    letter or word gap, key down and key up in turn. *)
Lemma sequence_body_rows sigma range i wpm data g wpm' data' g' :
  GenV3.sequence_body sigma range i (wpm, data) g = Ok ((wpm', data'), g') ->
  exists rows k,
    data' = data ++ rows /\ (1 <= k <= 5)%nat /\
    map is_key_down rows = alternating k /\
    (count_label rows 0 + count_label rows 1 = k)%nat /\
    (count_label rows 2 + 1 = k)%nat /\
    (count_label rows 3 + count_label rows 4 = 1)%nat.
Proof.
  intros H. apply sequence_body_inv in H as (_ & c & p & g1 & HIn & Hc).
  destruct (Qeq_bool wpm' 0) eqn:Hz.
  { rewrite (character_rows_zero _ _ _ _ _ Hz) in Hc. discriminate. }
  destruct (character_rows_Ok sigma wpm' Hz (list_ascii_of_string p) data g1)
    as (rows & g2 & Hrun & Hshape & _).
  rewrite Hrun in Hc. inversion Hc; subst data' g2. clear Hc.
  pose proof (morse_patterns_nonempty _ _ HIn) as Hne.
  pose proof (morse_patterns_short _ _ HIn) as Hk.
  exists rows, (length (list_ascii_of_string p)).
  split; [reflexivity|]. split; [exact Hk|].
  assert (Hgap : ((if Qltb (random_stream g1 (random_pos g1)) 0.25 then 4 else 3) = 3 \/
                  (if Qltb (random_stream g1 (random_pos g1)) 0.25 then 4 else 3) = 4)%Z)
    by (destruct (Qltb _ _); auto).
  pose proof (character_shape_counts (list_ascii_of_string p) _ Hne Hgap) as Hcount.
  cbn zeta in Hcount. rewrite <- Hshape in Hcount.
  rewrite !count_label_keys.
  split; [|exact Hcount].
  replace (map is_key_down rows) with (map fst (map key_and_label rows))
    by (rewrite map_map; reflexivity).
  rewrite Hshape. now apply character_shape_keys.
Qed.

Lemma policy_b_structure sigma n range g data g' :
  GenV3.generate_sequence_based_data_v3 sigma n range g = Ok (data, g') ->
  exists m,
    (n <= m <= 5 * n)%nat /\
    map is_key_down data = alternating m /\
    (count_label data 0 + count_label data 1 = m)%nat /\
    (count_label data 2 + n = m)%nat /\
    (count_label data 3 + count_label data 4 = n)%nat.
Proof.
  unfold GenV3.generate_sequence_based_data_v3. intros H.
  apply bind_Ok in H as ([w1 d] & s & Hloop & H). inv_ret H.
  apply (for_each_seq_inv _
           (fun i st =>
              exists m,
                (i <= m <= 5 * i)%nat /\
                map is_key_down (snd st) = alternating m /\
                (count_label (snd st) 0 + count_label (snd st) 1 = m)%nat /\
                (count_label (snd st) 2 + i = m)%nat /\
                (count_label (snd st) 3 + count_label (snd st) 4 = i)%nat))
    in Hloop.
  - exact Hloop.
  - intros i [w0 d0] t [w2 d2] t2 _ (m & Hm & Hkeys & H01 & H2 & H34) Hb.
    cbn [snd] in *.
    apply sequence_body_rows in Hb as (rows & k & -> & Hk & Hrk & R01 & R2 & R34).
    exists (m + k)%nat. rewrite !count_label_app, map_app, Hkeys, Hrk, alternating_app.
    repeat split; lia.
  - exists 0%nat. cbn. repeat split; lia.
Qed.

(** The output of Policy B is a keying sequence: key down and key up rows
    strictly in turn, beginning with a pulse and ending with a gap, and of
    2 to 10 rows per character. *)
Theorem policy_b_alternates sigma n range g data g' :
  GenV3.generate_sequence_based_data_v3 sigma n range g = Ok (data, g') ->
  exists m,
    map is_key_down data = alternating m /\
    length data = (2 * m)%nat /\
    (n <= m <= 5 * n)%nat.
Proof.
  intros H. apply policy_b_structure in H as (m & Hm & Hkeys & _).
  exists m. split; [exact Hkeys|]. split; [|exact Hm].
  rewrite <- (length_map is_key_down), Hkeys. apply alternating_length.
Qed.

Lemma policy_b_alternates_witness :
  exists data g' m,
    GenV3.generate_sequence_based_data_v3 GenV3.JITTER_SIGMA 40 (10, 40)%Q
      Scenario.varied = Ok (data, g') /\
    map is_key_down data = alternating m /\
    length data = (2 * m)%nat /\ (40 <= m <= 200)%nat.
Proof.
  destruct (GenV3.generate_sequence_based_data_v3 GenV3.JITTER_SIGMA 40 (10, 40)%Q
              Scenario.varied) as [[data g']|e] eqn:E;
    [|vm_compute in E; discriminate].
  destruct (policy_b_alternates _ _ _ _ _ _ E) as (m & H1 & H2 & H3).
  exists data, g', m. auto.
Defined.

(** In a corpus of Policy B over [n] characters the letter and word gaps
    together number [n], and there are [n] more pulses than element
    gaps. *)
Theorem policy_b_class_counts sigma n range g data g' :
  GenV3.generate_sequence_based_data_v3 sigma n range g = Ok (data, g') ->
  (count_label data 3 + count_label data 4 = n)%nat /\
  (count_label data 0 + count_label data 1 = count_label data 2 + n)%nat.
Proof.
  intros H. apply policy_b_structure in H as (m & _ & _ & H01 & H2 & H34).
  split; lia.
Qed.

Lemma policy_b_class_counts_witness :
  exists data g',
    GenV3.generate_sequence_based_data_v3 GenV3.JITTER_SIGMA 40 (10, 40)%Q
      Scenario.varied = Ok (data, g') /\
    (count_label data 3 + count_label data 4 = 40)%nat /\
    (count_label data 0 + count_label data 1 = count_label data 2 + 40)%nat.
Proof.
  destruct (GenV3.generate_sequence_based_data_v3 GenV3.JITTER_SIGMA 40 (10, 40)%Q
              Scenario.varied) as [[data g']|e] eqn:E;
    [|vm_compute in E; discriminate].
  destruct (policy_b_class_counts _ _ _ _ _ _ E) as (H1 & H2).
  exists data, g'. auto.
Defined.

(** ** More on the ratio validator *)

Lemma results_getitem_eq df k :
  (0 <= k <= 4)%Z ->
  Validator.results_getitem (Validator.collect_results df) k =
  let xs := Validator.label_durations df k in
  if (0 <? length xs)%nat
  then Ok (Validator.mk_stats (Validator.series_mean xs)
                              (Validator.series_var xs) (length xs))
  else Raise (KeyError (KInt k)).
Proof.
  intros Hk. unfold Validator.results_getitem.
  rewrite collect_results_lookup by exact Hk. cbn zeta.
  now destruct (0 <? length (Validator.label_durations df k))%nat.
Qed.

Lemma ratio_valid_band (r e : Q) :
  (0 < e)%Q ->
  Validator.ratio_valid (Finite r) e 0.20 = true <->
  (0.8 * e < r /\ r < 1.2 * e)%Q.
Proof.
  intros He. unfold Validator.ratio_valid. rewrite Qltb_lt.
  assert (Hne : ~ (e == 0)%Q).
  { intros E. rewrite E in He. exact (Qlt_irrefl _ He). }
  rewrite <- (Qmult_lt_r _ _ e He).
  setoid_replace (Qabs (r - e) / e * e)%Q with (Qabs (r - e))
    using relation Qeq by (field; exact Hne).
  rewrite Qabs_Qlt_condition. split.
  - intros [H1 H2]. split.
    + apply (Qplus_lt_l _ _ (- e)).
      setoid_replace (0.8 * e + - e)%Q with (- (0.20 * e))%Q using relation Qeq by ring.
      exact H1.
    + apply (Qplus_lt_l _ _ (- e)).
      setoid_replace (1.2 * e + - e)%Q with (0.20 * e)%Q using relation Qeq by ring.
      exact H2.
  - intros [H1 H2]. split.
    + setoid_replace (- (0.20 * e))%Q with (0.8 * e + - e)%Q using relation Qeq by ring.
      apply (Qplus_lt_l _ _ (- e)) in H1. exact H1.
    + setoid_replace (0.20 * e)%Q with (1.2 * e + - e)%Q using relation Qeq by ring.
      apply (Qplus_lt_l _ _ (- e)) in H2. exact H2.
Qed.

Lemma ratio_valid_finite x e :
  (0 < e)%Q ->
  Validator.ratio_valid x e 0.20 = true <->
  exists r, x = Finite r /\ (0.8 * e < r /\ r < 1.2 * e)%Q.
Proof.
  intros He. split.
  - destruct x as [| |r|]; try discriminate. intros H.
    exists r. split; [reflexivity|]. now apply ratio_valid_band.
  - intros (r & -> & H). now apply ratio_valid_band.
Qed.

(** A verdict is PASS exactly when the measured ratio is a finite number
    strictly within 20% of its target: between 2.4 and 3.6 for Dah and
    LetterSpace, between 5.6 and 8.4 for WordSpace. *)
Theorem validator_tolerance_band df results report :
  Validator.validate_timing_standards df = Ok (results, report) ->
  (Validator.dah_valid report = true <->
   exists r, Validator.dah_ratio report = Finite r /\ (2.4 < r /\ r < 3.6)%Q) /\
  (Validator.letter_valid report = true <->
   exists r, Validator.letter_ratio report = Finite r /\ (2.4 < r /\ r < 3.6)%Q) /\
  (Validator.word_valid report = true <->
   exists r, Validator.word_ratio report = Finite r /\ (5.6 < r /\ r < 8.4)%Q).
Proof.
  intros H.
  assert (Hl : has_label df 0 /\ has_label df 1 /\ has_label df 3 /\ has_label df 4)
    by (apply validate_returns_iff; eauto).
  destruct Hl as (H0 & H1 & H3 & H4).
  rewrite (validate_Ok df H0 H1 H3 H4) in H. cbn zeta in H.
  inversion H; subst. clear H.
  cbn [Validator.dah_valid Validator.letter_valid Validator.word_valid
       Validator.dah_ratio Validator.letter_ratio Validator.word_ratio].
  assert (B3 : forall x,
             Validator.ratio_valid x 3 0.20 = true <->
             exists r, x = Finite r /\ (2.4 < r /\ r < 3.6)%Q).
  { intros x. rewrite (ratio_valid_finite x 3) by reflexivity.
    split; intros (r & Hx & Ha & Hb); exists r; (split; [exact Hx|]); split.
    - eapply Qle_lt_trans; [|exact Ha]. discriminate.
    - eapply Qlt_le_trans; [exact Hb|]. discriminate.
    - eapply Qle_lt_trans; [|exact Ha]. discriminate.
    - eapply Qlt_le_trans; [exact Hb|]. discriminate. }
  assert (B7 : forall x,
             Validator.ratio_valid x 7 0.20 = true <->
             exists r, x = Finite r /\ (5.6 < r /\ r < 8.4)%Q).
  { intros x. rewrite (ratio_valid_finite x 7) by reflexivity.
    split; intros (r & Hx & Ha & Hb); exists r; (split; [exact Hx|]); split.
    - eapply Qle_lt_trans; [|exact Ha]. discriminate.
    - eapply Qlt_le_trans; [exact Hb|]. discriminate.
    - eapply Qle_lt_trans; [|exact Ha]. discriminate.
    - eapply Qlt_le_trans; [exact Hb|]. discriminate. }
  split; [apply B3|]. split; [apply B3|apply B7].
Qed.

Lemma validator_tolerance_band_witness :
  exists results report r,
    Validator.validate_timing_standards Scenario.no_element_gap = Ok (results, report) /\
    Validator.word_valid report = true /\
    Validator.word_ratio report = Finite r /\ (5.6 < r /\ r < 8.4)%Q.
Proof.
  destruct (Validator.validate_timing_standards Scenario.no_element_gap)
    as [[results report]|e] eqn:E; [|vm_compute in E; discriminate].
  assert (Hv : Validator.word_valid report = true).
  { assert (Hm : match Validator.validate_timing_standards Scenario.no_element_gap with
                 | Ok (_, rep) => Validator.word_valid rep
                 | Raise _ => false
                 end = true) by (vm_compute; reflexivity).
    now rewrite E in Hm. }
  destruct (proj1 (proj2 (proj2 (validator_tolerance_band _ _ _ E))) Hv)
    as (r & Hr & Hb).
  exists results, report, r. auto.
Defined.

Lemma label_durations_filter (keep : row -> bool) df k :
  (forall r, label r = k -> keep r = true) ->
  Validator.label_durations (List.filter keep df) k = Validator.label_durations df k.
Proof.
  intros Hkeep. unfold Validator.label_durations. f_equal.
  induction df as [|r df IH]; [reflexivity|].
  cbn. destruct (keep r) eqn:Ek; cbn.
  - destruct (label r =? k)%Z; now rewrite IH.
  - destruct (label r =? k)%Z eqn:El; [|exact IH].
    apply Z.eqb_eq in El. rewrite (Hkeep r El) in Ek. discriminate.
Qed.

Lemma validate_same_verdict df df' :
  (forall k, In k [0; 1; 3; 4]%Z ->
      Validator.label_durations df k = Validator.label_durations df' k) ->
  same_verdict (Validator.validate_timing_standards df)
               (Validator.validate_timing_standards df').
Proof.
  intros Hd. unfold Validator.validate_timing_standards. cbn zeta.
  rewrite !results_getitem_eq by lia. cbn zeta.
  rewrite <- !Hd by (cbn; tauto).
  repeat match goal with
  | |- context [if (0 <? ?n)%nat then _ else _] => destruct (0 <? n)%nat
  end; cbn; reflexivity.
Qed.

(** The element gaps play no part in the verdict: two corpora with the
    same rows other than element gaps get the same report, or the same
    exception. *)
Theorem validator_ignores_element_gaps df df' :
  without_element_gaps df = without_element_gaps df' ->
  same_verdict (Validator.validate_timing_standards df)
               (Validator.validate_timing_standards df').
Proof.
  intros H. apply validate_same_verdict. intros k Hk.
  assert (Hkeep : forall r, label r = k -> negb (label r =? 2)%Z = true).
  { intros r <-. destruct Hk as [<-|[<-|[<-|[<-|[]]]]]; reflexivity. }
  rewrite <- (label_durations_filter _ df k Hkeep).
  rewrite <- (label_durations_filter _ df' k Hkeep).
  unfold without_element_gaps in H. now rewrite H.
Qed.

Lemma validator_ignores_element_gaps_witness :
  same_verdict
    (Validator.validate_timing_standards Scenario.no_element_gap)
    (Validator.validate_timing_standards
       (mk_row 999 0 2 :: Scenario.no_element_gap ++ [mk_row 5 0 2])).
Proof.
  apply validator_ignores_element_gaps. reflexivity.
Defined.

(** Rows whose label is none of 0..4 are not looked at: dropping them
    changes neither the returned statistics nor the report nor the
    exception. *)
Theorem validator_ignores_unknown_labels df :
  Validator.validate_timing_standards (known_labels df)
  = Validator.validate_timing_standards df.
Proof.
  assert (Hd : forall k, (0 <= k <= 4)%Z ->
             Validator.label_durations (known_labels df) k
             = Validator.label_durations df k).
  { intros k Hk. apply label_durations_filter. intros r <-.
    apply andb_true_iff. split; [apply Z.leb_le|apply Z.leb_le]; lia. }
  assert (Hc : Validator.collect_results (known_labels df)
               = Validator.collect_results df).
  { unfold Validator.collect_results. cbn [fold_left].
    now rewrite !Hd by lia. }
  unfold Validator.validate_timing_standards. now rewrite Hc.
Qed.

(** *** Statistics of the entries *)

Lemma series_sum_at_least (c : Q) (xs : list Q) :
  Forall (fun x => c <= x)%Q xs ->
  forall a, (a + inject_Z (Z.of_nat (length xs)) * c <= fold_left Qplus xs a)%Q.
Proof.
  induction 1 as [|x xs Hx _ IH]; intros a.
  - cbn. setoid_replace (a + inject_Z 0 * c)%Q with a using relation Qeq by ring.
    apply Qle_refl.
  - cbn [fold_left length]. eapply Qle_trans; [|apply IH].
    rewrite Nat2Z.inj_succ. unfold Z.succ. rewrite inject_Z_plus.
    setoid_replace (a + (inject_Z (Z.of_nat (length xs)) + inject_Z 1) * c)%Q
      with ((a + c) + inject_Z (Z.of_nat (length xs)) * c)%Q using relation Qeq by ring.
    apply Qplus_le_l. apply Qplus_le_r. exact Hx.
Qed.

Lemma series_mean_at_least (c : Q) (xs : list Q) :
  xs <> [] -> Forall (fun x => c <= x)%Q xs -> (c <= Validator.series_mean xs)%Q.
Proof.
  intros Hne Hxs. unfold Validator.series_mean, Validator.series_sum.
  assert (Hn : (0 < inject_Z (Z.of_nat (length xs)))%Q).
  { change 0%Q with (inject_Z 0). rewrite <- Zlt_Qlt.
    destruct xs; [congruence|cbn [length]; lia]. }
  apply Qle_shift_div_l; [exact Hn|].
  eapply Qle_trans; [|apply (series_sum_at_least c xs Hxs 0%Q)].
  setoid_replace (0 + inject_Z (Z.of_nat (length xs)) * c)%Q
    with (c * inject_Z (Z.of_nat (length xs)))%Q using relation Qeq by ring.
  apply Qle_refl.
Qed.

(** On a corpus of either v3 policy that the validator accepts, every
    class mean is at least 1 ms, so the baseline is never zero and the
    three measured ratios are finite and positive. *)
Theorem generated_corpus_has_finite_ratios sigma n range g data g' results report :
  GenV3.generate_morse_dataset_v3 sigma n range g = Ok (data, g') \/
  GenV3.generate_sequence_based_data_v3 sigma n range g = Ok (data, g') ->
  Validator.validate_timing_standards data = Ok (results, report) ->
  (forall k st, results !! k = Some st -> (1 <= Validator.mean st)%Q) /\
  (exists r, Validator.dah_ratio report = Finite r /\ (0 < r)%Q) /\
  (exists r, Validator.letter_ratio report = Finite r /\ (0 < r)%Q) /\
  (exists r, Validator.word_ratio report = Finite r /\ (0 < r)%Q).
Proof.
  intros Hgen Hval.
  assert (Hfloor : Forall (fun r => 1 <= duration_ms r)%Q data).
  { apply v3_rows in Hgen. eapply Forall_impl; [exact Hgen|].
    intros r (wpm & Hr). eapply generated_row_floor. exact Hr. }
  assert (Hmean : forall k, has_label data k ->
             (1 <= Validator.series_mean (Validator.label_durations data k))%Q).
  { intros k Hk. apply series_mean_at_least.
    - apply has_label_durations in Hk.
      destruct (Validator.label_durations data k); [discriminate|congruence].
    - apply List.Forall_forall. intros x Hx.
      apply label_durations_In in Hx as (r & Hr & _ & <-).
      rewrite List.Forall_forall in Hfloor. now apply Hfloor. }
  assert (Hl : has_label data 0 /\ has_label data 1 /\ has_label data 3 /\
               has_label data 4) by (apply validate_returns_iff; eauto).
  destruct Hl as (H0 & H1 & H3 & H4).
  rewrite (validate_Ok data H0 H1 H3 H4) in Hval. cbn zeta in Hval.
  inversion Hval; subst. clear Hval.
  cbn [Validator.dah_ratio Validator.letter_ratio Validator.word_ratio].
  assert (Hratio : forall k, has_label data k ->
             exists r,
               np_div (Validator.series_mean (Validator.label_durations data k))
                      (Validator.series_mean (Validator.label_durations data 0))
               = Finite r /\ (0 < r)%Q).
  { intros k Hk. unfold np_div.
    pose proof (Hmean 0%Z H0) as M0. pose proof (Hmean k Hk) as Mk.
    assert (P0 : (0 < Validator.series_mean (Validator.label_durations data 0))%Q)
      by (eapply Qlt_le_trans; [|exact M0]; reflexivity).
    rewrite (Qeq_bool_pos _ P0). eexists. split; [reflexivity|].
    apply Qlt_shift_div_l; [exact P0|]. rewrite Qmult_0_l.
    eapply Qlt_le_trans; [|exact Mk]. reflexivity. }
  split; [|split; [|split]]; try (apply Hratio; assumption).
  intros k st Hk.
  destruct (Z_le_dec 0 k) as [Hk0|Hk0]; [destruct (Z_le_dec k 4) as [Hk4|Hk4]|];
    try (rewrite collect_results_other in Hk by lia; discriminate).
  rewrite collect_results_lookup in Hk by lia. cbn zeta in Hk.
  destruct (0 <? length (Validator.label_durations data k))%nat eqn:E;
    [|discriminate].
  inversion Hk. cbn. apply Hmean. now apply has_label_durations.
Qed.

Lemma generated_corpus_has_finite_ratios_witness :
  exists data g' results report r,
    GenV3.generate_sequence_based_data_v3 GenV3.JITTER_SIGMA 30 (10, 40)%Q
      Scenario.varied = Ok (data, g') /\
    Validator.validate_timing_standards data = Ok (results, report) /\
    Validator.word_ratio report = Finite r /\ (0 < r)%Q.
Proof.
  destruct (GenV3.generate_sequence_based_data_v3 GenV3.JITTER_SIGMA 30 (10, 40)%Q
              Scenario.varied) as [[data g']|e] eqn:Hgen;
    [|vm_compute in Hgen; discriminate].
  assert (Hlab : forall k, In k [0; 1; 3; 4]%Z ->
                           (0 <? length (Validator.label_durations data k))%nat = true).
  { assert (E : match GenV3.generate_sequence_based_data_v3 GenV3.JITTER_SIGMA 30
                        (10, 40)%Q Scenario.varied with
                | Ok (d, _) =>
                    forallb (fun k => (0 <? length (Validator.label_durations d k))%nat)
                            [0; 1; 3; 4]%Z
                | Raise _ => false
                end = true) by (vm_compute; reflexivity).
    rewrite Hgen in E. rewrite forallb_forall in E. exact E. }
  assert (Hval := validate_Ok data
                    (proj2 (has_label_durations data 0%Z) (Hlab 0%Z ltac:(cbn; tauto)))
                    (proj2 (has_label_durations data 1%Z) (Hlab 1%Z ltac:(cbn; tauto)))
                    (proj2 (has_label_durations data 3%Z) (Hlab 3%Z ltac:(cbn; tauto)))
                    (proj2 (has_label_durations data 4%Z) (Hlab 4%Z ltac:(cbn; tauto)))).
  cbn zeta in Hval.
  destruct (generated_corpus_has_finite_ratios _ _ _ _ _ _ _ _
              (or_intror Hgen) Hval) as (_ & _ & _ & r & Hr & Hp).
  eexists data, g', _, _, r. split; [reflexivity|]. split; [exact Hval|].
  split; [exact Hr|exact Hp].
Defined.

(** The returned statistics have an entry exactly for the classes 0..4
    that occur in the corpus, and the entry's count is the number of rows
    of its class. *)
Theorem validator_entry_counts df results report :
  Validator.validate_timing_standards df = Ok (results, report) ->
  (forall k st, results !! k = Some st ->
      (0 <= k <= 4)%Z /\ Validator.count st = count_label df k /\
      (1 <= Validator.count st)%nat) /\
  (forall k, (0 <= k <= 4)%Z -> (1 <= count_label df k)%nat ->
      is_Some (results !! k)).
Proof.
  intros H.
  assert (Hl : has_label df 0 /\ has_label df 1 /\ has_label df 3 /\ has_label df 4)
    by (apply validate_returns_iff; eauto).
  destruct Hl as (H0 & H1 & H3 & H4).
  rewrite (validate_Ok df H0 H1 H3 H4) in H. cbn zeta in H.
  inversion H; subst. clear H.
  assert (Hlen : forall k, length (Validator.label_durations df k) = count_label df k).
  { intros k. unfold Validator.label_durations, count_label. apply length_map. }
  split.
  - intros k st Hk.
    destruct (Z_le_dec 0 k) as [Hk0|Hk0]; [destruct (Z_le_dec k 4) as [Hk4|Hk4]|];
      try (rewrite collect_results_other in Hk by lia; discriminate).
    rewrite collect_results_lookup in Hk by lia. cbn zeta in Hk.
    destruct (Nat.ltb_spec 0 (length (Validator.label_durations df k)));
      [|discriminate].
    inversion Hk. cbn. rewrite <- Hlen. repeat split; lia.
  - intros k Hk Hc. rewrite collect_results_lookup by lia. cbn zeta.
    rewrite Hlen. destruct (Nat.ltb_spec 0 (count_label df k)); [eauto|lia].
Qed.

Lemma validator_entry_counts_witness :
  exists results report st,
    Validator.validate_timing_standards Scenario.no_element_gap = Ok (results, report) /\
    results !! 3%Z = Some st /\ Validator.count st = 1%nat.
Proof.
  destruct (Validator.validate_timing_standards Scenario.no_element_gap)
    as [[results report]|e] eqn:E; [|vm_compute in E; discriminate].
  destruct (proj2 (validator_entry_counts _ _ _ E) 3%Z ltac:(lia)) as [st Hst].
  - vm_compute. lia.
  - destruct (proj1 (validator_entry_counts _ _ _ E) 3%Z st Hst) as (_ & Hc & _).
    exists results, report, st. split; [reflexivity|]. split; [exact Hst|].
    rewrite Hc. reflexivity.
Defined.

(** ** validate_predictions_timing *)

Lemma timing_units_lookup k :
  EvalV3.timing_units !! k =
  if ((0 <=? k) && (k <=? 4))%Z then Some (expected_units k) else None.
Proof.
  destruct ((0 <=? k) && (k <=? 4))%Z eqn:E.
  - apply andb_true_iff in E as [E1 E2].
    apply Z.leb_le in E1. apply Z.leb_le in E2.
    assert (Hk : (k = 0 \/ k = 1 \/ k = 2 \/ k = 3 \/ k = 4)%Z) by lia.
    destruct Hk as [->|[->|[->|[->| ->]]]]; reflexivity.
  - unfold EvalV3.timing_units. cbn [list_to_map foldr uncurry curry fst snd].
    assert (Hk : ~ (0 <= k <= 4)%Z).
    { intros [H1 H2]. apply Z.leb_le in H1. apply Z.leb_le in H2.
      rewrite H1, H2 in E. discriminate. }
    cbn. rewrite !lookup_insert_ne by lia. apply lookup_empty.
Qed.

Lemma timing_units_getitem_class k :
  class_label k -> EvalV3.timing_units_getitem k = Ok (expected_units k).
Proof.
  intros [H1 H2]. unfold EvalV3.timing_units_getitem. rewrite timing_units_lookup.
  apply Z.leb_le in H1. apply Z.leb_le in H2. now rewrite H1, H2.
Qed.

Lemma timing_units_getitem_unknown k :
  ~ class_label k -> EvalV3.timing_units_getitem k = Raise (KeyError (KInt k)).
Proof.
  intros Hk. unfold EvalV3.timing_units_getitem. rewrite timing_units_lookup.
  destruct ((0 <=? k) && (k <=? 4))%Z eqn:E; [|reflexivity].
  apply andb_true_iff in E as [E1 E2].
  apply Z.leb_le in E1. apply Z.leb_le in E2. exfalso. apply Hk. split; assumption.
Qed.

Lemma class_label_dec k : class_label k \/ ~ class_label k.
Proof. unfold class_label. lia. Qed.

Lemma timing_error_body_class tp errors :
  class_label (fst tp) -> class_label (snd tp) ->
  EvalV3.timing_error_body tp errors = Ok (errors ++ timing_error tp).
Proof.
  destruct tp as [t p]. cbn [fst snd]. intros Ht Hp.
  unfold EvalV3.timing_error_body, timing_error. cbn [fst snd].
  rewrite (timing_units_getitem_class t Ht), (timing_units_getitem_class p Hp).
  cbn [rbind]. destruct (expected_units t =? expected_units p)%Z; cbn [negb];
    [now rewrite app_nil_r|reflexivity].
Qed.

Lemma timing_error_loop_class pairs :
  forall errors,
    Forall (fun tp => class_label (fst tp) /\ class_label (snd tp)) pairs ->
    TrainV3.for_each_r EvalV3.timing_error_body pairs errors
    = Ok (errors ++ flat_map timing_error pairs).
Proof.
  induction pairs as [|tp pairs IH]; intros errors Hall.
  - cbn. now rewrite app_nil_r.
  - inversion Hall as [|? ? [Ht Hp] Hrest]; subst.
    cbn [TrainV3.for_each_r flat_map].
    rewrite (timing_error_body_class tp errors Ht Hp). cbn [rbind].
    rewrite IH by exact Hrest. now rewrite app_assoc.
Qed.

Lemma timing_error_loop_raise pairs :
  forall errors e,
    TrainV3.for_each_r EvalV3.timing_error_body pairs errors = Raise e ->
    exists k, e = KeyError (KInt k) /\ ~ class_label k /\
              (In k (map fst pairs) \/ In k (map snd pairs)).
Proof.
  induction pairs as [|[t p] pairs IH]; intros errors e H; [discriminate|].
  cbn [TrainV3.for_each_r] in H.
  destruct (class_label_dec t) as [Ht|Ht].
  - destruct (class_label_dec p) as [Hp|Hp].
    + rewrite (timing_error_body_class (t, p) errors Ht Hp) in H. cbn [rbind] in H.
      apply IH in H as (k & He & Hk & HIn). exists k. cbn [map fst snd In]. tauto.
    + unfold EvalV3.timing_error_body in H.
      rewrite (timing_units_getitem_class t Ht),
        (timing_units_getitem_unknown p Hp) in H. cbn in H. inversion H.
      exists p. cbn [map fst snd In]. tauto.
  - unfold EvalV3.timing_error_body in H.
    rewrite (timing_units_getitem_unknown t Ht) in H. cbn in H. inversion H.
    exists t. cbn [map fst snd In]. tauto.
Qed.

Lemma in_combine_fst {A B} (a : list A) (b : list B) x :
  In x (map fst (combine a b)) -> In x a.
Proof.
  intros H. apply in_map_iff in H as ([u v] & <- & H). eapply in_combine_l. exact H.
Qed.

Lemma in_combine_snd {A B} (a : list A) (b : list B) x :
  In x (map snd (combine a b)) -> In x b.
Proof.
  intros H. apply in_map_iff in H as ([u v] & <- & H). eapply in_combine_r. exact H.
Qed.

(** The timing check returns whenever all labels are class labels 0..4;
    it can only raise [KeyError], and then on a true or predicted label
    that is none of them. *)
Theorem timing_check_key_errors true_labels predicted_labels :
  (Forall class_label true_labels -> Forall class_label predicted_labels ->
   exists report,
     EvalV3.validate_predictions_timing true_labels predicted_labels = Ok report) /\
  (forall e,
     EvalV3.validate_predictions_timing true_labels predicted_labels = Raise e ->
     exists k, e = KeyError (KInt k) /\ ~ class_label k /\
               (In k true_labels \/ In k predicted_labels)).
Proof.
  split.
  - intros Ht Hp. unfold EvalV3.validate_predictions_timing.
    rewrite timing_error_loop_class; [cbn [rbind]; eauto|].
    apply List.Forall_forall. intros [t p] HIn. cbn [fst snd].
    rewrite List.Forall_forall in Ht, Hp.
    split; [apply Ht; eapply in_combine_l|apply Hp; eapply in_combine_r]; exact HIn.
  - intros e H. unfold EvalV3.validate_predictions_timing in H.
    destruct (TrainV3.for_each_r EvalV3.timing_error_body
                (combine true_labels predicted_labels) []) as [errors|e'] eqn:E;
      [discriminate|].
    cbn [rbind] in H. inversion H; subst e'.
    apply timing_error_loop_raise in E as (k & He & Hk & [HIn|HIn]).
    + exists k. split; [exact He|]. split; [exact Hk|].
      left. eapply in_combine_fst. exact HIn.
    + exists k. split; [exact He|]. split; [exact Hk|].
      right. eapply in_combine_snd. exact HIn.
Qed.

Lemma timing_check_key_errors_witness :
  (exists report,
      EvalV3.validate_predictions_timing [0; 1; 4]%Z [2; 1; 3]%Z = Ok report) /\
  EvalV3.validate_predictions_timing [0; 7]%Z [0; 1]%Z = Raise (KeyError (KInt 7)).
Proof.
  split.
  - apply (proj1 (timing_check_key_errors [0; 1; 4]%Z [2; 1; 3]%Z));
      repeat constructor; unfold class_label; lia.
  - destruct (EvalV3.validate_predictions_timing [0; 7]%Z [0; 1]%Z)
      as [report|e] eqn:E; [vm_compute in E; discriminate|].
    destruct (proj2 (timing_check_key_errors [0; 7]%Z [0; 1]%Z) e E)
      as (k & -> & Hk & HIn).
    unfold class_label in Hk. cbn in HIn.
    assert (k = 7%Z) as -> by lia. reflexivity.
Defined.

Lemma timing_error_loop_inv pairs :
  forall errors out,
    TrainV3.for_each_r EvalV3.timing_error_body pairs errors = Ok out ->
    Forall (fun tp => class_label (fst tp) /\ class_label (snd tp)) pairs /\
    out = errors ++ flat_map timing_error pairs.
Proof.
  induction pairs as [|[t p] pairs IH]; intros errors out H.
  - cbn in H. inversion H. rewrite app_nil_r. split; [constructor|reflexivity].
  - cbn [TrainV3.for_each_r] in H.
    destruct (class_label_dec t) as [Ht|Ht];
      [|unfold EvalV3.timing_error_body in H;
        rewrite (timing_units_getitem_unknown t Ht) in H; discriminate].
    destruct (class_label_dec p) as [Hp|Hp];
      [|unfold EvalV3.timing_error_body in H;
        rewrite (timing_units_getitem_class t Ht),
          (timing_units_getitem_unknown p Hp) in H; discriminate].
    rewrite (timing_error_body_class (t, p) errors Ht Hp) in H. cbn [rbind] in H.
    apply IH in H as (Hall & ->). split; [constructor; auto|].
    cbn [flat_map]. now rewrite app_assoc.
Qed.

Lemma timing_check_Ok_inv true_labels predicted_labels report :
  EvalV3.validate_predictions_timing true_labels predicted_labels = Ok report ->
  let pairs := combine true_labels predicted_labels in
  let errors := flat_map timing_error pairs in
  let confusion := fold_left EvalV3.confusion_body pairs 0%Z in
  Forall (fun tp => class_label (fst tp) /\ class_label (snd tp)) pairs /\
  report =
  EvalV3.mk_timing_report
    (if (0 <? length errors)%nat
     then Some (Validator.series_mean errors * 100)%Q else None)
    confusion
    (if (0 <? confusion)%Z
     then Some (inject_Z confusion / inject_Z (Z.of_nat (length true_labels)) * 100)%Q
     else None).
Proof.
  cbn zeta. unfold EvalV3.validate_predictions_timing. intros H.
  destruct (TrainV3.for_each_r EvalV3.timing_error_body
              (combine true_labels predicted_labels) []) as [errors|e] eqn:E;
    [|discriminate].
  cbn [rbind] in H. apply timing_error_loop_inv in E as (Hall & ->).
  cbn [app] in H. inversion H. split; [exact Hall|reflexivity].
Qed.

Lemma flat_map_nil_iff {A B} (f : A -> list B) (l : list A) :
  flat_map f l = [] <-> Forall (fun x => f x = []) l.
Proof.
  induction l as [|x l IH]; cbn; [split; [constructor|reflexivity]|].
  split.
  - intros H. apply app_eq_nil in H as [H1 H2]. constructor; [exact H1|now apply IH].
  - intros H. inversion H; subst. rewrite H2. now apply IH.
Qed.

(** The check reports "Perfect classification" exactly when every
    predicted class has the unit count of the true class: taking a Dit for
    an ElementSpace or a Dah for a LetterSpace, or the reverse, is no
    timing error. *)
Theorem timing_check_compares_units true_labels predicted_labels report :
  EvalV3.validate_predictions_timing true_labels predicted_labels = Ok report ->
  (EvalV3.avg_timing_error report = None <->
   Forall (fun tp => expected_units (fst tp) = expected_units (snd tp))
          (combine true_labels predicted_labels)).
Proof.
  intros H. apply timing_check_Ok_inv in H as (_ & ->). cbn zeta.
  cbn [EvalV3.avg_timing_error].
  remember (flat_map timing_error (combine true_labels predicted_labels))
    as errors eqn:Herr.
  assert (Hnil : errors = [] <->
                 Forall (fun tp => expected_units (fst tp) = expected_units (snd tp))
                        (combine true_labels predicted_labels)).
  { subst errors. rewrite flat_map_nil_iff.
    split; intros Hall; eapply Forall_impl; try exact Hall; intros tp Htp;
      unfold timing_error in *.
    - destruct (Z.eqb_spec (expected_units (fst tp)) (expected_units (snd tp)));
        [assumption|discriminate].
    - apply Z.eqb_eq in Htp. now rewrite Htp. }
  rewrite <- Hnil. clear. destruct errors; cbn; split; congruence.
Qed.

Lemma timing_check_compares_units_witness :
  exists report,
    EvalV3.validate_predictions_timing [0; 1; 2; 3]%Z [2; 3; 0; 1]%Z = Ok report /\
    EvalV3.avg_timing_error report = None /\
    EvalV3.dit_element_confusion report = 2%Z.
Proof.
  destruct (EvalV3.validate_predictions_timing [0; 1; 2; 3]%Z [2; 3; 0; 1]%Z)
    as [report|e] eqn:E; [|vm_compute in E; discriminate].
  exists report. split; [reflexivity|]. split.
  - apply (proj2 (timing_check_compares_units _ _ _ E)).
    repeat constructor.
  - assert (Hm : match EvalV3.validate_predictions_timing [0; 1; 2; 3]%Z
                         [2; 3; 0; 1]%Z with
                 | Ok rep => EvalV3.dit_element_confusion rep
                 | Raise _ => 0%Z
                 end = 2%Z) by (vm_compute; reflexivity).
    now rewrite E in Hm.
Defined.






(** ** evaluate_model *)

Lemma evaluate_fold (test_loader : list (list (Z * Z))) :
  forall all_preds all_labels correct total,
    fold_left
      (fun '(all_preds, all_labels, correct, total) batch =>
         (all_preds ++ map fst batch,
          all_labels ++ map snd batch,
          (correct + Z.of_nat (length (List.filter
                                         (fun py => (fst py =? snd py)%Z) batch)))%Z,
          (total + Z.of_nat (length batch))%Z))
      test_loader (all_preds, all_labels, correct, total)
    = (all_preds ++ map fst (concat test_loader),
       all_labels ++ map snd (concat test_loader),
       (correct + Z.of_nat (length (List.filter (fun py => (fst py =? snd py)%Z)
                                                (concat test_loader))))%Z,
       (total + Z.of_nat (length (concat test_loader)))%Z).
Proof.
  induction test_loader as [|batch rest IH]; intros ap al c t.
  - cbn. rewrite !app_nil_r, !Z.add_0_r. reflexivity.
  - cbn [fold_left concat]. rewrite IH.
    rewrite !map_app, List.filter_app, !length_app, !Nat2Z.inj_add.
    rewrite <- !app_assoc, <- !Z.add_assoc. reflexivity.
Qed.

(** What [evaluate_model] computes, in terms of the samples of all
    batches. *)
Lemma evaluate_model_unfold test_loader :
  let samples := concat test_loader in
  let all_preds := map fst samples in
  let all_labels := map snd samples in
  EvalV3.evaluate_model test_loader =
  let? accuracy :=
    EvalV3.int_div
      (Z.of_nat (length (List.filter (fun py => (fst py =? snd py)%Z) samples)))
      (Z.of_nat (length samples)) in
  let per_class :=
    flat_map
      (fun class_id =>
         let preds := EvalV3.masked_preds all_labels all_preds class_id in
         if (0 <? length preds)%nat
         then [(class_id, EvalV3.mean_equal preds class_id)] else [])
      EvalV3.range5 in
  let confusions :=
    flat_map
      (fun true_class =>
         let confused_with := EvalV3.masked_preds all_labels all_preds true_class in
         if (0 <? length confused_with)%nat then
           flat_map
             (fun pred_class =>
                if negb (pred_class =? true_class)%Z then
                  if Qltb 0.05 (EvalV3.mean_equal confused_with pred_class)
                  then [(true_class, pred_class,
                         EvalV3.mean_equal confused_with pred_class)]
                  else []
                else [])
             EvalV3.range5
         else [])
      EvalV3.range5 in
  let? timing := EvalV3.validate_predictions_timing all_labels all_preds in
  Ok (accuracy,
      EvalV3.mk_eval_report per_class confusions (0 <? length confusions)%nat timing).
Proof.
  cbn zeta. unfold EvalV3.evaluate_model. rewrite evaluate_fold.
  cbn [app Z.add]. reflexivity.
Qed.

Lemma filter_length_le {A} (f : A -> bool) (l : list A) :
  (length (List.filter f l) <= length l)%nat.
Proof.
  induction l as [|x l IH]; [reflexivity|]. cbn. destruct (f x); cbn; lia.
Qed.

Lemma filter_all_length {A} (f : A -> bool) (l : list A) :
  length (List.filter f l) = length l <-> Forall (fun x => f x = true) l.
Proof.
  induction l as [|x l IH]; [split; [constructor|reflexivity]|].
  cbn. pose proof (filter_length_le f l) as Hle.
  destruct (f x) eqn:E; cbn; split.
  - intros H. constructor; [exact E|]. apply IH. lia.
  - intros H. inversion H; subst. f_equal. now apply IH.
  - lia.
  - intros H. inversion H; subst. congruence.
Qed.

Lemma nat_ratio_le (a b : nat) (p q : Z) :
  (0 < b)%nat -> (0 < q)%Z ->
  (inject_Z (Z.of_nat a) / inject_Z (Z.of_nat b) <= inject_Z p / inject_Z q)%Q <->
  (Z.of_nat a * q <= p * Z.of_nat b)%Z.
Proof.
  intros Hb Hq.
  assert (Hb' : (0 < inject_Z (Z.of_nat b))%Q)
    by (change 0%Q with (inject_Z 0); rewrite <- Zlt_Qlt; lia).
  assert (Hq' : (0 < inject_Z q)%Q)
    by (change 0%Q with (inject_Z 0); rewrite <- Zlt_Qlt; lia).
  assert (Hbn : ~ (inject_Z (Z.of_nat b) == 0)%Q)
    by (intros E; rewrite E in Hb'; exact (Qlt_irrefl _ Hb')).
  assert (Hqn : ~ (inject_Z q == 0)%Q)
    by (intros E; rewrite E in Hq'; exact (Qlt_irrefl _ Hq')).
  rewrite <- (Qmult_le_r _ _ (inject_Z (Z.of_nat b) * inject_Z q))
    by (apply Qmult_lt_0_compat; assumption).
  setoid_replace (inject_Z (Z.of_nat a) / inject_Z (Z.of_nat b)
                  * (inject_Z (Z.of_nat b) * inject_Z q))%Q
    with (inject_Z (Z.of_nat a * q)) using relation Qeq
    by (rewrite inject_Z_mult; field; exact Hbn).
  setoid_replace (inject_Z p / inject_Z q * (inject_Z (Z.of_nat b) * inject_Z q))%Q
    with (inject_Z (p * Z.of_nat b)) using relation Qeq
    by (rewrite inject_Z_mult; field; exact Hqn).
  now rewrite <- Zle_Qle.
Qed.

(** [evaluate_model] raises [ZeroDivisionError] when the loader yields no
    sample; when it returns, the accuracy is the share of samples whose
    predicted class is the label, a number between 0 and 1 that is 1
    exactly when every prediction is right. *)
Theorem evaluate_model_accuracy test_loader :
  (concat test_loader = [] ->
   EvalV3.evaluate_model test_loader = Raise ZeroDivisionError) /\
  (forall accuracy report,
      EvalV3.evaluate_model test_loader = Ok (accuracy, report) ->
      let samples := concat test_loader in
      let hits := List.filter (fun py => (fst py =? snd py)%Z) samples in
      samples <> [] /\
      accuracy = (inject_Z (Z.of_nat (length hits))
                  / inject_Z (Z.of_nat (length samples)))%Q /\
      (0 <= accuracy)%Q /\ (accuracy <= 1)%Q /\
      ((1 <= accuracy)%Q <-> Forall (fun py => fst py = snd py) samples)).
Proof.
  split.
  - intros Hempty. rewrite evaluate_model_unfold. cbn zeta. rewrite Hempty.
    reflexivity.
  - intros accuracy report H. rewrite evaluate_model_unfold in H. cbn zeta in H.
    cbn zeta.
    set (samples := concat test_loader) in *.
    unfold EvalV3.int_div in H.
    destruct (Z.eqb_spec (Z.of_nat (length samples)) 0) as [Hz|Hnz];
      [discriminate|].
    cbn [rbind] in H.
    destruct (EvalV3.validate_predictions_timing _ _); [|discriminate].
    cbn [rbind] in H. inversion H as [[Hacc Hrep]]. clear H Hrep.
    assert (Hpos : (0 < length samples)%nat) by lia.
    pose proof (filter_length_le (fun py => (fst py =? snd py)%Z) samples) as Hle.
    split; [destruct samples; [cbn in Hpos; lia|congruence]|].
    split; [reflexivity|].
    split; [|split].
    + change 0%Q with (inject_Z 0 / inject_Z 1)%Q.
      setoid_replace (inject_Z 0 / inject_Z 1)%Q
        with (inject_Z (Z.of_nat 0) / inject_Z (Z.of_nat (length samples)))%Q
        using relation Qeq.
      * apply nat_ratio_le; [exact Hpos|lia|lia].
      * cbn. field. change 0%Q with (inject_Z 0). rewrite inject_Z_injective. lia.
    + change 1%Q with (inject_Z 1 / inject_Z 1)%Q.
      apply nat_ratio_le; [exact Hpos|lia|lia].
    + assert (Hiff : Forall (fun py : Z * Z => (fst py =? snd py)%Z = true) samples <->
                     Forall (fun py : Z * Z => fst py = snd py) samples).
      { split; intros Hall; eapply Forall_impl; try exact Hall; intros py;
          apply Z.eqb_eq. }
      change 1%Q with (inject_Z (Z.of_nat 1) / inject_Z (Z.of_nat 1))%Q.
      split.
      * intros H1. apply Hiff.
        apply (proj1 (filter_all_length (fun py => (fst py =? snd py)%Z) samples)).
        apply (nat_ratio_le 1 1 (Z.of_nat (length (List.filter _ samples)))
                 (Z.of_nat (length samples))) in H1; lia.
      * intros Hall. apply Hiff in Hall.
        apply (proj2 (filter_all_length (fun py => (fst py =? snd py)%Z) samples))
          in Hall.
        rewrite Hall.
        apply (nat_ratio_le 1 1 (Z.of_nat (length samples))
                 (Z.of_nat (length samples))); lia.
Qed.

Lemma evaluate_model_accuracy_witness :
  EvalV3.evaluate_model [[]; []] = Raise ZeroDivisionError /\
  (exists accuracy report,
      EvalV3.evaluate_model [[(0, 0); (1, 1)]; [(2, 0)]]%Z = Ok (accuracy, report) /\
      (0 <= accuracy)%Q /\ (accuracy <= 1)%Q).
Proof.
  split.
  - apply (proj1 (evaluate_model_accuracy [[]; []])). reflexivity.
  - destruct (EvalV3.evaluate_model [[(0, 0); (1, 1)]; [(2, 0)]]%Z)
      as [[accuracy report]|e] eqn:E; [|vm_compute in E; discriminate].
    destruct (proj2 (evaluate_model_accuracy _) accuracy report E)
      as (_ & _ & H0 & H1 & _).
    exists accuracy, report. auto.
Defined.

(** ** train_model: the loop variables *)

Lemma float_lt_irrefl v : float_lt v v = false.
Proof.
  destruct v; cbn; try reflexivity. apply Qltb_ge, Qle_refl.
Qed.

Lemma float_lt_trans a b c :
  float_lt a b = true -> float_lt b c = true -> float_lt a c = true.
Proof.
  destruct a, b, c; cbn; try congruence.
  intros H1 H2. apply Qltb_lt in H1, H2. apply Qltb_lt.
  eapply Qlt_trans; eassumption.
Qed.

Lemma improved_consistent model st m :
  best_loss_consistent st ->
  float_lt (TrainV3.val_loss m) (TrainV3.best_val_loss st) = true ->
  best_loss_consistent (improved model st m).
Proof.
  intros (Hnone & Hin & Hmin & Hnan) Hlt. unfold best_loss_consistent. cbn.
  split; [|split; [|split]].
  - split; [discriminate|]. intros E. rewrite E in Hlt.
    destruct (TrainV3.best_val_loss st); discriminate.
  - right. apply in_or_app. right. now left.
  - intros v Hv. apply in_app_or in Hv as [Hv|Hv];
      [|cbn in Hv; destruct Hv as [<-|[]]].
    + destruct (float_lt v (TrainV3.val_loss m)) eqn:E; [|reflexivity].
      rewrite <- (Hmin v Hv). symmetry. eapply float_lt_trans; eassumption.
    + apply float_lt_irrefl.
  - intros E. rewrite E in Hlt. discriminate.
Qed.

Lemma stalled_consistent st m :
  best_loss_consistent st ->
  float_lt (TrainV3.val_loss m) (TrainV3.best_val_loss st) = false ->
  best_loss_consistent (stalled st m).
Proof.
  intros (Hnone & Hin & Hmin & Hnan) Hlt. unfold best_loss_consistent. cbn.
  split; [exact Hnone|]. split; [|split; [|exact Hnan]].
  - destruct Hin as [Hin|Hin]; [now left|right]. apply in_or_app. now left.
  - intros v Hv. apply in_app_or in Hv as [Hv|Hv]; [now apply Hmin|].
    cbn in Hv. destruct Hv as [<-|[]]. exact Hlt.
Qed.

Lemma history_lengths_append hst m n :
  history_lengths hst n ->
  history_lengths (TrainV3.history_append hst m) (Datatypes.S n).
Proof.
  intros (H1 & H2 & H3 & H4). unfold history_lengths. cbn.
  rewrite !length_app. cbn. lia.
Qed.

Section LoopVariables.

Context {V : Type}.
Variable model : TrainV3.nn_module.
Variable run_epoch : nat -> list V -> result (list V * TrainV3.metrics).
Variable patience : Z.

Lemma epoch_loop_best_loss :
  forall epochs st h st' stopped h',
    TrainV3.epoch_loop model run_epoch patience epochs st h = Ok ((st', stopped), h') ->
    best_loss_consistent st -> best_loss_consistent st'.
Proof.
  induction epochs as [|epoch rest IH]; intros st h st' stopped h' Hrun Hinv.
  - cbn in Hrun. unfold ret in Hrun. inversion Hrun; subst. exact Hinv.
  - destruct (run_epoch epoch (TrainV3.read_parameters model h)) as [[vals m]|e] eqn:E.
    + rewrite (epoch_loop_step _ _ _ _ _ _ _ _ _ E) in Hrun.
      destruct (float_lt (TrainV3.val_loss m) (TrainV3.best_val_loss st)) eqn:Hlt.
      * eapply IH; [exact Hrun|]. now apply improved_consistent.
      * destruct (TrainV3.patience_counter st + 1 >=? patience)%Z.
        -- inversion Hrun; subst. now apply stalled_consistent.
        -- eapply IH; [exact Hrun|]. now apply stalled_consistent.
    + rewrite (epoch_loop_raise _ _ _ _ _ _ _ _ E) in Hrun. discriminate.
Qed.

Lemma epoch_loop_history :
  forall n a st h st' stopped h' k0,
    TrainV3.epoch_loop model run_epoch patience (seq a n) st h
    = Ok ((st', stopped), h') ->
    history_lengths (TrainV3.history st) k0 ->
    exists k, (k <= n)%nat /\
      history_lengths (TrainV3.history st') (k0 + k) /\
      (stopped = None -> k = n) /\
      (forall e, stopped = Some e ->
         e = (a + k)%nat /\ (1 <= k)%nat /\
         (patience <= TrainV3.patience_counter st')%Z).
Proof.
  induction n as [|n IH]; intros a st h st' stopped h' k0 Hrun Hlen.
  - cbn in Hrun. unfold ret in Hrun. inversion Hrun; subst.
    exists 0%nat. rewrite Nat.add_0_r. repeat split; try lia; try exact Hlen;
      try apply Hlen; discriminate.
  - cbn [seq] in Hrun.
    destruct (run_epoch a (TrainV3.read_parameters model h)) as [[vals m]|e] eqn:E.
    + rewrite (epoch_loop_step _ _ _ _ _ _ _ _ _ E) in Hrun.
      pose proof (history_lengths_append _ m _ Hlen) as Hlen'.
      assert (Hrec : forall st1,
                 TrainV3.history st1 = TrainV3.history_append (TrainV3.history st) m ->
                 TrainV3.epoch_loop model run_epoch patience (seq (Datatypes.S a) n) st1
                   (TrainV3.write_parameters model vals h) = Ok ((st', stopped), h') ->
                 exists k, (k <= Datatypes.S n)%nat /\
                   history_lengths (TrainV3.history st') (k0 + k) /\
                   (stopped = None -> k = Datatypes.S n) /\
                   (forall e, stopped = Some e ->
                      e = (a + k)%nat /\ (1 <= k)%nat /\
                      (patience <= TrainV3.patience_counter st')%Z)).
      { intros st1 Hh Hrest.
        destruct (IH _ _ _ _ _ _ (Datatypes.S k0) Hrest) as (k & Hk & Hl & Hn & Hs).
        - rewrite Hh. exact Hlen'.
        - exists (Datatypes.S k). split; [lia|].
          split; [now replace (k0 + Datatypes.S k)%nat with (Datatypes.S k0 + k)%nat by lia|].
          split; [intros Hnone; rewrite (Hn Hnone); reflexivity|].
          intros e He. destruct (Hs e He) as (-> & _ & Hp). repeat split; lia. }
      destruct (float_lt (TrainV3.val_loss m) (TrainV3.best_val_loss st)).
      * apply (Hrec (improved model st m)); [reflexivity|exact Hrun].
      * destruct (TrainV3.patience_counter st + 1 >=? patience)%Z eqn:Hp.
        -- inversion Hrun; subst. exists 1%nat. split; [lia|].
           split; [now replace (k0 + 1)%nat with (Datatypes.S k0) by lia|].
           split; [discriminate|]. intros e He. inversion He; subst.
           repeat split; try lia. cbn. rewrite Z.geb_leb in Hp.
           now apply Z.leb_le in Hp.
        -- apply (Hrec (stalled st m)); [reflexivity|exact Hrun].
    + rewrite (epoch_loop_raise _ _ _ _ _ _ _ _ E) in Hrun. discriminate.
Qed.

Lemma train_model_run_loop epochs h st stopped h' :
  TrainV3.train_model_run model run_epoch patience epochs h = Ok ((st, stopped), h') ->
  exists h_loop,
    TrainV3.epoch_loop model run_epoch patience (seq 0 epochs) TrainV3.initial_state h
    = Ok ((st, stopped), h_loop).
Proof.
  unfold TrainV3.train_model_run. intros Hrun.
  apply bind_Ok in Hrun as ([st1 stopped1] & h1 & Hloop & Hrest).
  apply bind_Ok in Hrest as (u & h2 & _ & Hret).
  unfold ret in Hret. inversion Hret; subst. eauto.
Qed.

End LoopVariables.

(** When [train_model] reaches its [return], the four lists of [history]
    have one entry per epoch that ran; that number is the budget when the
    loop ran to its end, and the 1-based epoch printed by "Early stopping
    at epoch ..." when it was left early, which needs the patience counter
    to have reached the patience. *)
Theorem train_model_history {V} (model : TrainV3.nn_module)
    (run_epoch : nat -> list V -> result (list V * TrainV3.metrics))
    (patience : Z) (epochs : nat) (h : TrainV3.store V) st stopped h' :
  TrainV3.train_model_run model run_epoch patience epochs h = Ok ((st, stopped), h') ->
  TrainV3.train_model model run_epoch patience epochs h = Ok (TrainV3.history st, h') /\
  history_lengths (TrainV3.history st) (epochs_run st) /\
  (epochs_run st <= epochs)%nat /\
  (stopped = None -> epochs_run st = epochs) /\
  (forall e, stopped = Some e ->
     epochs_run st = e /\ (1 <= e)%nat /\
     (patience <= TrainV3.patience_counter st)%Z).
Proof.
  intros Hrun.
  split.
  { unfold TrainV3.train_model, bind. rewrite Hrun. reflexivity. }
  apply train_model_run_loop in Hrun as (h_loop & Hloop).
  assert (H0 : history_lengths (TrainV3.history (@TrainV3.initial_state)) 0%nat)
    by (repeat split).
  destruct (epoch_loop_history model run_epoch patience _ _ _ _ _ _ _ 0%nat Hloop H0)
    as (k & Hk & Hl & Hn & Hs).
  cbn [Nat.add] in Hl. assert (Hruns : epochs_run st = k) by apply Hl.
  rewrite Hruns. split; [exact Hl|]. split; [exact Hk|]. split; [exact Hn|].
  intros e He. destruct (Hs e He) as (-> & H1 & Hp). cbn [Nat.add].
  split; [reflexivity|]. split; [exact H1|exact Hp].
Qed.

Lemma train_model_history_witness :
  exists st h',
    TrainV3.train_model_run Scenario.one_weight
      (Scenario.scripted_epochs Scenario.worse_twice) 2 10 Scenario.fresh_store
    = Ok ((st, Some 3%nat), h') /\
    epochs_run st = 3%nat /\ (2 <= TrainV3.patience_counter st)%Z.
Proof.
  destruct (TrainV3.train_model_run Scenario.one_weight
              (Scenario.scripted_epochs Scenario.worse_twice) 2 10 Scenario.fresh_store)
    as [[[st stopped] h']|e] eqn:E; [|vm_compute in E; discriminate].
  assert (Hs : stopped = Some 3%nat).
  { assert (E' : match TrainV3.train_model_run Scenario.one_weight
                         (Scenario.scripted_epochs Scenario.worse_twice) 2 10
                         Scenario.fresh_store with
                 | Ok ((_, s), _) => s
                 | Raise _ => None
                 end = Some 3%nat) by (vm_compute; reflexivity).
    rewrite E in E'. exact E'. }
  subst stopped.
  destruct (train_model_history _ _ _ _ _ _ _ _ E) as (_ & _ & _ & _ & Hstop).
  destruct (Hstop 3%nat eq_refl) as (Hruns & _ & Hp).
  exists st, h'. auto.
Defined.

(** When [train_model] reaches its [return], a model state was kept
    exactly when the best validation loss left its initial infinity; the
    best loss is then one of the recorded validation losses, it is not NaN,
    and no recorded validation loss compares below it. *)
Theorem train_model_best_loss {V} (model : TrainV3.nn_module)
    (run_epoch : nat -> list V -> result (list V * TrainV3.metrics))
    (patience : Z) (epochs : nat) (h : TrainV3.store V) st stopped h' :
  TrainV3.train_model_run model run_epoch patience epochs h = Ok ((st, stopped), h') ->
  (TrainV3.best_model_state st = None <-> TrainV3.best_val_loss st = PosInf) /\
  (TrainV3.best_val_loss st = PosInf \/
   In (TrainV3.best_val_loss st) (TrainV3.hist_val_loss (TrainV3.history st))) /\
  (forall v, In v (TrainV3.hist_val_loss (TrainV3.history st)) ->
             float_lt v (TrainV3.best_val_loss st) = false) /\
  TrainV3.best_val_loss st <> NaN.
Proof.
  intros Hrun. apply train_model_run_loop in Hrun as (h_loop & Hloop).
  apply (epoch_loop_best_loss model run_epoch patience _ _ _ _ _ _ Hloop).
  unfold best_loss_consistent. cbn. repeat split; try tauto; try discriminate.
Qed.

Lemma train_model_best_loss_witness :
  exists st stopped h',
    TrainV3.train_model_run Scenario.one_weight
      (Scenario.scripted_epochs Scenario.nan_first) 20 3 Scenario.fresh_store
    = Ok ((st, stopped), h') /\
    TrainV3.best_val_loss st <> NaN /\
    (forall v, In v (TrainV3.hist_val_loss (TrainV3.history st)) ->
               float_lt v (TrainV3.best_val_loss st) = false).
Proof.
  destruct (TrainV3.train_model_run Scenario.one_weight
              (Scenario.scripted_epochs Scenario.nan_first) 20 3 Scenario.fresh_store)
    as [[[st stopped] h']|e] eqn:E; [|vm_compute in E; discriminate].
  destruct (train_model_best_loss _ _ _ _ _ _ _ _ E) as (_ & _ & Hmin & Hnan).
  exists st, stopped, h'. split; [reflexivity|]. split; [exact Hnan|exact Hmin].
Defined.

(** ** The figures of an epoch *)

(** The block under "Calculate metrics" returns exactly when both loaders
    yielded a batch and both sample totals are not zero; anything else is
    a [ZeroDivisionError], and [train_model] passes it on: with a loader
    that yields no batch in the first epoch the call raises. *)
Theorem empty_loader_raises {V} (model : TrainV3.nn_module)
    (passes : nat -> list V -> list V * list EvalV3.batch * list EvalV3.batch)
    (patience : Z) (epochs : nat) (h : TrainV3.store V)
    vals train_loader val_loader :
  passes 0%nat (TrainV3.read_parameters model h) = (vals, train_loader, val_loader) ->
  ((exists m, EvalV3.epoch_metrics train_loader val_loader = Ok m) <->
   train_loader <> [] /\ val_loader <> [] /\
   EvalV3.sum_sizes train_loader <> 0%Z /\ EvalV3.sum_sizes val_loader <> 0%Z) /\
  (forall e, EvalV3.epoch_metrics train_loader val_loader = Raise e ->
             e = ZeroDivisionError) /\
  (train_loader = [] \/ val_loader = [] ->
   TrainV3.train_model model (EvalV3.batched_epoch passes) patience
     (Datatypes.S epochs) h = Raise ZeroDivisionError).
Proof.
  intros Hpass.
  assert (Hcases :
    (train_loader = [] \/ val_loader = [] \/
     EvalV3.sum_sizes train_loader = 0%Z \/ EvalV3.sum_sizes val_loader = 0%Z) /\
    EvalV3.epoch_metrics train_loader val_loader = Raise ZeroDivisionError \/
    (train_loader <> [] /\ val_loader <> [] /\
     EvalV3.sum_sizes train_loader <> 0%Z /\ EvalV3.sum_sizes val_loader <> 0%Z) /\
    exists m, EvalV3.epoch_metrics train_loader val_loader = Ok m).
  { unfold EvalV3.epoch_metrics, EvalV3.div_by_len, EvalV3.int_div.
    destruct train_loader as [|b1 l1]; [left; split; [now left|reflexivity]|].
    destruct val_loader as [|b2 l2]; [left; split; [right; now left|reflexivity]|].
    cbn [length Nat.eqb rbind].
    destruct (Z.eqb_spec (EvalV3.sum_sizes (b1 :: l1)) 0) as [E1|E1];
      [left; split; [right; right; now left|reflexivity]|].
    cbn [rbind].
    destruct (Z.eqb_spec (EvalV3.sum_sizes (b2 :: l2)) 0) as [E2|E2];
      [left; split; [right; right; now right|reflexivity]|].
    cbn [rbind]. right. split; [|eauto].
    repeat split; try discriminate; assumption. }
  split; [|split].
  - destruct Hcases as [(Hbad & Hr)|(Hgood & Hr)].
    + split; [intros (m & Hm); congruence|].
      intros (H1 & H2 & H3 & H4). exfalso. tauto.
    + split; [intros _; exact Hgood|intros _; exact Hr].
  - intros e He. destruct Hcases as [(_ & Hr)|(_ & m & Hr)]; congruence.
  - intros Hempty.
    assert (Hr : EvalV3.epoch_metrics train_loader val_loader = Raise ZeroDivisionError).
    { destruct Hcases as [(_ & Hr)|((H1 & H2 & _) & _)]; [exact Hr|tauto]. }
    unfold TrainV3.train_model, TrainV3.train_model_run. cbn [seq].
    unfold bind at 1. unfold bind at 1.
    rewrite (epoch_loop_raise model (EvalV3.batched_epoch passes) patience 0%nat
               (seq 1 epochs) TrainV3.initial_state h ZeroDivisionError);
      [reflexivity|].
    unfold EvalV3.batched_epoch. rewrite Hpass, Hr. reflexivity.
Qed.

Lemma empty_loader_raises_witness :
  TrainV3.train_model Scenario.one_weight
    (EvalV3.batched_epoch
       (fun _ vals => (vals, [EvalV3.mk_batch 0.5 3 4], @nil EvalV3.batch)))
    20 150 Scenario.fresh_store
  = Raise ZeroDivisionError.
Proof.
  apply (proj2 (proj2 (empty_loader_raises Scenario.one_weight
           (fun _ vals => (vals, [EvalV3.mk_batch 0.5 3 4], @nil EvalV3.batch))
           20 149 Scenario.fresh_store
           (TrainV3.read_parameters Scenario.one_weight Scenario.fresh_store)
           [EvalV3.mk_batch 0.5 3 4] [] eq_refl))).
  right. reflexivity.
Defined.

(** ** Sequence windows out of range *)

Section WindowErrors.

Context {A B : Type}.
Variables (X : list A) (y : list B) (seq_len : nat).

Lemma create_sequences_loop_raise :
  forall n a acc,
    (0 < n)%nat -> (length y < a + n + seq_len)%nat ->
    TrainV3.for_each_r
      (fun i '(X_seq, y_seq) =>
         let X_seq := X_seq ++ [TrainV3.slice X i (i + seq_len)] in
         let? t := TrainV3.array_getitem y (i + seq_len) in
         Ok (X_seq, y_seq ++ [t]))
      (seq a n) acc
    = Raise IndexError.
Proof.
  induction n as [|n IH]; intros a [X_seq y_seq] Hn Hlen; [lia|].
  cbn [seq TrainV3.for_each_r]. cbn zeta. unfold TrainV3.array_getitem.
  destruct (y !! (a + seq_len)%nat) as [t|] eqn:E; cbn [rbind]; [|reflexivity].
  apply lookup_lt_Some in E. apply IH; lia.
Qed.

End WindowErrors.

(** The window builder reads the target at [i + L] for every start [i]
    below [len(X) - L]: when the targets are fewer than the rows and there
    is at least one window it raises [IndexError]; otherwise it returns,
    the windows being the [len(X) - L] slices of length at most [L] and the
    targets the entries [L .. len(X) - 1] of [y], whatever follows them. *)
Theorem create_sequences_index_error {A B} (X : list A) (y : list B) (L : nat) :
  ((L < length X)%nat /\ (length y < length X)%nat ->
   TrainV3.create_sequences X y L = Raise IndexError) /\
  ((length X <= L)%nat \/ (length X <= length y)%nat ->
   TrainV3.create_sequences X y L =
   Ok (map (fun i => TrainV3.slice X i (i + L)) (seq 0 (length X - L)),
       take (length X - L) (drop L y))).
Proof.
  unfold TrainV3.create_sequences.
  replace (Z.to_nat (Z.of_nat (length X) - Z.of_nat L)) with (length X - L)%nat by lia.
  split.
  - intros (HL & Hy). apply create_sequences_loop_raise; lia.
  - intros Hok. rewrite create_sequences_loop by lia. reflexivity.
Qed.

Lemma create_sequences_index_error_witness :
  TrainV3.create_sequences [10; 11; 12; 13]%Z [0; 1; 2]%Z 2 = Raise IndexError /\
  TrainV3.create_sequences [10; 11; 12; 13]%Z [0; 1; 2; 3; 4]%Z 2
  = Ok ([[10; 11]; [11; 12]]%Z, [2; 3]%Z).
Proof.
  split.
  - apply (proj1 (create_sequences_index_error [10; 11; 12; 13]%Z [0; 1; 2]%Z 2)).
    cbn. lia.
  - apply (proj2 (create_sequences_index_error [10; 11; 12; 13]%Z
                    [0; 1; 2; 3; 4]%Z 2)).
    right. cbn. lia.
Defined.

(** ** evaluate_model: when it returns *)

Lemma combine_map_swap {A B} (s : list (A * B)) :
  combine (map snd s) (map fst s) = map (fun py => (snd py, fst py)) s.
Proof.
  induction s as [|[a b] s IH]; [reflexivity|]. cbn. now rewrite IH.
Qed.

Lemma timing_check_returns_iff true_labels predicted_labels :
  (exists report,
      EvalV3.validate_predictions_timing true_labels predicted_labels = Ok report) <->
  Forall (fun tp => class_label (fst tp) /\ class_label (snd tp))
         (combine true_labels predicted_labels).
Proof.
  split.
  - intros (report & H). now apply timing_check_Ok_inv in H as [H _].
  - intros H. unfold EvalV3.validate_predictions_timing.
    rewrite (timing_error_loop_class _ [] H). cbn [rbind]. eauto.
Qed.

(** [evaluate_model] returns exactly when the loader yields at least one
    sample and every label and every predicted class is one of 0..4; with
    no sample it raises [ZeroDivisionError], and otherwise the timing check
    at its end raises the [KeyError] of a value outside 0..4. *)
Theorem evaluate_model_returns_iff test_loader :
  ((exists out, EvalV3.evaluate_model test_loader = Ok out) <->
   concat test_loader <> [] /\
   Forall (fun py => class_label (fst py) /\ class_label (snd py))
          (concat test_loader)) /\
  (forall e, EvalV3.evaluate_model test_loader = Raise e ->
     (e = ZeroDivisionError /\ concat test_loader = []) \/
     (exists k, e = KeyError (KInt k) /\ ~ class_label k /\
                concat test_loader <> [])).
Proof.
  rewrite evaluate_model_unfold. cbn zeta.
  set (samples := concat test_loader).
  assert (Hswap :
    Forall (fun tp : Z * Z => class_label (fst tp) /\ class_label (snd tp))
           (combine (map snd samples) (map fst samples)) <->
    Forall (fun py : Z * Z => class_label (fst py) /\ class_label (snd py)) samples).
  { rewrite combine_map_swap, List.Forall_map. cbn.
    split; intros H; eapply Forall_impl; try exact H; cbn; tauto. }
  unfold EvalV3.int_div.
  destruct (Z.eqb_spec (Z.of_nat (length samples)) 0) as [Hz|Hnz].
  - assert (Hnil : samples = []) by (destruct samples; [reflexivity|cbn in Hz; lia]).
    split.
    + split; [intros (out & H); discriminate|intros (H & _); contradiction].
    + intros e He. left. cbn [rbind] in He. split; [congruence|exact Hnil].
  - assert (Hne : samples <> []) by (intros E; rewrite E in Hnz; cbn in Hnz; lia).
    cbn [rbind].
    destruct (EvalV3.validate_predictions_timing (map snd samples) (map fst samples))
      as [report|e0] eqn:E; cbn [rbind].
    + split; [|intros e He; discriminate].
      split; [|eauto]. intros _. split; [exact Hne|].
      apply Hswap. apply timing_check_returns_iff. eauto.
    + split.
      * split; [intros (out & H); discriminate|].
        intros (_ & Hall). apply Hswap, timing_check_returns_iff in Hall as (r & Hr).
        congruence.
      * intros e He. inversion He; subst. right.
        unfold EvalV3.validate_predictions_timing in E.
        destruct (TrainV3.for_each_r EvalV3.timing_error_body
                    (combine (map snd samples) (map fst samples)) [])
          as [errs|e1] eqn:El; [cbn [rbind] in E; discriminate|].
        cbn [rbind] in E. inversion E; subst.
        apply timing_error_loop_raise in El as (k & -> & Hk & _). eauto.
Qed.

(** ** The V2 generator *)

(** [generate_morse_dataset_v2] returns exactly [num_samples] rows, each of
    a class 0..3 with the key down exactly for the classes 0 and 1; no row
    has class 4, so the ratio validator of V3 never returns on such a
    corpus. *)
Theorem v2_policy_a_rows (n : nat) (base : Q) (g : rng) :
  exists data g',
    GenV2.generate_morse_dataset_v2 n base g = Ok (data, g') /\
    length data = n /\
    Forall (fun r => (0 <= label r <= 3)%Z /\ key_state_consistent r) data /\
    (forall out, Validator.validate_timing_standards data <> Ok out).
Proof.
  unfold GenV2.generate_morse_dataset_v2.
  destruct (for_each_seq_total (GenV2.dataset_body base)
              (fun i data _ =>
                 length data = i /\
                 Forall (fun r => (0 <= label r <= 3)%Z /\ key_state_consistent r) data)
              n 0%nat [] g) as (data & g' & Hrun & Hlen & Hrows).
  - intros i data t _ (Hlen & Hrows).
    unfold GenV2.dataset_body, GenV2.jitter, random_uniform, random_random,
      np_random_normal, bind, ret. cbn.
    repeat match goal with
    | |- context [if Qltb ?x ?y then _ else _] => destruct (Qltb x y)
    end;
      (eexists; eexists; split; [reflexivity|]);
      (split; [rewrite length_app; cbn; lia|]);
      (apply Forall_app; split; [exact Hrows|]);
      (constructor; [|constructor]);
      unfold key_state_consistent; cbn; intuition (try lia; try discriminate).
  - split; [reflexivity|constructor].
  - exists data, g'. split; [exact Hrun|]. split; [exact Hlen|].
    split; [exact Hrows|].
    intros out Hout.
    assert (H4 : has_label data 4)
      by (apply (validate_returns_iff data); eauto).
    destruct H4 as (r & Hr & Hl).
    rewrite List.Forall_forall in Hrows. destruct (Hrows r Hr) as (Hb & _). lia.
Qed.

Lemma evaluate_model_returns_iff_witness :
  exists out, EvalV3.evaluate_model [[(0, 0); (1, 1)]; [(2, 0)]]%Z = Ok out.
Proof.
  apply (proj2 (proj1 (evaluate_model_returns_iff [[(0, 0); (1, 1)]; [(2, 0)]]%Z))).
  split; [discriminate|].
  repeat constructor; unfold class_label; cbn; lia.
Defined.
